(** * Gesture-to-command control pipeline of the F450 ground station

    A shallow embedding of the control logic of the web ground station:
    - [utils/math]      : [calculateEMA], [mapRange], [clamp], [applyDeadzone];
    - [constants]       : [APP_CONFIG];
    - [types]           : [GestureType], [CalibrationState], [RCChannels];
    - [VideoHUD]        : the per-frame callback [onResults];
    - [App]             : the keyboard handler [handleKeyDown] that drives
                          the calibration state.

    Rendering (canvas drawing, HUD text, JSX) has no effect on the values
    studied here and is left out. *)

From Stdlib Require Import QArith Qround Qabs ZArith List Bool String Lia Lqa.
Import ListNotations.

(** ** JavaScript numbers

    A TypeScript [number] is modelled as an exact rational extended with
    the three special values of IEEE arithmetic.  Rounding, overflow and
    the sign of zero are not modelled: finite results are exact. *)

Module JS.

Inductive num : Type :=
| Fin (q : Q)
| PInf
| NInf
| NaN.

Definition Qlt_bool (a b : Q) : bool := negb (Qle_bool b a).

Definition Qsgn (q : Q) : Z := Z.sgn (Qnum q).

(** [a < b], [a <= b], [a > b] : every comparison with [NaN] is false. *)
Definition ltb (a b : num) : bool :=
  match a, b with
  | NaN, _ | _, NaN => false
  | Fin p, Fin q => Qlt_bool p q
  | NInf, Fin _ | NInf, PInf | Fin _, PInf => true
  | _, _ => false
  end.

Definition leb (a b : num) : bool :=
  match a, b with
  | NaN, _ | _, NaN => false
  | Fin p, Fin q => Qle_bool p q
  | NInf, _ | _, PInf => true
  | _, _ => false
  end.

Definition gtb (a b : num) : bool := ltb b a.

Definition isNaN (a : num) : bool :=
  match a with NaN => true | _ => false end.

Definition isFinite (a : num) : bool :=
  match a with Fin _ => true | _ => false end.

Definition neg (a : num) : num :=
  match a with
  | Fin q => Fin (- q)
  | PInf => NInf
  | NInf => PInf
  | NaN => NaN
  end.

Definition add (a b : num) : num :=
  match a, b with
  | NaN, _ | _, NaN => NaN
  | Fin p, Fin q => Fin (p + q)
  | PInf, NInf | NInf, PInf => NaN
  | PInf, _ | _, PInf => PInf
  | NInf, _ | _, NInf => NInf
  end.

Definition sub (a b : num) : num :=
  match a, b with
  | NaN, _ | _, NaN => NaN
  | Fin p, Fin q => Fin (p - q)
  | PInf, PInf | NInf, NInf => NaN
  | PInf, _ | _, NInf => PInf
  | NInf, _ | _, PInf => NInf
  end.

(** An infinity carrying the sign [s]; a zero sign has no infinity. *)
Definition signedInf (s : Z) : num :=
  match s with
  | Z0 => NaN
  | Zpos _ => PInf
  | Zneg _ => NInf
  end.

Definition sgn (a : num) : Z :=
  match a with
  | Fin q => Qsgn q
  | PInf => 1
  | NInf => (-1)
  | NaN => 0
  end.

Definition mul (a b : num) : num :=
  match a, b with
  | NaN, _ | _, NaN => NaN
  | Fin p, Fin q => Fin (p * q)
  | _, _ => signedInf (sgn a * sgn b)
  end.

(** Division.  A finite non-zero number over zero is an infinity of the
    sign of the numerator, [0 / 0] and [inf / inf] are [NaN]. *)
Definition div (a b : num) : num :=
  match a, b with
  | NaN, _ | _, NaN => NaN
  | Fin p, Fin q =>
      if Qeq_bool q 0 then signedInf (Qsgn p) else Fin (p / q)
  | Fin _, _ => Fin 0
  | _, Fin q => if Qlt_bool q 0 then neg a else a
  | _, _ => NaN
  end.

(** [Math.max] and [Math.min] return [NaN] as soon as one argument is. *)
Definition Math_max (a b : num) : num :=
  match a, b with
  | NaN, _ | _, NaN => NaN
  | _, _ => if leb a b then b else a
  end.

Definition Math_min (a b : num) : num :=
  match a, b with
  | NaN, _ | _, NaN => NaN
  | _, _ => if leb a b then a else b
  end.

Definition Math_floor (a : num) : num :=
  match a with
  | Fin q => Fin (inject_Z (Qfloor q))
  | _ => a
  end.

Definition Math_abs (a : num) : num :=
  match a with
  | Fin q => Fin (Qabs q)
  | PInf | NInf => PInf
  | NaN => NaN
  end.

Definition Math_sign (a : num) : num :=
  match a with
  | NaN => NaN
  | _ => Fin (inject_Z (sgn a))
  end.

(** [Math.pow(a, 2)], the only power the program takes. *)
Definition Math_pow2 (a : num) : num := mul a a.

(** Square root of a rational: exact on squares of rationals, otherwise
    truncated after [52] binary digits (exact rationals have no root in
    general; no property below depends on the digits kept). *)
Definition Qsqrt (q : Q) : Q :=
  let n := Qnum q in
  let d := Zpos (Qden q) in
  Qred (Qmake (Z.sqrt (n * d * 4 ^ 52)) (Qden q * 2 ^ 52)).

Definition Math_sqrt (a : num) : num :=
  match a with
  | Fin q => if Qlt_bool q 0 then NaN else Fin (Qsqrt q)
  | PInf => PInf
  | NInf | NaN => NaN
  end.

End JS.

Import JS.

Declare Scope num_scope.
Delimit Scope num_scope with num.
Bind Scope num_scope with num.
Infix "+" := add : num_scope.
Infix "-" := sub : num_scope.
Infix "*" := mul : num_scope.
Infix "/" := div : num_scope.
Infix "<?" := ltb : num_scope.
Infix "<=?" := leb : num_scope.
Infix ">?" := gtb (at level 70) : num_scope.

(** ** [utils/math] *)

Module MathUtils.

(** New = Alpha * Target + (1-Alpha) * Old *)
Definition calculateEMA (current previous alpha : num) : num :=
  ((alpha * current) + ((Fin 1 - alpha) * previous))%num.

Definition mapRange (value inMin inMax outMin outMax : num) : num :=
  (((value - inMin) * (outMax - outMin)) / (inMax - inMin) + outMin)%num.

Definition clamp (val min max : num) : num :=
  Math_min (Math_max val min) max.

(** The rescaling deadzone helper; [onResults] does not call it. *)
Definition applyDeadzone (value threshold : num) : num :=
  if (Math_abs value <? threshold)%num then Fin 0
  else
    let sign := Math_sign value in
    (sign * ((Math_abs value - threshold) / (Fin 1 - threshold)))%num.

End MathUtils.

(** ** [constants] *)

Module APP_CONFIG.

Definition EMA_ALPHA : num := Fin 0.2.
Definition DEADZONE : num := Fin 0.05.
Definition RC_MIN : num := Fin 1000.
Definition RC_MID : num := Fin 1500.
Definition RC_MAX : num := Fin 2000.
Definition EMERGENCY_LOCK_CODE : Z := 21196.

End APP_CONFIG.

(** ** [types] *)

Inductive GestureType : Type := NONE | HOVER | FORWARD | BACKWARD | UP.

(** [stage: 0 | 1 | 2 | 3], "0:Idle, 1:Far, 2:Near, 3:Ready". *)
Inductive Stage : Type := Idle | Far | Near | Ready.

Definition stage_code (s : Stage) : Z :=
  match s with Idle => 0 | Far => 1 | Near => 2 | Ready => 3 end.

Definition Stage_eqb (a b : Stage) : bool :=
  (stage_code a =? stage_code b)%Z.

Record CalibrationState : Type := mkCalibration {
  stage : Stage;
  minScale : num;
  maxScale : num
}.

Record RCChannels : Type := mkRC {
  ch1 : num;  (* Roll *)
  ch2 : num;  (* Pitch *)
  ch3 : num;  (* Throttle *)
  ch4 : num   (* Yaw *)
}.

Inductive LogType : Type := INFO | WARN | ERROR | DATA.

(** The text of a log line, by the template it is built from and the
    numbers printed into it. *)
Inductive LogMessage : Type :=
| MsgEmergencyStop
| MsgCalibrationStart
| MsgFarSampled (val : num)
| MsgCalibrationInvalid (val far : num)
| MsgNearSampled (val : num).

Record LogEntry : Type := mkLog {
  log_type : LogType;
  message : LogMessage
}.

(** A point of the hand skeleton (only [x] and [y] are read). *)
Module Landmark.
Record t : Type := mk { x : num; y : num }.
End Landmark.

Definition NormalizedLandmarkList : Type := list Landmark.t.

(** The detector's result; [multiHandLandmarks] may be undefined. *)
Record Results : Type := mkResults {
  multiHandLandmarks : option (list NormalizedLandmarkList)
}.

(** ** Exceptions

    Reading a property of [undefined] throws a [TypeError]. *)

Inductive Completion (A : Type) : Type :=
| Normal (a : A)
| TypeError.
Arguments Normal {A} a.
Arguments TypeError {A}.

Definition bind {A B : Type} (c : Completion A) (k : A -> Completion B)
  : Completion B :=
  match c with
  | Normal a => k a
  | TypeError => TypeError
  end.

Notation "x <- c ;; k" := (bind c (fun x => k))
  (at level 61, c at next level, right associativity).

Fixpoint mapM {A B : Type} (f : A -> Completion B) (l : list A)
  : Completion (list B) :=
  match l with
  | [] => Normal []
  | a :: l' => b <- f a ;; bs <- mapM f l' ;; Normal (b :: bs)
  end.

(** [lm[i]] followed by a property read. *)
Definition at_index (lm : NormalizedLandmarkList) (i : nat)
  : Completion Landmark.t :=
  match nth_error lm i with
  | Some p => Normal p
  | None => TypeError
  end.

(** ** [VideoHUD] : the frame callback *)

Module VideoHUD.

Import MathUtils.

Record LogicState : Type := mkLogic {
  smoothedIntensity : num;
  lastFrameTime : num
}.

(** The refs of the component: [logicState], [lastHandTime] and
    [lastValidRC].  Timestamps are the integer milliseconds of
    [Date.now()]. *)
Record Refs : Type := mkRefs {
  logicState : LogicState;
  lastHandTime : Z;
  lastValidRC : RCChannels
}.

(** [{ ch1: RC_MID, ch2: RC_MID, ch3: RC_MIN, ch4: RC_MID }] *)
Definition baseRC : RCChannels :=
  mkRC APP_CONFIG.RC_MID APP_CONFIG.RC_MID APP_CONFIG.RC_MIN APP_CONFIG.RC_MID.

(** The refs when the component mounts, at time [mounted]. *)
Definition initialRefs (mounted : Z) : Refs :=
  mkRefs (mkLogic (Fin 0) (Fin 0)) mounted baseRC.

Record VideoHUDProps : Type := mkProps {
  isActive : bool;
  calibration : CalibrationState
}.

(** What a call of [onResults] finds around it: whether the canvas, the
    video element and the 2d context exist, and the two readings of
    [Date.now()] (at hand detection and at the failsafe). *)
Record Env : Type := mkEnv {
  canvasReady : bool;
  now_detect : Z;
  now_failsafe : Z
}.

(** *** 2. Gesture logic *)

Definition rawScaleOf (lm : NormalizedLandmarkList) : Completion num :=
  p0 <- at_index lm 0 ;;
  p9 <- at_index lm 9 ;;
  Normal (Math_sqrt
            (Math_pow2 (Landmark.x p0 - Landmark.x p9)
             + Math_pow2 (Landmark.y p0 - Landmark.y p9))%num).

Definition fingerIndices : list nat := [8; 12; 16; 20]%nat.

(** [lm[tipIdx].y < lm[tipIdx - 2].y ? 1 : 0] *)
Definition fingerState (lm : NormalizedLandmarkList) (tipIdx : nat)
  : Completion Z :=
  tip <- at_index lm tipIdx ;;
  pip <- at_index lm (tipIdx - 2) ;;
  Normal (if (Landmark.y tip <? Landmark.y pip)%num then 1 else 0)%Z.

Definition fingersOf (lm : NormalizedLandmarkList) : Completion (list Z) :=
  mapM (fingerState lm) fingerIndices.

(** [fingers.reduce((a, b) => a + b, 0)] *)
Definition sumOf (fingers : list Z) : Z := fold_left Z.add fingers 0%Z.

(** [fingers[0] === 1] *)
Definition firstIsOne (fingers : list Z) : bool :=
  match nth_error fingers 0 with
  | Some f => (f =? 1)%Z
  | None => false
  end.

Definition classify (fingers : list Z) : GestureType :=
  let sumFingers := sumOf fingers in
  if (sumFingers =? 4)%Z then FORWARD
  else if (sumFingers =? 0)%Z then BACKWARD
  else if firstIsOne fingers && (sumFingers =? 1)%Z then UP
  else HOVER.

(** The locals set by the gesture block. *)
Record Locals : Type := mkLocals {
  gesture : GestureType;
  rawScale : num;
  hasHand : bool
}.

Definition setLastHandTime (t : Z) (r : Refs) : Refs :=
  mkRefs (logicState r) t (lastValidRC r).

Definition gestureLogic (env : Env) (results : Results) (r : Refs)
  : Refs * Completion Locals :=
  match multiHandLandmarks results with
  | Some (lm :: _) =>
      (setLastHandTime (now_detect env) r,
       scale <- rawScaleOf lm ;;
       fingers <- fingersOf lm ;;
       Normal (mkLocals (classify fingers) scale true))
  | _ => (r, Normal (mkLocals NONE (Fin 0) false))
  end.

(** *** 3. Calibration and control logic *)

(** The deadzone of the frame callback: a comparison, no rescaling. *)
Definition deadzone (smoothed : num) : num :=
  if (smoothed >? APP_CONFIG.DEADZONE)%num then smoothed else Fin 0.

(** RC mapping, from the base command. *)
Definition rcMapping (g : GestureType) (currentIntensity : num)
  : RCChannels :=
  let rcCmd := baseRC in
  let amp := Math_floor (currentIntensity * Fin 450)%num in
  match g with
  | FORWARD =>
      mkRC (ch1 rcCmd) (APP_CONFIG.RC_MID - amp)%num (ch3 rcCmd) (ch4 rcCmd)
  | BACKWARD =>
      mkRC (ch1 rcCmd) (APP_CONFIG.RC_MID + amp)%num (ch3 rcCmd) (ch4 rcCmd)
  | UP =>
      mkRC (ch1 rcCmd) (ch2 rcCmd)
           (APP_CONFIG.RC_MIN + Math_floor (currentIntensity * Fin 800))%num
           (ch4 rcCmd)
  | _ => rcCmd
  end.

Definition normalize (cal : CalibrationState) (scale : num) : num :=
  clamp ((scale - minScale cal) / (maxScale cal - minScale cal))%num
        (Fin 0) (Fin 1).

(** Returns the refs, [currentIntensity] and [rcCmd]. *)
Definition controlLogic (cal : CalibrationState) (l : Locals) (r : Refs)
  : Refs * (num * RCChannels) :=
  if hasHand l && Stage_eqb (stage cal) Ready then
    let normalized := normalize cal (rawScale l) in
    let smoothed :=
      calculateEMA normalized (smoothedIntensity (logicState r))
                   APP_CONFIG.EMA_ALPHA in
    let currentIntensity := deadzone smoothed in
    let rcCmd := rcMapping (gesture l) currentIntensity in
    (mkRefs (mkLogic smoothed (lastFrameTime (logicState r)))
            (lastHandTime r) rcCmd,
     (currentIntensity, rcCmd))
  else
    (r, (Fin 0, lastValidRC r)).

(** *** Failsafe logic (no hand) *)

Definition failsafe (env : Env) (l : Locals) (r : Refs) (rcCmd : RCChannels)
  : RCChannels :=
  let timeSinceHand := (now_failsafe env - lastHandTime r)%Z in
  if negb (hasHand l) then
    if (timeSinceHand <? 500)%Z then lastValidRC r else baseRC
  else rcCmd.

(** *** The callback *)

(** The arguments of [onGestureUpdate]. *)
Record GestureUpdate : Type := mkUpdate {
  upd_gesture : GestureType;
  upd_intensity : num;
  upd_rc : RCChannels
}.

(** The calls made to the parent: [onGestureUpdate] (when [isActive])
    and [onCalibrationStep] (when a hand is seen in stage 1 or 2). *)
Record Calls : Type := mkCalls {
  onGestureUpdate : option GestureUpdate;
  onCalibrationStep : option num
}.

Inductive Outcome : Type :=
| Skipped                 (* early return: no canvas, video or context *)
| Completed (c : Calls)
| Thrown.                 (* TypeError *)

Definition onResults (props : VideoHUDProps) (env : Env) (results : Results)
  (r : Refs) : Refs * Outcome :=
  if negb (canvasReady env) then (r, Skipped)
  else
    let (r1, c) := gestureLogic env results r in
    match c with
    | TypeError => (r1, Thrown)
    | Normal l =>
        let cal := calibration props in
        let '(r2, (currentIntensity, rcCmd)) := controlLogic cal l r1 in
        let rcCmd := failsafe env l r2 rcCmd in
        (r2,
         Completed
           (mkCalls
              (if isActive props
               then Some (mkUpdate (gesture l) currentIntensity rcCmd)
               else None)
              (if hasHand l
                  && (Stage_eqb (stage cal) Far || Stage_eqb (stage cal) Near)
               then Some (rawScale l)
               else None)))
    end.

(** A frame, and a run of frames from given refs. *)
Record Frame : Type := mkFrame {
  f_props : VideoHUDProps;
  f_env : Env;
  f_results : Results
}.

Definition frame (f : Frame) (r : Refs) : Refs * Outcome :=
  onResults (f_props f) (f_env f) (f_results f) r.

Fixpoint run (fs : list Frame) (r : Refs) : Refs * list Outcome :=
  match fs with
  | [] => (r, [])
  | f :: fs' =>
      let (r1, o) := frame f r in
      let (r2, os) := run fs' r1 in
      (r2, o :: os)
  end.

End VideoHUD.

(** ** [App] : calibration state and keyboard handler *)

Module App.

(** The part of the component state the keyboard handler touches:
    [telemetry.armState], [calibration], [logs] and the ref
    [lastSampleRef]. *)
Record State : Type := mkState {
  armState : bool;
  calibration : CalibrationState;
  logs : list LogEntry;
  lastSampleRef : num
}.

(** [useState({ stage: 0, minScale: 0.1, maxScale: 0.3 })], disarmed, no
    log, [useRef(0)]. *)
Definition initialCalibration : CalibrationState :=
  mkCalibration Idle (Fin 0.1) (Fin 0.3).

Definition initialState : State :=
  mkState false initialCalibration [] (Fin 0).

(** [prev.slice(-49)] *)
Definition slice_last (n : nat) (l : list LogEntry) : list LogEntry :=
  skipn (List.length l - n) l.

(** [setLogs(prev => [...prev.slice(-49), entry])] *)
Definition addLog (ty : LogType) (msg : LogMessage) (s : State) : State :=
  mkState (armState s) (calibration s)
          (slice_last 49 (logs s) ++ [mkLog ty msg])
          (lastSampleRef s).

Definition setArmState (b : bool) (s : State) : State :=
  mkState b (calibration s) (logs s) (lastSampleRef s).

Definition setCalibration (c : CalibrationState) (s : State) : State :=
  mkState (armState s) c (logs s) (lastSampleRef s).

(** Emergency stop (Space). *)
Definition onSpace (rendered s : State) : State :=
  if armState rendered then
    addLog ERROR MsgEmergencyStop (setArmState false s)
  else s.

(** Calibration (C): [{ ...prev, stage: 1 }]. *)
Definition onKeyC (s : State) : State :=
  let prev := calibration s in
  addLog INFO MsgCalibrationStart
         (setCalibration (mkCalibration Far (minScale prev) (maxScale prev)) s).

(** Sample (S).  The branch is chosen by the stage of the render the
    handler was bound in; the updaters read the latest state [prev]. *)
Definition onKeyS (rendered s : State) : State :=
  let prev := calibration s in
  let val := lastSampleRef s in
  match stage (calibration rendered) with
  | Far =>
      addLog INFO (MsgFarSampled val)
             (setCalibration (mkCalibration Near val (maxScale prev)) s)
  | Near =>
      if (val <=? minScale prev)%num then
        addLog ERROR (MsgCalibrationInvalid val (minScale prev)) s
      else
        addLog INFO (MsgNearSampled val)
               (setCalibration (mkCalibration Ready (minScale prev) val) s)
  | _ => s
  end.

(** [handleKeyDown], bound in the render of [rendered], run on [s]. *)
Definition handleKeyDown (rendered : State) (code : string) (s : State)
  : State :=
  let s := if String.eqb code "Space" then onSpace rendered s else s in
  let s := if String.eqb code "KeyC" then onKeyC s else s in
  let s := if String.eqb code "KeyS" then onKeyS rendered s else s in
  s.

(** [handleCalibrationStep] *)
Definition handleCalibrationStep (val : num) (s : State) : State :=
  mkState (armState s) (calibration s) (logs s) val.

(** The events that reach the calibration state: a key press, handled by
    the handler of the current render, and a span passed up by a frame. *)
Inductive Event : Type :=
| KeyDown (code : string)
| CalibrationStep (val : num).

Definition step (e : Event) (s : State) : State :=
  match e with
  | KeyDown code => handleKeyDown s code s
  | CalibrationStep val => handleCalibrationStep val s
  end.

Definition run (es : list Event) (s : State) : State :=
  fold_left (fun s e => step e s) es s.

(** The events of the calibration protocol. *)
Definition begin_calibration : list Event := [KeyDown "KeyC"].
Definition sample (span : num) : list Event :=
  [CalibrationStep span; KeyDown "KeyS"].

End App.

(** * Vocabulary of the statements *)

Import VideoHUD.

(** ** Observations on a frame *)

(** [results.multiHandLandmarks && results.multiHandLandmarks.length > 0] *)
Definition handPresent (results : Results) : bool :=
  match multiHandLandmarks results with
  | Some (_ :: _) => true
  | _ => false
  end.

(** The first hand of the frame, when there is one. *)
Definition firstHand (results : Results) : option NormalizedLandmarkList :=
  match multiHandLandmarks results with
  | Some (lm :: _) => Some lm
  | _ => None
  end.

(** The update handed to the parent by a frame, if any. *)
Definition emitted (o : Outcome) : option GestureUpdate :=
  match o with
  | Completed c => onGestureUpdate c
  | _ => None
  end.

Definition emittedRC (o : Outcome) : option RCChannels :=
  option_map upd_rc (emitted o).

Definition emittedIntensity (o : Outcome) : option num :=
  option_map upd_intensity (emitted o).

Definition emittedGesture (o : Outcome) : option GestureType :=
  option_map upd_gesture (emitted o).

(** [RC_MIN <= c <= RC_MAX] *)
Definition inRange (c : num) : bool :=
  (APP_CONFIG.RC_MIN <=? c)%num && (c <=? APP_CONFIG.RC_MAX)%num.

Definition allInRange (rc : RCChannels) : bool :=
  inRange (ch1 rc) && inRange (ch2 rc) && inRange (ch3 rc) && inRange (ch4 rc).

(** A number of [[0, 1]], or [NaN]. *)
Definition unitOrNaN (a : num) : bool :=
  isNaN a || ((Fin 0 <=? a)%num && (a <=? Fin 1)%num).

(** ** Readings of a full hand *)

(** Total readings of a landmark list, for stating what a frame with a
    full hand computes. *)
Definition origin : Landmark.t := Landmark.mk (Fin 0) (Fin 0).

Definition point (lm : NormalizedLandmarkList) (i : nat) : Landmark.t :=
  nth i lm origin.

(** Wrist [0] to middle MCP [9]. *)
Definition spanOf (lm : NormalizedLandmarkList) : num :=
  Math_sqrt
    (Math_pow2 (Landmark.x (point lm 0) - Landmark.x (point lm 9))
     + Math_pow2 (Landmark.y (point lm 0) - Landmark.y (point lm 9)))%num.

(** The tip is above its second joint. *)
Definition extended (lm : NormalizedLandmarkList) (tipIdx : nat) : bool :=
  (Landmark.y (point lm tipIdx) <? Landmark.y (point lm (tipIdx - 2)))%num.

Definition bit (b : bool) : Z := if b then 1%Z else 0%Z.

(** The locals of a frame with a full hand. *)
Definition handLocals (lm : NormalizedLandmarkList) : Locals :=
  mkLocals
    (classify [bit (extended lm 8); bit (extended lm 12);
               bit (extended lm 16); bit (extended lm 20)])
    (spanOf lm) true.

(** The indices read by the geometry block: 0 and 9, and each tip with
    its second joint. *)
Definition accessedIndices : list nat :=
  [0; 9]%nat ++ flat_map (fun tipIdx => [tipIdx; tipIdx - 2]%nat) fingerIndices.

(** The decision table of the classifier on the four extension flags
    (index, middle, ring, pinky), as the specification words it: all
    four, none, the index alone, anything else. *)
Definition gestureTable (index middle ring pinky : bool) : GestureType :=
  match index, middle, ring, pinky with
  | true, true, true, true => FORWARD
  | false, false, false, false => BACKWARD
  | true, false, false, false => UP
  | _, _, _, _ => HOVER
  end.

(** ** Runs *)

(** The commands computed in stage 3: those handed to the parent by the
    frames of a run that saw a hand while the stage was 3. *)
Fixpoint readyCommands (fs : list Frame) (os : list Outcome)
  : list RCChannels :=
  match fs, os with
  | f :: fs', o :: os' =>
      match emittedRC o with
      | Some rc =>
          if handPresent (f_results f)
             && Stage_eqb (stage (calibration (f_props f))) Ready
          then rc :: readyCommands fs' os'
          else readyCommands fs' os'
      | None => readyCommands fs' os'
      end
  | _, _ => []
  end.

(** What the frames keep true of the refs: the filter state is in
    [[0, 1]] or [NaN], the stored command is within the RC limits. *)
Definition safeRefs (r : Refs) : Prop :=
  unitOrNaN (smoothedIntensity (logicState r)) = true /\
  allInRange (lastValidRC r) = true.

(** The invariant of the calibration state: the last sample and the far
    reference are numbers, and stage 3 has the near reference strictly
    above the far one. *)
Definition calibrated (s : App.State) : Prop :=
  isNaN (App.lastSampleRef s) = false /\
  isNaN (minScale (App.calibration s)) = false /\
  (stage (App.calibration s) = Ready ->
   (minScale (App.calibration s) <? maxScale (App.calibration s))%num = true).

(** ** Examples *)

(** A frame without hand, seen at time [now] by a mounted, active
    component with calibration [cal]. *)
Definition noHandFrame (cal : CalibrationState) (now : Z) : Frame :=
  mkFrame (mkProps true cal) (mkEnv true now now) (mkResults None).

(** A 21-point hand: wrist at height 0.9, middle MCP at height [mcp]
    straight above it, each finger tip above (0.2) or below (0.5) its
    second joint (0.4) according to its flag. *)
Definition exampleHand (mcp : Q) (index middle ring pinky : bool)
  : NormalizedLandmarkList :=
  let tip (b : bool) := Landmark.mk (Fin 0.5) (Fin (if b then 0.2 else 0.5)) in
  let pip := Landmark.mk (Fin 0.5) (Fin 0.4) in
  let other := Landmark.mk (Fin 0.5) (Fin 0.7) in
  [ Landmark.mk (Fin 0.5) (Fin 0.9); other; other; other; other;
    other; pip; other; tip index;
    Landmark.mk (Fin 0.5) (Fin mcp); pip; other; tip middle;
    other; pip; other; tip ring;
    other; pip; other; tip pinky ].

(** A 21-point hand whose coordinates are dyadic fractions, so that the
    differences, squares and root taken by the geometry block are the
    same in binary floating point as here: wrist at height 0.75, middle
    MCP at height [mcp] straight above it, finger tips at 0.125
    (extended) or 0.5, second joints at 0.375. *)
Definition dyadicHand (mcp : Q) (index middle ring pinky : bool)
  : NormalizedLandmarkList :=
  let tip (b : bool) :=
    Landmark.mk (Fin 0.5) (Fin (if b then 0.125 else 0.5)) in
  let pip := Landmark.mk (Fin 0.5) (Fin 0.375) in
  let other := Landmark.mk (Fin 0.5) (Fin 0.625) in
  [ Landmark.mk (Fin 0.5) (Fin 0.75); other; other; other; other;
    other; pip; other; tip index;
    Landmark.mk (Fin 0.5) (Fin mcp); pip; other; tip middle;
    other; pip; other; tip ring;
    other; pip; other; tip pinky ].

Definition handFrame (cal : CalibrationState) (now : Z)
  (lm : NormalizedLandmarkList) : Frame :=
  mkFrame (mkProps true cal) (mkEnv true now now) (mkResults (Some [lm])).

(** A full calibration (far 0.2, near 0.5) followed by a new
    [begin_calibration]. *)
Definition recalibrated : App.State :=
  App.run (App.begin_calibration ++ App.sample (Fin 0.2)
           ++ App.sample (Fin 0.5) ++ App.begin_calibration)
          App.initialState.

(** * The rest of the application *)

(** ** The remainder operator and random draws *)

(** [Math.trunc] on a rational. *)
Definition Qtrunc (q : Q) : Z :=
  if Qlt_bool q 0 then Qceiling q else Qfloor q.

(** [a % b]: the remainder has the sign of the dividend; a zero divisor
    or an infinite dividend gives [NaN], an infinite divisor gives the
    dividend. *)
Definition rem (a b : num) : num :=
  match a, b with
  | NaN, _ | _, NaN => NaN
  | Fin p, Fin q =>
      if Qeq_bool q 0 then NaN else Fin (p - q * inject_Z (Qtrunc (p / q)))
  | Fin p, _ => Fin p
  | _, _ => NaN
  end.

(** A value [Math.random()] may return: a number of [[0, 1)]. *)
Definition isDraw (d : num) : bool :=
  (Fin 0 <=? d)%num && (d <? Fin 1)%num.

(** ** [services/mockMavlink] *)

Module Mavlink.

Record TelemetryData : Type := mkTelemetry {
  roll : num;
  pitch : num;
  yaw : num;
  altitude : num;
  batteryVoltage : num;
  satelliteCount : num;
  armState : bool
}.

(** The values returned by the calls of [Math.random()] of one
    [generateMockTelemetry], in the order of the fields they serve (the
    draw for the altitude is made only when armed). *)
Record Draws : Type := mkDraws {
  d_roll : num;
  d_pitch : num;
  d_yaw : num;
  d_altitude : num;
  d_satellites : num
}.

(** [(Math.random() - 0.5) * amount] *)
Definition noise (draw amount : num) : num :=
  ((draw - Fin 0.5) * amount)%num.

Definition generateMockTelemetry (draws : Draws) (currentData : TelemetryData)
  (isArmed : bool) : TelemetryData :=
  let newVoltage :=
    Math_max (Fin 10.5) (batteryVoltage currentData - Fin 0.0005)%num in
  let drift := if isArmed then Fin 2.0 else Fin 0.1 in
  mkTelemetry
    (roll currentData * Fin 0.95 + noise (d_roll draws) drift)%num
    (pitch currentData * Fin 0.95 + noise (d_pitch draws) drift)%num
    (rem (yaw currentData + noise (d_yaw draws) (Fin 0.5))%num (Fin 360))
    (if isArmed
     then Math_max (Fin 0)
            (altitude currentData + noise (d_altitude draws) (Fin 0.1))%num
     else Fin 0)
    newVoltage
    (Fin 12 + Math_floor (d_satellites draws * Fin 3))%num
    isArmed.

Definition INITIAL_TELEMETRY : TelemetryData :=
  mkTelemetry (Fin 0) (Fin 0) (Fin 0) (Fin 0) (Fin 12.6) (Fin 0) false.

(** The callback of the simulation interval:
    [prev => generateMockTelemetry(prev, prev.armState)]. *)
Definition tick (draws : Draws) (prev : TelemetryData) : TelemetryData :=
  generateMockTelemetry draws prev (armState prev).

Definition ticks (ds : list Draws) (t : TelemetryData) : TelemetryData :=
  fold_left (fun t d => tick d t) ds t.

End Mavlink.

(** ** [App] : connection, arming, telemetry and the frame callbacks *)

Module Station.

Inductive ConnectionState : Type := DISCONNECTED | CONNECTING | CONNECTED.

Definition isConnected (c : ConnectionState) : bool :=
  match c with CONNECTED => true | _ => false end.

Definition isDisconnected (c : ConnectionState) : bool :=
  match c with DISCONNECTED => true | _ => false end.

(** The log lines of the handlers below, by template. *)
Inductive StationMessage : Type :=
| MsgUdpInit
| MsgHeartbeat
| MsgUserDisconnect
| MsgLinkLost
| MsgArmCommand (newState : bool).

(** A line of the log: one written by the keyboard handler, or one of
    the above. *)
Inductive Line : Type :=
| KeyLine (e : LogEntry)
| StationLine (ty : LogType) (m : StationMessage).

(** The state of the component, with the two timers it may have
    pending: the [setTimeout]s of [toggleConnection] not yet fired, and
    [window.dbTimeout]. *)
Record State : Type := mkState {
  connection : ConnectionState;
  telemetry : Mavlink.TelemetryData;
  calibration : CalibrationState;
  logs : list Line;
  lastSampleRef : num;
  dbWriting : bool;
  connectTimers : nat;
  dbTimeout : bool
}.

Definition initialState : State :=
  mkState DISCONNECTED Mavlink.INITIAL_TELEMETRY App.initialCalibration
          [] (Fin 0) false 0 false.

(** [setLogs(prev => [...prev.slice(-49), entry])] *)
Definition addLog (l : Line) (s : State) : State :=
  mkState (connection s) (telemetry s) (calibration s)
          (skipn (List.length (logs s) - 49) (logs s) ++ [l])
          (lastSampleRef s) (dbWriting s) (connectTimers s) (dbTimeout s).

Definition setArmState (b : bool) (t : Mavlink.TelemetryData)
  : Mavlink.TelemetryData :=
  Mavlink.mkTelemetry (Mavlink.roll t) (Mavlink.pitch t) (Mavlink.yaw t)
    (Mavlink.altitude t) (Mavlink.batteryVoltage t)
    (Mavlink.satelliteCount t) b.

Definition setTelemetry (t : Mavlink.TelemetryData) (s : State) : State :=
  mkState (connection s) t (calibration s) (logs s) (lastSampleRef s)
          (dbWriting s) (connectTimers s) (dbTimeout s).

(** [toggleConnection]: from DISCONNECTED, go to CONNECTING and arm a
    1500 ms timer; otherwise disconnect and reset the telemetry.  The
    timer is never cleared. *)
Definition toggleConnection (s : State) : State :=
  match connection s with
  | DISCONNECTED =>
      addLog (StationLine INFO MsgUdpInit)
        (mkState CONNECTING (telemetry s) (calibration s) (logs s)
                 (lastSampleRef s) (dbWriting s) (S (connectTimers s))
                 (dbTimeout s))
  | _ =>
      addLog (StationLine WARN MsgUserDisconnect)
        (mkState DISCONNECTED Mavlink.INITIAL_TELEMETRY (calibration s)
                 (logs s) (lastSampleRef s) (dbWriting s) (connectTimers s)
                 (dbTimeout s))
  end.

(** The callback of that timer, when one is pending. *)
Definition connectTimer (s : State) : State :=
  match connectTimers s with
  | O => s
  | S n =>
      addLog (StationLine INFO MsgHeartbeat)
        (mkState CONNECTED (telemetry s) (calibration s) (logs s)
                 (lastSampleRef s) (dbWriting s) n (dbTimeout s))
  end.

(** [toggleArm] *)
Definition toggleArm (s : State) : State :=
  if negb (isConnected (connection s)) then s
  else
    let newState := negb (Mavlink.armState (telemetry s)) in
    addLog (StationLine (if newState then WARN else INFO)
                        (MsgArmCommand newState))
           (setTelemetry (setArmState newState (telemetry s)) s).

(** The connection watchdog effect. *)
Definition watchdog (s : State) : State :=
  if isDisconnected (connection s) && Mavlink.armState (telemetry s) then
    addLog (StationLine ERROR MsgLinkLost)
           (setTelemetry (setArmState false (telemetry s)) s)
  else s.

(** The simulation interval, which exists while CONNECTED. *)
Definition simulationTick (draws : Mavlink.Draws) (s : State) : State :=
  if isConnected (connection s)
  then setTelemetry (Mavlink.tick draws (telemetry s)) s
  else s.

(** [handleGestureUpdate] *)
Definition handleGestureUpdate (u : GestureUpdate) (s : State) : State :=
  if negb (isConnected (connection s)) then s
  else if (upd_intensity u >? Fin 0)%num then
    mkState (connection s) (telemetry s) (calibration s) (logs s)
            (lastSampleRef s) true (connectTimers s) true
  else s.

(** The callback of [window.dbTimeout], when it is pending. *)
Definition dbTimer (s : State) : State :=
  if dbTimeout s then
    mkState (connection s) (telemetry s) (calibration s) (logs s)
            (lastSampleRef s) false (connectTimers s) false
  else s.

(** [handleCalibrationStep] *)
Definition handleCalibrationStep (val : num) (s : State) : State :=
  mkState (connection s) (telemetry s) (calibration s) (logs s) val
          (dbWriting s) (connectTimers s) (dbTimeout s).

(** The keyboard handler of [App], run on the part of the state it
    touches; the lines it logs are appended to the log. *)
Definition keyView (s : State) : App.State :=
  App.mkState (Mavlink.armState (telemetry s)) (calibration s) []
              (lastSampleRef s).

Definition keyDown (code : string) (s : State) : State :=
  let k := App.handleKeyDown (keyView s) code (keyView s) in
  fold_left (fun s e => addLog (KeyLine e) s) (App.logs k)
    (mkState (connection s)
             (setArmState (App.armState k) (telemetry s))
             (App.calibration k) (logs s) (App.lastSampleRef k)
             (dbWriting s) (connectTimers s) (dbTimeout s)).

(** One call of [onResults] by the mounted [VideoHUD] ([isActive] is
    [true], [calibration] is the current one), followed by the callbacks
    it makes. *)
Definition onFrame (env : Env) (results : Results) (s : State) (r : Refs)
  : State * Refs :=
  let (r', o) := onResults (mkProps true (calibration s)) env results r in
  match o with
  | Completed c =>
      let s1 := match onGestureUpdate c with
                | Some u => handleGestureUpdate u s
                | None => s
                end in
      let s2 := match onCalibrationStep c with
                | Some val => handleCalibrationStep val s1
                | None => s1
                end in
      (s2, r')
  | _ => (s, r')
  end.

Inductive Event : Type :=
| KeyDown (code : string)
| ToggleConnection
| ConnectTimer
| ToggleArm
| SimulationTick (draws : Mavlink.Draws)
| DbTimer
| Frame (env : Env) (results : Results).

(** An event, then the watchdog effect of the render that follows. *)
Definition step (e : Event) (sr : State * Refs) : State * Refs :=
  let (s, r) := sr in
  let (s', r') :=
    match e with
    | KeyDown code => (keyDown code s, r)
    | ToggleConnection => (toggleConnection s, r)
    | ConnectTimer => (connectTimer s, r)
    | ToggleArm => (toggleArm s, r)
    | SimulationTick draws => (simulationTick draws s, r)
    | DbTimer => (dbTimer s, r)
    | Frame env results => onFrame env results s r
    end in
  (watchdog s', r').

Definition run (es : list Event) (sr : State * Refs) : State * Refs :=
  fold_left (fun sr e => step e sr) es sr.

(** The application at mount. *)
Definition mounted (t : Z) : State * Refs := (initialState, initialRefs t).

End Station.

(** ** More vocabulary *)

(** Equality of numbers as values: two finite numbers are equal when the
    rationals are. *)
Definition sameValue (a b : num) : Prop :=
  match a, b with
  | Fin p, Fin q => p == q
  | PInf, PInf | NInf, NInf | NaN, NaN => True
  | _, _ => False
  end.

(** The span passed up to the calibration by a frame, if any. *)
Definition calibrationStep (o : Outcome) : option num :=
  match o with
  | Completed c => onCalibrationStep c
  | _ => None
  end.

(** Landmarks whose coordinates are all finite numbers. *)
Definition finitePoint (p : Landmark.t) : bool :=
  isFinite (Landmark.x p) && isFinite (Landmark.y p).

Definition finiteResults (results : Results) : bool :=
  match multiHandLandmarks results with
  | Some hands => forallb (forallb finitePoint) hands
  | None => true
  end.

Definition finiteEvent (e : Station.Event) : bool :=
  match e with
  | Station.Frame _ results => finiteResults results
  | _ => true
  end.

(** The events whose random draws are in [[0, 1)]. *)
Definition drawsOk (d : Mavlink.Draws) : bool :=
  isDraw (Mavlink.d_roll d) && isDraw (Mavlink.d_pitch d)
  && isDraw (Mavlink.d_yaw d) && isDraw (Mavlink.d_altitude d)
  && isDraw (Mavlink.d_satellites d).

(** A finite number of absolute value at most [b]. *)
Definition within (b : Q) (a : num) : bool :=
  (Fin (- b) <=? a)%num && (a <=? Fin b)%num.

(** A calibration the normalization can use: the references and the
    last sample are finite, and stage 3 has the near reference strictly
    above the far one. *)
Definition soundCalibration (c : CalibrationState) (lastSample : num) : Prop :=
  isFinite lastSample = true /\
  isFinite (minScale c) = true /\
  isFinite (maxScale c) = true /\
  (stage c = Ready -> (minScale c <? maxScale c)%num = true).

(** A filter state that is a number of [[0, 1]]. *)
Definition unitState (r : Refs) : Prop :=
  exists q, smoothedIntensity (logicState r) = Fin q /\ 0 <= q <= 1.

(** What the application keeps true at every render. *)
Definition sound (sr : Station.State * Refs) : Prop :=
  soundCalibration (Station.calibration (fst sr))
                   (Station.lastSampleRef (fst sr)) /\
  unitState (snd sr).

(** What the connection handlers keep true: the vehicle is armed only
    while CONNECTED, and the log has no link-loss line. *)
Definition linkSafe (s : Station.State) : Prop :=
  (Mavlink.armState (Station.telemetry s) = true ->
   Station.connection s = Station.CONNECTED) /\
  (forall ty, ~ In (Station.StationLine ty Station.MsgLinkLost)
                   (Station.logs s)).

(** The events that are not the firing of a connection timer. *)
Definition notConnectTimer (e : Station.Event) : bool :=
  match e with Station.ConnectTimer => false | _ => true end.

(** The events that are not key presses. *)
Definition notKey (e : Station.Event) : bool :=
  match e with Station.KeyDown _ => false | _ => true end.

(** Landmarks whose coordinates are at most [coordinateBound] in
    absolute value: normalized image coordinates are around [[0, 1]], and
    the bound is far below the size at which the square of a difference
    of two coordinates would overflow a double. *)
Definition coordinateBound : Q := 1000000.

Definition boundedPoint (p : Landmark.t) : bool :=
  within coordinateBound (Landmark.x p) && within coordinateBound (Landmark.y p).

Definition boundedResults (results : Results) : bool :=
  match multiHandLandmarks results with
  | Some hands => forallb (forallb boundedPoint) hands
  | None => true
  end.

Definition boundedEvent (e : Station.Event) : bool :=
  match e with
  | Station.Frame _ results => boundedResults results
  | _ => true
  end.

(** The events whose telemetry packets use draws of [[0, 1)]. *)
Definition drawsEvent (e : Station.Event) : bool :=
  match e with
  | Station.SimulationTick draws => drawsOk draws
  | _ => true
  end.

(** The telemetry after a series of packets, each generated from the
    previous one with its own draws and armed flag. *)
Definition packets (steps : list (Mavlink.Draws * bool))
  (t : Mavlink.TelemetryData) : Mavlink.TelemetryData :=
  fold_left
    (fun t step => Mavlink.generateMockTelemetry (fst step) t (snd step))
    steps t.

(** A frame processed in stage 3 by an active component whose references
    are finite with [minScale < maxScale], showing a 21-point hand whose
    span is at most [minScale]: the hand held at the far position or
    beyond. *)
Definition farHandFrame (f : Frame) : Prop :=
  canvasReady (f_env f) = true /\
  isActive (f_props f) = true /\
  stage (calibration (f_props f)) = Ready /\
  exists (lm : NormalizedLandmarkList) (a b v : Q),
    firstHand (f_results f) = Some lm /\
    (21 <= List.length lm)%nat /\
    minScale (calibration (f_props f)) = Fin a /\
    maxScale (calibration (f_props f)) = Fin b /\
    spanOf lm = Fin v /\ v <= a /\ a < b.

(** The ranges the simulated telemetry stays in. *)
Definition telemetryInRange (t : Mavlink.TelemetryData) : Prop :=
  within 20 (Mavlink.roll t) = true /\
  within 20 (Mavlink.pitch t) = true /\
  (Fin (-360) <? Mavlink.yaw t)%num = true /\
  (Mavlink.yaw t <? Fin 360)%num = true /\
  (Fin 0 <=? Mavlink.altitude t)%num = true /\
  (Fin 10.5 <=? Mavlink.batteryVoltage t)%num = true /\
  (Mavlink.batteryVoltage t <=? Fin 12.6)%num = true /\
  (Fin 0 <=? Mavlink.satelliteCount t)%num = true /\
  (Mavlink.satelliteCount t <=? Fin 14)%num = true.

(** * Properties *)

(** ** Comparisons and rounding *)

(** [a > b] excludes [a <= b], and conversely. *)
Lemma gtb_not_leb (a b : num) : (a >? b)%num = true -> (a <=? b)%num = false.
Proof.
  destruct a as [p| | |], b as [q| | |]; cbn; try discriminate; try reflexivity.
  unfold Qlt_bool. now destruct (Qle_bool p q).
Qed.

Lemma leb_not_gtb (a b : num) : (a <=? b)%num = true -> (a >? b)%num = false.
Proof.
  destruct a as [p| | |], b as [q| | |]; cbn; try discriminate; try reflexivity.
  unfold Qlt_bool. now intros ->.
Qed.

(** Away from [NaN], the failure of [a <= b] is [b < a]. *)
Lemma not_leb_ltb (a b : num) :
  isNaN a = false -> isNaN b = false ->
  (a <=? b)%num = false -> (b <? a)%num = true.
Proof.
  destruct a as [p| | |], b as [q| | |]; cbn; try discriminate; try reflexivity.
  unfold Qlt_bool. now intros _ _ ->.
Qed.

Lemma unit_interval_finite (i : num) :
  (Fin 0 <=? i)%num = true -> (i <=? Fin 1)%num = true ->
  exists q, i = Fin q /\ 0 <= q <= 1.
Proof.
  destruct i as [q| | |]; cbn; try discriminate.
  intros H0 H1. exists q.
  apply Qle_bool_iff in H0. apply Qle_bool_iff in H1. auto.
Qed.

Lemma unitOrNaN_cases (a : num) :
  unitOrNaN a = true -> a = NaN \/ exists q, a = Fin q /\ 0 <= q <= 1.
Proof.
  unfold unitOrNaN. intros H. apply orb_true_iff in H as [H|H].
  - left. now destruct a.
  - right. apply andb_true_iff in H as [H0 H1].
    now apply unit_interval_finite.
Qed.

Lemma unitOrNaN_Fin (q : Q) : 0 <= q <= 1 -> unitOrNaN (Fin q) = true.
Proof.
  intros [H0 H1]. unfold unitOrNaN. cbn.
  apply andb_true_iff; split; now apply Qle_bool_iff.
Qed.

(** The amplitude [floor(q * k)] of an intensity [q] in [[0, 1]] lies in
    [[0, k]]. *)
Lemma amplitude_bounds (q : Q) (k : Z) :
  0 <= q <= 1 -> (0 <= k)%Z ->
  (0 <= Qfloor (q * inject_Z k) <= k)%Z.
Proof.
  intros [Hq0 Hq1] Hk.
  assert (HkQ : 0 <= inject_Z k) by (rewrite (Zle_Qle 0 k) in Hk; exact Hk).
  split.
  - change 0%Z with (Qfloor 0). apply Qfloor_resp_le. nra.
  - rewrite <- (Qfloor_Z k) at 2. apply Qfloor_resp_le. nra.
Qed.

Lemma inRange_Fin (q : Q) :
  1000 <= q <= 2000 -> inRange (Fin q) = true.
Proof.
  intros [Hlo Hhi]. unfold inRange. cbn.
  apply andb_true_iff; split; apply Qle_bool_iff; assumption.
Qed.


Lemma calculateEMA_NaN (previous alpha : num) :
  MathUtils.calculateEMA NaN previous alpha = NaN.
Proof. unfold MathUtils.calculateEMA. now destruct alpha. Qed.

(** [clamp(v, 0, 1)] is in [[0, 1]] for every [v] but [NaN]. *)
Lemma clamp_unitOrNaN (v : num) :
  unitOrNaN (MathUtils.clamp v (Fin 0) (Fin 1)) = true.
Proof.
  unfold MathUtils.clamp.
  destruct v as [p| | |]; try reflexivity.
  cbn [Math_max leb]. destruct (Qle_bool p 0) eqn:Hp0; [reflexivity|].
  cbn [Math_min leb]. destruct (Qle_bool p 1) eqn:Hp1; [|reflexivity].
  apply unitOrNaN_Fin. apply Qle_bool_iff in Hp1. split; [|exact Hp1].
  destruct (Qlt_le_dec p 0) as [Hneg|Hpos]; [|exact Hpos].
  apply Qlt_le_weak, Qle_bool_iff in Hneg. congruence.
Qed.

(** The filter keeps its state in [[0, 1]], or at [NaN]. *)
Lemma calculateEMA_unitOrNaN (normalized previous : num) :
  unitOrNaN normalized = true -> unitOrNaN previous = true ->
  unitOrNaN (MathUtils.calculateEMA normalized previous APP_CONFIG.EMA_ALPHA)
  = true.
Proof.
  intros Hn Hp.
  destruct (unitOrNaN_cases _ Hn) as [->|(n & -> & Hn0 & Hn1)];
    [now rewrite calculateEMA_NaN|].
  destruct (unitOrNaN_cases _ Hp) as [->|(p & -> & Hp0 & Hp1)];
    [reflexivity|].
  unfold MathUtils.calculateEMA, APP_CONFIG.EMA_ALPHA. cbn [mul sub add].
  apply unitOrNaN_Fin. lra.
Qed.

(** The intensity is a number of [[0, 1]], also when the filter state is
    [NaN]. *)
Lemma deadzone_unit (smoothed : num) :
  unitOrNaN smoothed = true ->
  exists q, deadzone smoothed = Fin q /\ 0 <= q <= 1.
Proof.
  intros H. unfold deadzone.
  destruct (unitOrNaN_cases _ H) as [->|(q & -> & Hq)].
  - exists 0. split; [reflexivity|lra].
  - destruct (Fin q >? APP_CONFIG.DEADZONE)%num.
    + now exists q.
    + exists 0. split; [reflexivity|lra].
Qed.

Lemma rcMapping_zero (g : GestureType) : rcMapping g (Fin 0) = baseRC.
Proof. destruct g; reflexivity. Qed.

(** The channels of the mapper on a finite intensity of [[0, 1]]. *)
Lemma rcMapping_channels (g : GestureType) (q : Q) :
  0 <= q <= 1 ->
  let rc := rcMapping g (Fin q) in
  inRange (ch1 rc) = true /\ inRange (ch2 rc) = true /\
  inRange (ch3 rc) = true /\ inRange (ch4 rc) = true.
Proof.
  intros Hq rc.
  pose proof (amplitude_bounds q 450 Hq ltac:(lia)) as [Ha0 Ha1].
  pose proof (amplitude_bounds q 800 Hq ltac:(lia)) as [Hb0 Hb1].
  rewrite Zle_Qle in Ha0, Ha1, Hb0, Hb1.
  change (inject_Z 450) with 450%Q in *.
  change (inject_Z 800) with 800%Q in *.
  change (inject_Z 0) with 0%Q in *.
  assert (Hbase : inRange (Fin 1500) = true) by reflexivity.
  assert (Hmin : inRange (Fin 1000) = true) by reflexivity.
  subst rc.
  destruct g; cbn [rcMapping baseRC ch1 ch2 ch3 ch4
                   APP_CONFIG.RC_MID APP_CONFIG.RC_MIN
                   Math_floor mul add sub];
    repeat split; try assumption; apply inRange_Fin; lra.
Qed.

Lemma allInRange_intro (rc : RCChannels) :
  inRange (ch1 rc) = true /\ inRange (ch2 rc) = true /\
  inRange (ch3 rc) = true /\ inRange (ch4 rc) = true ->
  allInRange rc = true.
Proof.
  intros (H1 & H2 & H3 & H4). unfold allInRange.
  now rewrite H1, H2, H3, H4.
Qed.

(** The span of a hand whose wrist and middle MCP have finite
    coordinates is a finite number: the samples of the calibration are
    numbers. *)
Lemma spanOf_finite (lm : NormalizedLandmarkList) (x0 y0 x9 y9 : Q) :
  point lm 0 = Landmark.mk (Fin x0) (Fin y0) ->
  point lm 9 = Landmark.mk (Fin x9) (Fin y9) ->
  isFinite (spanOf lm) = true /\ isNaN (spanOf lm) = false.
Proof.
  intros H0 H9. unfold spanOf. rewrite H0, H9.
  cbn [Landmark.x Landmark.y sub Math_pow2 mul add Math_sqrt].
  set (q := (x0 - x9) * (x0 - x9) + (y0 - y9) * (y0 - y9)).
  assert (Hq : Qlt_bool q 0 = false).
  { unfold Qlt_bool. apply negb_false_iff, Qle_bool_iff.
    assert (Hsq : forall z : Q, 0 <= z * z)
      by (intros z; destruct (Qlt_le_dec z 0); nra).
    pose proof (Hsq (x0 - x9)). pose proof (Hsq (y0 - y9)).
    subst q. lra. }
  rewrite Hq. split; reflexivity.
Qed.

(** ** The shape of a frame *)

Lemma Stage_eqb_eq (a b : Stage) : Stage_eqb a b = true <-> a = b.
Proof. destruct a, b; cbn; split; intros H; congruence. Qed.

Lemma not_ready_eqb (s : Stage) : s <> Ready -> Stage_eqb s Ready = false.
Proof. destruct s; cbn; congruence. Qed.

Lemma at_index_in_bounds lm i :
  (i < List.length lm)%nat -> at_index lm i = Normal (point lm i).
Proof.
  intros Hi. unfold at_index, point.
  destruct (nth_error lm i) as [p|] eqn:E.
  - now rewrite (nth_error_nth lm i origin E).
  - apply nth_error_None in E. lia.
Qed.

Lemma at_index_out_of_bounds lm i :
  (List.length lm <= i)%nat -> at_index lm i = TypeError.
Proof.
  intros Hi. unfold at_index.
  apply nth_error_None in Hi. now rewrite Hi.
Qed.

Lemma rawScaleOf_full lm :
  (21 <= List.length lm)%nat -> rawScaleOf lm = Normal (spanOf lm).
Proof.
  intros H. unfold rawScaleOf.
  rewrite !at_index_in_bounds by lia. reflexivity.
Qed.

Lemma fingersOf_full lm :
  (21 <= List.length lm)%nat ->
  fingersOf lm =
  Normal [bit (extended lm 8); bit (extended lm 12);
          bit (extended lm 16); bit (extended lm 20)].
Proof.
  intros H. unfold fingersOf, fingerIndices, fingerState.
  cbn [mapM Nat.sub].
  rewrite !at_index_in_bounds by lia. reflexivity.
Qed.

Lemma fingersOf_short lm :
  (List.length lm < 21)%nat -> fingersOf lm = TypeError.
Proof.
  intros H. unfold fingersOf, fingerIndices, fingerState.
  cbn [mapM Nat.sub].
  rewrite (at_index_out_of_bounds lm 20) by lia.
  repeat match goal with
         | |- context [at_index lm ?i] => destruct (at_index lm i)
         end; reflexivity.
Qed.

Lemma firstHand_present results lm :
  firstHand results = Some lm ->
  exists hands, multiHandLandmarks results = Some (lm :: hands).
Proof.
  unfold firstHand.
  destruct (multiHandLandmarks results) as [[|lm' hands]|]; try discriminate.
  intros [= ->]. now exists hands.
Qed.

Lemma handPresent_firstHand results :
  handPresent results = true -> exists lm, firstHand results = Some lm.
Proof.
  unfold handPresent, firstHand.
  destruct (multiHandLandmarks results) as [[|lm hands]|]; try discriminate.
  intros _. now exists lm.
Qed.

Lemma no_hand_locals env results r :
  handPresent results = false ->
  gestureLogic env results r = (r, Normal (mkLocals NONE (Fin 0) false)).
Proof.
  unfold handPresent, gestureLogic.
  destruct (multiHandLandmarks results) as [[|lm hands]|];
    [reflexivity | discriminate | reflexivity].
Qed.

Lemma hand_locals env results r lm :
  firstHand results = Some lm ->
  (21 <= List.length lm)%nat ->
  gestureLogic env results r =
  (setLastHandTime (now_detect env) r, Normal (handLocals lm)).
Proof.
  intros Hf Hlen. destruct (firstHand_present results lm Hf) as [hands E].
  unfold gestureLogic. rewrite E.
  rewrite (rawScaleOf_full lm Hlen), (fingersOf_full lm Hlen). reflexivity.
Qed.

Lemma short_hand_locals env results r lm :
  firstHand results = Some lm ->
  (List.length lm < 21)%nat ->
  gestureLogic env results r =
  (setLastHandTime (now_detect env) r, TypeError).
Proof.
  intros Hf Hlen. destruct (firstHand_present results lm Hf) as [hands E].
  unfold gestureLogic. rewrite E, (fingersOf_short lm Hlen).
  destruct (rawScaleOf lm); reflexivity.
Qed.

(** A processed frame without hand. *)
Lemma no_hand_frame props env results r :
  canvasReady env = true ->
  handPresent results = false ->
  onResults props env results r =
  (r, Completed
        (mkCalls
           (if isActive props
            then Some (mkUpdate NONE (Fin 0)
                         (if (now_failsafe env - lastHandTime r <? 500)%Z
                          then lastValidRC r else baseRC))
            else None)
           None)).
Proof.
  intros Hc Hh. unfold onResults.
  rewrite Hc, (no_hand_locals env results r Hh). reflexivity.
Qed.

(** A processed frame with a hand of fewer than 21 points. *)
Lemma short_hand_frame props env results r lm :
  canvasReady env = true ->
  firstHand results = Some lm ->
  (List.length lm < 21)%nat ->
  onResults props env results r = (setLastHandTime (now_detect env) r, Thrown).
Proof.
  intros Hc Hf Hlen. unfold onResults.
  rewrite Hc, (short_hand_locals env results r lm Hf Hlen). reflexivity.
Qed.

(** A processed frame with a full hand. *)
Lemma hand_frame props env results r lm :
  canvasReady env = true ->
  firstHand results = Some lm ->
  (21 <= List.length lm)%nat ->
  onResults props env results r =
  let cal := calibration props in
  let l := handLocals lm in
  let res := controlLogic cal l (setLastHandTime (now_detect env) r) in
  (fst res,
   Completed
     (mkCalls
        (if isActive props
         then Some (mkUpdate (gesture l) (fst (snd res)) (snd (snd res)))
         else None)
        (if Stage_eqb (stage cal) Far || Stage_eqb (stage cal) Near
         then Some (spanOf lm) else None))).
Proof.
  intros Hc Hf Hlen. unfold onResults.
  rewrite Hc, (hand_locals env results r lm Hf Hlen). cbn [negb].
  destruct (controlLogic _ _ _) as [r2 [ci rc]]. reflexivity.
Qed.

(** A processed frame with a full hand in stage 3. *)
Lemma ready_hand_frame props env results r lm :
  canvasReady env = true ->
  firstHand results = Some lm ->
  (21 <= List.length lm)%nat ->
  stage (calibration props) = Ready ->
  let cal := calibration props in
  let smoothed :=
    MathUtils.calculateEMA (normalize cal (spanOf lm))
      (smoothedIntensity (logicState r)) APP_CONFIG.EMA_ALPHA in
  let rc := rcMapping (gesture (handLocals lm)) (deadzone smoothed) in
  onResults props env results r =
  (mkRefs (mkLogic smoothed (lastFrameTime (logicState r)))
          (now_detect env) rc,
   Completed
     (mkCalls
        (if isActive props
         then Some (mkUpdate (gesture (handLocals lm)) (deadzone smoothed) rc)
         else None)
        None)).
Proof.
  intros Hc Hf Hlen Hst cal smoothed rc.
  subst cal smoothed rc.
  rewrite (hand_frame props env results r lm Hc Hf Hlen).
  cbv zeta. unfold controlLogic. cbn [hasHand handLocals andb].
  rewrite Hst. reflexivity.
Qed.

(** A processed frame with a full hand outside stage 3. *)
Lemma not_ready_hand_frame props env results r lm :
  canvasReady env = true ->
  firstHand results = Some lm ->
  (21 <= List.length lm)%nat ->
  stage (calibration props) <> Ready ->
  let cal := calibration props in
  onResults props env results r =
  (setLastHandTime (now_detect env) r,
   Completed
     (mkCalls
        (if isActive props
         then Some (mkUpdate (gesture (handLocals lm)) (Fin 0) (lastValidRC r))
         else None)
        (if Stage_eqb (stage cal) Far || Stage_eqb (stage cal) Near
         then Some (spanOf lm) else None))).
Proof.
  intros Hc Hf Hlen Hst cal. subst cal.
  rewrite (hand_frame props env results r lm Hc Hf Hlen).
  cbv zeta. unfold controlLogic. cbn [hasHand handLocals andb].
  rewrite (not_ready_eqb _ Hst). reflexivity.
Qed.

(** ** Failsafe *)

(** C1.  On a processed frame with no hand, the command handed to the
    parent is the stored [lastValidRC] when less than 500 ms have passed
    since [lastHandTime], and the neutral command
    [{1500, 1500, 1000, 1500}] from 500 ms on; the refs ([lastValidRC]
    among them) are left as they were.  In particular, with
    [lastValidRC = {1600, 1400, 1200, 1500}], hand-absent frames 100 ms
    and 200 ms after the last hand emit that command and a frame 600 ms
    after emits the neutral one. *)
Theorem failsafe_hold_then_neutral :
  (forall props env results r,
      canvasReady env = true ->
      isActive props = true ->
      handPresent results = false ->
      let elapsed := (now_failsafe env - lastHandTime r)%Z in
      let r' := fst (onResults props env results r) in
      let o := snd (onResults props env results r) in
      ((elapsed < 500)%Z -> emittedRC o = Some (lastValidRC r)) /\
      ((500 <= elapsed)%Z ->
         emittedRC o =
           Some (mkRC (Fin 1500) (Fin 1500) (Fin 1000) (Fin 1500))) /\
      r' = r) /\
  (forall cal ls t0,
      let held := mkRC (Fin 1600) (Fin 1400) (Fin 1200) (Fin 1500) in
      let r0 := mkRefs ls t0 held in
      let res := run [noHandFrame cal (t0 + 100);
                      noHandFrame cal (t0 + 200);
                      noHandFrame cal (t0 + 600)] r0 in
      map emittedRC (snd res) =
        [Some held; Some held;
         Some (mkRC (Fin 1500) (Fin 1500) (Fin 1000) (Fin 1500))] /\
      lastValidRC (fst res) = held).
Proof.
  split.
  - intros props env results r Hc Ha Hh elapsed r' o.
    subst r' o. rewrite (no_hand_frame props env results r Hc Hh), Ha.
    cbn [fst snd emittedRC emitted onGestureUpdate option_map upd_rc].
    fold elapsed. repeat split.
    + intros Hlt. apply Z.ltb_lt in Hlt. now rewrite Hlt.
    + intros Hge. apply Z.ltb_ge in Hge. now rewrite Hge.
  - intros cal ls t0 held r0 res. subst res.
    unfold run, frame, noHandFrame; cbn [f_props f_env f_results].
    rewrite !no_hand_frame by reflexivity.
    cbn [isActive now_failsafe lastHandTime lastValidRC r0 fst snd map
         emittedRC emitted onGestureUpdate option_map upd_rc].
    replace (t0 + 100 - t0)%Z with 100%Z by lia.
    replace (t0 + 200 - t0)%Z with 200%Z by lia.
    replace (t0 + 600 - t0)%Z with 600%Z by lia.
    split; reflexivity.
Qed.

Lemma failsafe_hold_then_neutral_witness :
  let props := mkProps true App.initialCalibration in
  let env := mkEnv true 1000 1250 in
  let results := mkResults (Some []) in
  let r := mkRefs (mkLogic (Fin 0.4) (Fin 0)) 1000
                  (mkRC (Fin 1500) (Fin 1320) (Fin 1000) (Fin 1500)) in
  (canvasReady env = true /\ isActive props = true /\
   handPresent results = false /\ (1250 - 1000 < 500)%Z) /\
  emittedRC (snd (onResults props env results r)) =
    Some (mkRC (Fin 1500) (Fin 1320) (Fin 1000) (Fin 1500)).
Proof.
  intros props env results r. split.
  - repeat split.
  - apply (proj1 failsafe_hold_then_neutral props env results r);
      reflexivity.
Defined.

(** ** Command bounds *)

(** C2.  For every gesture and every intensity in [[0, 1]], the command
    of the mapper is the base [{1500, 1500, 1000, 1500}] with
    pitch [1500 - floor(intensity * 450)] for Forward,
    pitch [1500 + floor(intensity * 450)] for Backward and
    throttle [1000 + floor(intensity * 800)] for Up, and each of its four
    channels lies within [[1000, 2000]]. *)
Theorem rcMapping_in_range (g : GestureType) (intensity : num) :
  (Fin 0 <=? intensity)%num = true ->
  (intensity <=? Fin 1)%num = true ->
  let rc := rcMapping g intensity in
  ((Fin 1000 <=? ch1 rc)%num = true /\ (ch1 rc <=? Fin 2000)%num = true) /\
  ((Fin 1000 <=? ch2 rc)%num = true /\ (ch2 rc <=? Fin 2000)%num = true) /\
  ((Fin 1000 <=? ch3 rc)%num = true /\ (ch3 rc <=? Fin 2000)%num = true) /\
  ((Fin 1000 <=? ch4 rc)%num = true /\ (ch4 rc <=? Fin 2000)%num = true) /\
  ch1 rc = Fin 1500 /\ ch4 rc = Fin 1500 /\
  ch2 rc = match g with
           | FORWARD => (Fin 1500 - Math_floor (intensity * Fin 450))%num
           | BACKWARD => (Fin 1500 + Math_floor (intensity * Fin 450))%num
           | _ => Fin 1500
           end /\
  ch3 rc = match g with
           | UP => (Fin 1000 + Math_floor (intensity * Fin 800))%num
           | _ => Fin 1000
           end.
Proof.
  intros H0 H1 rc.
  destruct (unit_interval_finite intensity H0 H1) as (q & -> & Hq).
  destruct (rcMapping_channels g q Hq) as (R1 & R2 & R3 & R4).
  fold rc in R1, R2, R3, R4.
  unfold inRange in R1, R2, R3, R4.
  apply andb_true_iff in R1, R2, R3, R4.
  repeat (split; [assumption|]).
  subst rc. destruct g; repeat split.
Qed.

Lemma rcMapping_in_range_witness :
  ((Fin 0 <=? Fin 0.5)%num = true /\ (Fin 0.5 <=? Fin 1)%num = true) /\
  (Fin 1000 <=? ch2 (rcMapping FORWARD (Fin 0.5)))%num = true /\
  ch2 (rcMapping FORWARD (Fin 0.5)) =
    (Fin 1500 - Math_floor (Fin 0.5 * Fin 450))%num.
Proof.
  split; [split; reflexivity|].
  pose proof (rcMapping_in_range FORWARD (Fin 0.5) eq_refl eq_refl) as H.
  cbv zeta in H.
  destruct H as (_ & [Hlo _] & _ & _ & _ & _ & Hpitch & _).
  split; [exact Hlo | exact Hpitch].
Defined.

(** ** Calibration *)

Section Calibration.

Import App.

Lemma keyS_is_onKeyS (rendered s : State) :
  handleKeyDown rendered "KeyS" s = onKeyS rendered s.
Proof. reflexivity. Qed.

(** C3.  In stage 2 (waiting for the near sample), sampling a span
    [span <= minScale] leaves the calibration as it was (stage 2, both
    spans unchanged) and appends an ERROR line to the log; sampling a
    span [span > minScale] moves to stage 3 (ready) with [maxScale] set
    to exactly the sampled value and [minScale] unchanged. *)
Theorem sample_near_validated (s : State) (span : num) :
  stage (calibration s) = Near ->
  let far := minScale (calibration s) in
  let s' := run (sample span) s in
  ((span <=? far)%num = true ->
     calibration s' = calibration s /\
     stage (calibration s') = Near /\
     logs s' =
       slice_last 49 (logs s) ++ [mkLog ERROR (MsgCalibrationInvalid span far)]) /\
  ((span >? far)%num = true ->
     calibration s' = mkCalibration Ready far span).
Proof.
  intros Hst far s'. subst s'.
  unfold run, sample; cbn [fold_left step].
  rewrite keyS_is_onKeyS. unfold onKeyS.
  cbn [handleCalibrationStep calibration lastSampleRef logs armState].
  rewrite Hst. fold far. split.
  - intros Hle. rewrite Hle. cbn. auto.
  - intros Hgt. rewrite (gtb_not_leb _ _ Hgt). reflexivity.
Qed.

Lemma sample_near_validated_witness :
  let s := mkState false (mkCalibration Near (Fin 0.2) (Fin 0.3)) [] (Fin 0) in
  stage (calibration s) = Near /\
  calibration (run (sample (Fin 0.15)) s) = calibration s /\
  calibration (run (sample (Fin 0.45)) s) =
    mkCalibration Ready (Fin 0.2) (Fin 0.45).
Proof.
  intros s. split; [reflexivity|]. split.
  - apply (sample_near_validated s (Fin 0.15)); reflexivity.
  - apply (sample_near_validated s (Fin 0.45)); reflexivity.
Defined.

(** C4, as stated, fails: after a calibration with spans 0.2 and 0.5,
    [begin_calibration] leaves both spans stored; no value is written
    over them, whatever "cleared" is taken to be. *)
Lemma begin_calibration_clears_counterexample :
  calibration recalibrated = mkCalibration Far (Fin 0.2) (Fin 0.5) /\
  ~ (exists cleared : num * num,
        forall s,
          let c := calibration (run begin_calibration s) in
          (minScale c, maxScale c) = cleared).
Proof.
  split; [reflexivity|].
  intros [cleared H].
  pose proof (H initialState) as H1.
  pose proof (H (run (sample (Fin 0.2)) (run begin_calibration initialState)))
    as H2.
  cbv in H1, H2. rewrite <- H2 in H1. discriminate H1.
Qed.

(** C4, amended.  In any state, [begin_calibration] moves to stage 1
    (waiting for the far sample) and leaves both stored spans
    unchanged. *)
Theorem begin_calibration_keeps_spans (s : State) :
  let c := calibration s in
  let c' := calibration (run begin_calibration s) in
  stage c' = Far /\ minScale c' = minScale c /\ maxScale c' = maxScale c.
Proof. repeat split. Qed.

Lemma calibrated_initial : calibrated initialState.
Proof. split; [|split]; [reflexivity | reflexivity | discriminate]. Qed.

(** The handler keeps the invariant, whichever render it was bound in. *)
Lemma calibrated_handleKeyDown rendered code s :
  calibrated s -> calibrated (handleKeyDown rendered code s).
Proof.
  intros H. unfold handleKeyDown.
  assert (H1 : calibrated
                 (if String.eqb code "Space" then onSpace rendered s else s)).
  { destruct (String.eqb code "Space"); [|exact H].
    unfold onSpace. destruct (armState rendered); exact H. }
  set (s1 := if String.eqb code "Space" then _ else _) in *.
  assert (H2 : calibrated (if String.eqb code "KeyC" then onKeyC s1 else s1)).
  { destruct (String.eqb code "KeyC"); [|exact H1].
    destruct H1 as (Hs & Hm & _).
    split; [exact Hs | split; [exact Hm | cbn; discriminate]]. }
  set (s2 := if String.eqb code "KeyC" then _ else _) in *.
  destruct (String.eqb code "KeyS"); [|exact H2].
  destruct H2 as (Hs & Hm & Hr). unfold onKeyS.
  destruct (stage (calibration rendered)).
  - split; [exact Hs | split; [exact Hm | exact Hr]].
  - split; [exact Hs | split; [exact Hs | cbn; discriminate]].
  - destruct (lastSampleRef s2 <=? minScale (calibration s2))%num eqn:Hle.
    + split; [exact Hs | split; [exact Hm | exact Hr]].
    + split; [exact Hs | split; [exact Hm |]].
      cbn. intros _. apply not_leb_ltb; assumption.
  - split; [exact Hs | split; [exact Hm | exact Hr]].
Qed.

Lemma calibrated_run es : forall s,
  (forall v, In (CalibrationStep v) es -> isNaN v = false) ->
  calibrated s -> calibrated (run es s).
Proof.
  induction es as [|e es IH]; intros s Hv H; [exact H|].
  cbn [run fold_left]. apply IH.
  - intros v Hin. apply Hv. now right.
  - destruct e as [code|val]; cbn [step].
    + now apply calibrated_handleKeyDown.
    + destruct H as (_ & Hm & Hr).
      split; [cbn; apply Hv; now left | split; [exact Hm | exact Hr]].
Qed.

(** C5, as stated, fails.  The near sample is checked with
    [val <= prev.minScale] only and the far sample is not checked: a
    [NaN] sample compares false and is stored.  After
    [begin_calibration] and a far sample 0.1, a near sample [NaN] reaches
    stage 3 with [maxScale = NaN]; after a far sample [NaN], the near
    sample 0.2 reaches stage 3 with [minScale = NaN]; in both states
    [maxScale > minScale] is false. *)
Lemma nan_sample_counterexample :
  let near_nan :=
    run (begin_calibration ++ sample (Fin 0.1) ++ sample NaN) initialState in
  let far_nan :=
    run (begin_calibration ++ sample NaN ++ sample (Fin 0.2)) initialState in
  calibration near_nan = mkCalibration Ready (Fin 0.1) NaN /\
  (maxScale (calibration near_nan) >? minScale (calibration near_nan))%num
  = false /\
  calibration far_nan = mkCalibration Ready NaN (Fin 0.2) /\
  (maxScale (calibration far_nan) >? minScale (calibration far_nan))%num
  = false /\
  ~ (forall es : list Event,
        let c := calibration (run es initialState) in
        stage c = Ready -> (maxScale c >? minScale c)%num = true).
Proof.
  repeat (split; [reflexivity|]).
  intros H.
  specialize (H (begin_calibration ++ sample (Fin 0.1) ++ sample NaN)
                eq_refl).
  discriminate H.
Qed.

(** C5, amended.  In every state reached from the initial state by key
    presses ([begin_calibration], [sample] and any other key) and spans
    passed up by frames, the spans being numbers (not [NaN]), stage 3
    (ready) implies [maxScale > minScale] strictly. *)
Theorem ready_implies_near_above_far (es : list Event) :
  (forall v, In (CalibrationStep v) es -> isNaN v = false) ->
  let c := calibration (run es initialState) in
  stage c = Ready -> (maxScale c >? minScale c)%num = true.
Proof.
  intros Hv c Hready.
  destruct (calibrated_run es initialState Hv calibrated_initial)
    as (_ & _ & Hr).
  exact (Hr Hready).
Qed.

Lemma ready_implies_near_above_far_witness :
  let es := begin_calibration ++ sample (Fin 0.12) ++ sample (Fin 0.1)
            ++ sample (Fin 0.31) in
  let c := calibration (run es initialState) in
  ((forall v, In (CalibrationStep v) es -> isNaN v = false) /\
   stage c = Ready) /\
  (maxScale c >? minScale c)%num = true.
Proof.
  intros es c.
  assert (Hv : forall v, In (CalibrationStep v) es -> isNaN v = false).
  { intros v Hin. cbn in Hin.
    repeat (destruct Hin as [Hin|Hin];
            [try discriminate Hin; injection Hin as <-; reflexivity|]).
    destruct Hin. }
  split; [split; [exact Hv | reflexivity]|].
  apply (ready_implies_near_above_far es Hv). reflexivity.
Defined.

End Calibration.

(** ** Classification *)

(** C6.  The classification of a hand is the decision table on the four
    extension flags: all four extended is Forward, none is Backward, the
    index alone is Up, every other pattern is Hover (all 16 patterns);
    a processed frame with a hand reports the table's entry for the flags
    read from its landmarks, and a frame without hand reports None. *)
Theorem classification_table :
  (forall index middle ring pinky : bool,
      classify [bit index; bit middle; bit ring; bit pinky] =
        gestureTable index middle ring pinky) /\
  map (fun p : bool * bool * bool * bool =>
         let '(i, m, r, k) := p in classify [bit i; bit m; bit r; bit k])
      [(false, false, false, false); (true, false, false, false);
       (false, true, false, false); (true, true, false, false);
       (false, false, true, false); (true, false, true, false);
       (false, true, true, false); (true, true, true, false);
       (false, false, false, true); (true, false, false, true);
       (false, true, false, true); (true, true, false, true);
       (false, false, true, true); (true, false, true, true);
       (false, true, true, true); (true, true, true, true)] =
    [BACKWARD; UP; HOVER; HOVER; HOVER; HOVER; HOVER; HOVER;
     HOVER; HOVER; HOVER; HOVER; HOVER; HOVER; HOVER; FORWARD] /\
  (forall props env results r lm,
      canvasReady env = true -> isActive props = true ->
      firstHand results = Some lm -> (21 <= List.length lm)%nat ->
      emittedGesture (snd (onResults props env results r)) =
        Some (gestureTable (extended lm 8) (extended lm 12)
                           (extended lm 16) (extended lm 20))) /\
  (forall props env results r,
      canvasReady env = true -> isActive props = true ->
      handPresent results = false ->
      emittedGesture (snd (onResults props env results r)) = Some NONE).
Proof.
  assert (Htable : forall index middle ring pinky : bool,
             classify [bit index; bit middle; bit ring; bit pinky] =
               gestureTable index middle ring pinky)
    by (intros [] [] [] []; reflexivity).
  split; [exact Htable|]. split; [reflexivity|]. split.
  - intros props env results r lm Hc Ha Hf Hlen.
    rewrite (hand_frame props env results r lm Hc Hf Hlen), Ha.
    cbn. apply f_equal, Htable.
  - intros props env results r Hc Ha Hh.
    rewrite (no_hand_frame props env results r Hc Hh), Ha. reflexivity.
Qed.

Lemma classification_table_witness :
  let props := mkProps true (mkCalibration Idle (Fin 0.1) (Fin 0.3)) in
  let env := mkEnv true 2000 2000 in
  let lm := exampleHand 0.6 true false false false in
  let results := mkResults (Some [lm]) in
  let r := initialRefs 0 in
  (canvasReady env = true /\ isActive props = true /\
   firstHand results = Some lm /\ (21 <= List.length lm)%nat) /\
  emittedGesture (snd (onResults props env results r)) = Some UP.
Proof.
  intros props env lm results r.
  assert (Hlen : (21 <= List.length lm)%nat) by (cbn; lia).
  split; [repeat split; assumption|].
  exact (proj1 (proj2 (proj2 classification_table)) props env results r lm
           eq_refl eq_refl eq_refl Hlen).
Defined.

(** ** Deadzone *)

(** C7.  The deadzone threshold is 0.05; a smoothed value [<= 0.05]
    gives intensity exactly 0 and a smoothed value [> 0.05] is the
    intensity itself, unscaled; the intensity a ready frame reports is
    this function of the smoothed value it has just stored. *)
Theorem deadzone_truncates_without_rescale :
  APP_CONFIG.DEADZONE = Fin 0.05 /\
  (forall smoothed,
      (smoothed <=? Fin 0.05)%num = true -> deadzone smoothed = Fin 0) /\
  (forall smoothed,
      (smoothed >? Fin 0.05)%num = true -> deadzone smoothed = smoothed) /\
  (forall props env results r lm,
      canvasReady env = true -> isActive props = true ->
      firstHand results = Some lm -> (21 <= List.length lm)%nat ->
      stage (calibration props) = Ready ->
      let res := onResults props env results r in
      let smoothed := smoothedIntensity (logicState (fst res)) in
      emittedIntensity (snd res) =
        Some (if (smoothed >? Fin 0.05)%num then smoothed else Fin 0)).
Proof.
  split; [reflexivity|]. split; [|split].
  - intros smoothed Hle. unfold deadzone.
    change APP_CONFIG.DEADZONE with (Fin 0.05).
    now rewrite (leb_not_gtb _ _ Hle).
  - intros smoothed Hgt. unfold deadzone.
    change APP_CONFIG.DEADZONE with (Fin 0.05). now rewrite Hgt.
  - intros props env results r lm Hc Ha Hf Hlen Hst res smoothed.
    subst smoothed res.
    rewrite (ready_hand_frame props env results r lm Hc Hf Hlen Hst), Ha.
    reflexivity.
Qed.

Lemma deadzone_truncates_without_rescale_witness :
  ((Fin 0.05 <=? Fin 0.05)%num = true /\ (Fin 0.06 >? Fin 0.05)%num = true) /\
  deadzone (Fin 0.05) = Fin 0 /\ deadzone (Fin 0.06) = Fin 0.06.
Proof.
  destruct deadzone_truncates_without_rescale as (_ & Hlow & Hhigh & _).
  split; [split; reflexivity|]. split.
  - apply Hlow. reflexivity.
  - apply Hhigh. reflexivity.
Defined.

(** The helper [applyDeadzone] of [utils/math] is another function: it
    rescales what is left above the threshold. *)
Example applyDeadzone_rescales :
  (MathUtils.applyDeadzone (Fin 0.525) (Fin 0.05) <? Fin 0.525)%num = true /\
  deadzone (Fin 0.525) = Fin 0.525.
Proof. vm_compute. repeat split. Qed.

(** ** Degenerate calibration *)





(** ** Landmark sets with fewer than 21 points *)

(** C9, as stated, fails.  A hand of 20 points (the example hand
    without its last point) is not handled as a frame without hand: the
    read of [lm[20].y] throws, after [lastHandTime] has been set, and
    nothing is handed to the parent; a frame without hand completes and
    reports None with the held command. *)
Lemma short_landmarks_counterexample :
  let cal := mkCalibration Ready (Fin 0.1) (Fin 0.3) in
  let r0 := initialRefs 0 in
  let short := firstn 20 (exampleHand 0.6 true true true true) in
  List.length short = 20%nat /\
  frame (handFrame cal 1000 short) r0 = (setLastHandTime 1000 r0, Thrown) /\
  frame (noHandFrame cal 1000) r0 =
    (r0, Completed (mkCalls (Some (mkUpdate NONE (Fin 0) baseRC)) None)) /\
  emittedGesture (snd (frame (handFrame cal 1000 short) r0)) <> Some NONE.
Proof. vm_compute. repeat split. discriminate. Qed.

(** C9, amended.  On a processed frame whose first hand has at least 21
    points, every index read by the geometry block is in bounds and the
    frame completes; a first hand with fewer than 21 points is not taken
    as "no hand": the frame stops with a [TypeError] once [lastHandTime]
    has been set, the other refs are unchanged and no update is made. *)
Theorem landmark_reads_need_21_points
  (props : VideoHUDProps) (env : Env) (results : Results) (r : Refs)
  (lm : NormalizedLandmarkList) :
  canvasReady env = true ->
  firstHand results = Some lm ->
  ((21 <= List.length lm)%nat ->
     Forall (fun i => at_index lm i = Normal (point lm i)) accessedIndices /\
     exists c, snd (onResults props env results r) = Completed c) /\
  ((List.length lm < 21)%nat ->
     onResults props env results r =
       (setLastHandTime (now_detect env) r, Thrown)).
Proof.
  intros Hc Hf. split.
  - intros Hlen. split.
    + unfold accessedIndices, fingerIndices. cbn [flat_map app Nat.sub].
      repeat constructor; apply at_index_in_bounds; lia.
    + rewrite (hand_frame props env results r lm Hc Hf Hlen).
      eexists; reflexivity.
  - intros Hlen. unfold onResults.
    rewrite Hc, (short_hand_locals env results r lm Hf Hlen). reflexivity.
Qed.

Lemma landmark_reads_need_21_points_witness :
  let props := mkProps true (mkCalibration Ready (Fin 0.1) (Fin 0.3)) in
  let env := mkEnv true 1000 1000 in
  let lm := [Landmark.mk (Fin 0.5) (Fin 0.9)] in
  let results := mkResults (Some [lm]) in
  let r := initialRefs 0 in
  (canvasReady env = true /\ firstHand results = Some lm /\
   (List.length lm < 21)%nat) /\
  onResults props env results r = (setLastHandTime 1000 r, Thrown).
Proof.
  intros props env lm results r.
  assert (Hlen : (List.length lm < 21)%nat) by (cbn; lia).
  split; [repeat split; exact Hlen|].
  exact (proj2 (landmark_reads_need_21_points props env results r lm
                  eq_refl eq_refl) Hlen).
Defined.

(** ** Frames with a hand outside stage 3 *)

Lemma last_cons {A} (a d : A) (l : list A) : last (a :: l) d = last l a.
Proof.
  revert a d. induction l as [|b l IH]; intros a d; [reflexivity|].
  change (last (a :: b :: l) d) with (last (b :: l) d).
  now rewrite (IH b d), (IH b a).
Qed.

(** What one frame does to [lastValidRC], in terms of what it emits. *)
Lemma frame_lastValidRC (f : Frame) (r : Refs) :
  isActive (f_props f) = true ->
  let ready := handPresent (f_results f)
               && Stage_eqb (stage (calibration (f_props f))) Ready in
  lastValidRC (fst (frame f r)) =
  match emittedRC (snd (frame f r)) with
  | Some rc => if ready then rc else lastValidRC r
  | None => lastValidRC r
  end.
Proof.
  intros Ha ready. subst ready. revert Ha.
  destruct f as [props env results]. unfold frame; cbn [f_props f_env f_results].
  intros Ha.
  destruct (canvasReady env) eqn:Hc.
  2:{ unfold onResults. rewrite Hc. reflexivity. }
  destruct (handPresent results) eqn:Hh.
  2:{ rewrite (no_hand_frame props env results r Hc Hh), Ha. reflexivity. }
  assert (exists lm, firstHand results = Some lm) as [lm Hf].
  { unfold handPresent in Hh. unfold firstHand.
    destruct (multiHandLandmarks results) as [[|lm hands]|]; try discriminate.
    now exists lm. }
  destruct (Nat.le_gt_cases 21 (List.length lm)) as [Hlen|Hlen].
  - rewrite (hand_frame props env results r lm Hc Hf Hlen), Ha.
    cbv zeta. unfold controlLogic. cbn [hasHand handLocals andb].
    destruct (Stage_eqb (stage (calibration props)) Ready); reflexivity.
  - unfold onResults.
    rewrite Hc, (short_hand_locals env results r lm Hf Hlen). reflexivity.
Qed.

Lemma run_lastValidRC (fs : list Frame) : forall r,
  (forall f, In f fs -> isActive (f_props f) = true) ->
  lastValidRC (fst (run fs r)) =
    last (readyCommands fs (snd (run fs r))) (lastValidRC r).
Proof.
  induction fs as [|f fs IH]; intros r Hact; [reflexivity|].
  cbn [run].
  pose proof (frame_lastValidRC f r (Hact f (or_introl eq_refl))) as Hf.
  destruct (frame f r) as [r1 o]. cbn [fst snd] in Hf.
  specialize (IH r1 (fun g Hg => Hact g (or_intror Hg))).
  destruct (run fs r1) as [r2 os]. cbn [fst snd] in IH |- *.
  cbn [readyCommands]. rewrite IH, Hf.
  destruct (emittedRC o) as [rc|]; [|reflexivity].
  destruct (handPresent (f_results f)
            && Stage_eqb (stage (calibration (f_props f))) Ready);
    [now rewrite last_cons | reflexivity].
Qed.

(** C10.  A processed frame that sees a (21-point) hand while the stage
    is not 3 hands to the parent the stored [lastValidRC] with intensity
    0, and leaves [lastValidRC] and [smoothedIntensity] as they were.
    The stored command is the neutral [{1500, 1500, 1000, 1500}] at
    mount, and after any run of frames it is the command of the most
    recent frame that saw a hand in stage 3, however long ago, or the
    neutral command if there was none. *)
Theorem not_ready_frame_holds_last_command :
  (forall props env results r lm,
      canvasReady env = true -> isActive props = true ->
      firstHand results = Some lm -> (21 <= List.length lm)%nat ->
      stage (calibration props) <> Ready ->
      let res := onResults props env results r in
      emittedRC (snd res) = Some (lastValidRC r) /\
      emittedIntensity (snd res) = Some (Fin 0) /\
      lastValidRC (fst res) = lastValidRC r /\
      smoothedIntensity (logicState (fst res)) =
        smoothedIntensity (logicState r)) /\
  (forall mounted,
      lastValidRC (initialRefs mounted) =
        mkRC (Fin 1500) (Fin 1500) (Fin 1000) (Fin 1500)) /\
  (forall fs mounted,
      (forall f, In f fs -> isActive (f_props f) = true) ->
      let res := run fs (initialRefs mounted) in
      lastValidRC (fst res) =
        last (readyCommands fs (snd res))
             (mkRC (Fin 1500) (Fin 1500) (Fin 1000) (Fin 1500))).
Proof.
  split; [|split].
  - intros props env results r lm Hc Ha Hf Hlen Hst res. subst res.
    rewrite (hand_frame props env results r lm Hc Hf Hlen), Ha.
    cbv zeta. unfold controlLogic. cbn [hasHand handLocals andb].
    rewrite (not_ready_eqb _ Hst). repeat split.
  - reflexivity.
  - intros fs mounted Hact res. subst res.
    exact (run_lastValidRC fs (initialRefs mounted) Hact).
Qed.

Lemma not_ready_frame_holds_last_command_witness :
  let props := mkProps true (mkCalibration Near (Fin 0.1) (Fin 0.3)) in
  let env := mkEnv true 2000 2000 in
  let lm := exampleHand 0.6 true true true true in
  let results := mkResults (Some [lm]) in
  let held := mkRC (Fin 1500) (Fin 1275) (Fin 1000) (Fin 1500) in
  let r := mkRefs (mkLogic (Fin 0.5) (Fin 0)) 1000 held in
  (canvasReady env = true /\ isActive props = true /\
   firstHand results = Some lm /\ (21 <= List.length lm)%nat /\
   stage (calibration props) <> Ready) /\
  emittedRC (snd (onResults props env results r)) = Some held.
Proof.
  intros props env lm results held r.
  assert (Hlen : (21 <= List.length lm)%nat) by (cbn; lia).
  assert (Hst : stage (calibration props) <> Ready) by discriminate.
  split; [repeat split; assumption|].
  apply (proj1 not_ready_frame_holds_last_command props env results r lm
           eq_refl eq_refl eq_refl Hlen Hst).
Defined.

(** ** Every emitted command is within the RC limits *)

Lemma safeRefs_initial mounted : safeRefs (initialRefs mounted).
Proof. split; reflexivity. Qed.

Lemma safeRefs_setLastHandTime t r :
  safeRefs r -> safeRefs (setLastHandTime t r).
Proof. exact (fun H => H). Qed.

(** One frame keeps the refs safe and emits a command within the limits:
    the intensity given to the mapper is always in [[0, 1]]. *)
Lemma frame_safe (f : Frame) (r : Refs) :
  safeRefs r ->
  safeRefs (fst (frame f r)) /\
  (forall rc, emittedRC (snd (frame f r)) = Some rc -> allInRange rc = true).
Proof.
  intros Hsafe. pose proof Hsafe as [Hsm Hrc].
  destruct f as [props env results].
  unfold frame; cbn [f_props f_env f_results].
  destruct (canvasReady env) eqn:Hc.
  2:{ unfold onResults. rewrite Hc. cbn. split; [exact Hsafe|discriminate]. }
  destruct (handPresent results) eqn:Hh.
  2:{ rewrite (no_hand_frame props env results r Hc Hh).
      split; [exact Hsafe|].
      cbn [snd emittedRC emitted onGestureUpdate].
      destruct (isActive props); [|discriminate].
      cbn [option_map upd_rc]. intros rc [= <-].
      destruct (now_failsafe env - lastHandTime r <? 500)%Z;
        [exact Hrc | reflexivity]. }
  destruct (handPresent_firstHand results Hh) as [lm Hf].
  destruct (Nat.le_gt_cases 21 (List.length lm)) as [Hlen|Hlen].
  2:{ rewrite (short_hand_frame props env results r lm Hc Hf Hlen).
      split; [exact Hsafe|discriminate]. }
  destruct (Stage_eqb (stage (calibration props)) Ready) eqn:Hst.
  - apply Stage_eqb_eq in Hst.
    rewrite (ready_hand_frame props env results r lm Hc Hf Hlen Hst).
    cbv zeta.
    set (smoothed := MathUtils.calculateEMA _ _ _).
    assert (Hsm' : unitOrNaN smoothed = true).
    { apply calculateEMA_unitOrNaN; [apply clamp_unitOrNaN | exact Hsm]. }
    destruct (deadzone_unit smoothed Hsm') as (q & Hq & Hunit).
    assert (Hcmd : allInRange
                     (rcMapping (gesture (handLocals lm)) (deadzone smoothed))
                   = true).
    { rewrite Hq. apply allInRange_intro, rcMapping_channels, Hunit. }
    split; [split; [exact Hsm' | exact Hcmd]|].
    cbn [snd emittedRC emitted onGestureUpdate].
    destruct (isActive props); [|discriminate].
    cbn [option_map upd_rc]. now intros rc [= <-].
  - assert (Hne : stage (calibration props) <> Ready).
    { intros E. apply Stage_eqb_eq in E. congruence. }
    rewrite (not_ready_hand_frame props env results r lm Hc Hf Hlen Hne).
    cbv zeta. split; [exact Hsafe|].
    cbn [snd emittedRC emitted onGestureUpdate].
    destruct (isActive props); [|discriminate].
    cbn [option_map upd_rc]. now intros rc [= <-].
Qed.

(** Whatever the frames (hands of any shape, any calibration, degenerate
    or not), every command handed to the parent since the mount has its
    four channels within [[1000, 2000]]. *)
Theorem emitted_commands_in_range (fs : list Frame) (mounted : Z) :
  Forall (fun o => forall rc, emittedRC o = Some rc -> allInRange rc = true)
         (snd (run fs (initialRefs mounted))).
Proof.
  generalize (safeRefs_initial mounted).
  generalize (initialRefs mounted) as r.
  induction fs as [|f fs IH]; intros r Hsafe; [constructor|].
  cbn [run]. destruct (frame_safe f r Hsafe) as [Hsafe1 Hcmd].
  destruct (frame f r) as [r1 o]. cbn [fst snd] in Hsafe1, Hcmd.
  specialize (IH r1 Hsafe1). destruct (run fs r1) as [r2 os].
  constructor; assumption.
Qed.

(** * Further properties *)

(** ** Order on numbers *)

Lemma leb_numbers (a b : num) :
  (a <=? b)%num = true -> isNaN a = false /\ isNaN b = false.
Proof. destruct a, b; cbn; auto; discriminate. Qed.

Lemma leb_refl (a : num) : isNaN a = false -> (a <=? a)%num = true.
Proof.
  destruct a as [p| | |]; cbn; try reflexivity; try discriminate.
  intros _. apply Qle_bool_iff, Qle_refl.
Qed.

Lemma leb_trans (a b c : num) :
  (a <=? b)%num = true -> (b <=? c)%num = true -> (a <=? c)%num = true.
Proof.
  destruct a as [p| | |], b as [q| | |], c as [r| | |]; cbn;
    try discriminate; try reflexivity.
  rewrite !Qle_bool_iff. apply Qle_trans.
Qed.

Lemma leb_total (a b : num) :
  isNaN a = false -> isNaN b = false ->
  (a <=? b)%num = false -> (b <=? a)%num = true.
Proof.
  destruct a as [p| | |], b as [q| | |]; cbn; try discriminate; try reflexivity.
  intros _ _ H. apply Qle_bool_iff.
  destruct (Qlt_le_dec q p) as [Hlt|Hle]; [now apply Qlt_le_weak|].
  apply Qle_bool_iff in Hle. congruence.
Qed.

Lemma leb_antisym (a b : num) :
  (a <=? b)%num = true -> (b <=? a)%num = true -> sameValue a b.
Proof.
  destruct a as [p| | |], b as [q| | |]; cbn; try discriminate; try easy.
  rewrite !Qle_bool_iff. apply Qle_antisym.
Qed.

Lemma sameValue_refl (a : num) : sameValue a a.
Proof. destruct a; cbn; auto. apply Qeq_refl. Qed.

Lemma Math_max_numbers (a b : num) :
  isNaN a = false -> isNaN b = false ->
  Math_max a b = if (a <=? b)%num then b else a.
Proof. destruct a, b; cbn; try discriminate; reflexivity. Qed.

Lemma Math_min_numbers (a b : num) :
  isNaN a = false -> isNaN b = false ->
  Math_min a b = if (a <=? b)%num then a else b.
Proof. destruct a, b; cbn; try discriminate; reflexivity. Qed.

(** ** [utils/math] : [clamp] *)

(** [clamp] of a number between ordered bounds lies between the bounds,
    and is the value itself when that is already between them. *)
Theorem clamp_between_bounds (val lo hi : num) :
  isNaN val = false ->
  (lo <=? hi)%num = true ->
  (lo <=? MathUtils.clamp val lo hi)%num = true /\
  (MathUtils.clamp val lo hi <=? hi)%num = true /\
  ((lo <=? val)%num = true -> (val <=? hi)%num = true ->
   sameValue (MathUtils.clamp val lo hi) val).
Proof.
  intros Hv Hb. destruct (leb_numbers lo hi Hb) as [Hlo Hhi].
  unfold MathUtils.clamp. rewrite (Math_max_numbers val lo Hv Hlo).
  destruct (val <=? lo)%num eqn:Hvl.
  - rewrite (Math_min_numbers lo hi Hlo Hhi), Hb.
    repeat split; [now apply leb_refl | exact Hb |].
    intros Hlv _. now apply leb_antisym.
  - pose proof (leb_total val lo Hv Hlo Hvl) as Hlv.
    rewrite (Math_min_numbers val hi Hv Hhi).
    destruct (val <=? hi)%num eqn:Hvh.
    + repeat split; try assumption. intros _ _. apply sameValue_refl.
    + repeat split; [exact Hb | now apply leb_refl | discriminate].
Qed.

Lemma clamp_between_bounds_witness :
  (isNaN PInf = false /\ (Fin 0 <=? Fin 1)%num = true) /\
  (MathUtils.clamp PInf (Fin 0) (Fin 1) <=? Fin 1)%num = true.
Proof.
  split; [split; reflexivity|].
  apply (clamp_between_bounds PInf (Fin 0) (Fin 1)); reflexivity.
Defined.

(** [clamp] does not repair bad arguments: [NaN] goes through whatever
    the bounds, and with the bounds in the wrong order every number is
    sent to the upper one. *)
Theorem clamp_bad_arguments (val lo hi : num) :
  MathUtils.clamp NaN lo hi = NaN /\
  (isNaN val = false -> (lo >? hi)%num = true ->
   MathUtils.clamp val lo hi = hi).
Proof.
  split; [reflexivity|].
  intros Hv Hgt. unfold gtb in Hgt.
  assert (Hlo : isNaN lo = false) by (destruct hi, lo; cbn in *; congruence).
  assert (Hhi : isNaN hi = false) by (destruct hi, lo; cbn in *; congruence).
  assert (Hnle : forall m, (lo <=? m)%num = true -> (m <=? hi)%num = false).
  { intros m Hlm. destruct (m <=? hi)%num eqn:E; [|reflexivity].
    pose proof (leb_trans _ _ _ Hlm E) as Hlh.
    apply leb_not_gtb in Hlh. unfold gtb in Hlh. congruence. }
  unfold MathUtils.clamp. rewrite (Math_max_numbers val lo Hv Hlo).
  destruct (val <=? lo)%num eqn:Hvl.
  - rewrite (Math_min_numbers lo hi Hlo Hhi).
    now rewrite (Hnle lo (leb_refl lo Hlo)).
  - rewrite (Math_min_numbers val hi Hv Hhi).
    now rewrite (Hnle val (leb_total val lo Hv Hlo Hvl)).
Qed.

Lemma clamp_bad_arguments_witness :
  (isNaN (Fin 0.5) = false /\ (Fin 1 >? Fin 0)%num = true) /\
  MathUtils.clamp (Fin 0.5) (Fin 1) (Fin 0) = Fin 0.
Proof.
  split; [split; reflexivity|].
  apply (clamp_bad_arguments (Fin 0.5) (Fin 1) (Fin 0)); reflexivity.
Defined.

(** ** [utils/math] : [applyDeadzone] *)

Lemma unit_fraction (x d : Q) :
  0 < d -> 0 <= x <= d -> 0 <= x / d <= 1.
Proof.
  intros Hd [H0 H1]. split.
  - apply Qle_shift_div_l; [exact Hd | lra].
  - apply Qle_shift_div_r; [exact Hd | lra].
Qed.

Lemma Qsgn_values (v : Q) :
  (0 < v -> inject_Z (Qsgn v) == 1) /\
  (v < 0 -> inject_Z (Qsgn v) == -1) /\
  (v == 0 -> inject_Z (Qsgn v) == 0).
Proof.
  destruct v as [[|n|n] d]; unfold Qlt, Qeq, Qsgn; cbn;
    repeat split; intros H; try reflexivity; lia.
Qed.

(** For a threshold in [[0, 1)], the helper [applyDeadzone] gives 0
    below the threshold and stretches what is left over the whole range:
    [[threshold, 1]] is sent onto [[0, 1]] by
    [(value - threshold) / (1 - threshold)], and [[-1, -threshold]] onto
    [[-1, 0]] by the mirror image. *)
Theorem applyDeadzone_rescales_remaining_range (value threshold : Q) :
  0 <= threshold < 1 ->
  (Qabs value < threshold ->
     MathUtils.applyDeadzone (Fin value) (Fin threshold) = Fin 0) /\
  (threshold <= value <= 1 ->
     exists q,
       MathUtils.applyDeadzone (Fin value) (Fin threshold) = Fin q /\
       q == (value - threshold) / (1 - threshold) /\ 0 <= q <= 1) /\
  (-1 <= value <= - threshold ->
     exists q,
       MathUtils.applyDeadzone (Fin value) (Fin threshold) = Fin q /\
       q == - ((- value - threshold) / (1 - threshold)) /\ -1 <= q <= 0).
Proof.
  intros [Ht0 Ht1]. unfold MathUtils.applyDeadzone.
  cbn [Math_abs ltb Math_sign sgn sub div mul].
  assert (Hd : Qeq_bool (1 - threshold) 0 = false).
  { destruct (Qeq_bool (1 - threshold) 0) eqn:E; [|reflexivity].
    apply Qeq_bool_iff in E. lra. }
  rewrite Hd. cbn [mul].
  assert (Hpos : 0 < 1 - threshold) by lra.
  destruct (Qsgn_values value) as (Sp & Sn & Sz).
  split; [|split].
  - intros Hlt. unfold Qlt_bool.
    assert (E : Qle_bool threshold (Qabs value) = false).
    { destruct (Qle_bool threshold (Qabs value)) eqn:E; [|reflexivity].
      apply Qle_bool_iff in E. lra. }
    now rewrite E.
  - intros [Hlo Hhi].
    assert (Habs : Qabs value == value) by (apply Qabs_pos; lra).
    assert (E : Qlt_bool (Qabs value) threshold = false).
    { unfold Qlt_bool. apply negb_false_iff, Qle_bool_iff. lra. }
    rewrite E. eexists. split; [reflexivity|].
    pose proof (unit_fraction (value - threshold) (1 - threshold) Hpos
                  ltac:(lra)) as Hfrac.
    assert (Hval : inject_Z (Qsgn value)
                   * ((Qabs value - threshold) / (1 - threshold))
                   == (value - threshold) / (1 - threshold)).
    { rewrite Habs. destruct (Qlt_le_dec 0 value) as [Hv|Hv].
      - rewrite (Sp Hv). ring.
      - assert (Hz : value - threshold == 0) by lra.
        rewrite Hz. unfold Qdiv. ring. }
    split; [exact Hval|]. rewrite Hval. exact Hfrac.
  - intros [Hlo Hhi].
    assert (Habs : Qabs value == - value).
    { rewrite <- Qabs_opp. apply Qabs_pos. lra. }
    assert (E : Qlt_bool (Qabs value) threshold = false).
    { unfold Qlt_bool. apply negb_false_iff, Qle_bool_iff. lra. }
    rewrite E. eexists. split; [reflexivity|].
    pose proof (unit_fraction (- value - threshold) (1 - threshold) Hpos
                  ltac:(lra)) as Hfrac.
    assert (Hval : inject_Z (Qsgn value)
                   * ((Qabs value - threshold) / (1 - threshold))
                   == - ((- value - threshold) / (1 - threshold))).
    { rewrite Habs. destruct (Qlt_le_dec value 0) as [Hv|Hv].
      - rewrite (Sn Hv). ring.
      - assert (Hz : - value - threshold == 0) by lra.
        rewrite Hz. unfold Qdiv. ring. }
    split; [exact Hval|]. rewrite Hval. lra.
Qed.

Lemma applyDeadzone_rescales_remaining_range_witness :
  (0 <= 0.05 < 1 /\ 0.05 <= 1 <= 1) /\
  exists q,
    MathUtils.applyDeadzone (Fin 1) (Fin 0.05) = Fin q /\
    q == (1 - 0.05) / (1 - 0.05) /\ 0 <= q <= 1.
Proof.
  assert (Ht : 0 <= 0.05 < 1) by (split; [discriminate | reflexivity]).
  assert (Hv : 0.05 <= 1 <= 1) by (split; discriminate).
  split; [split; assumption|].
  exact (proj1 (proj2 (applyDeadzone_rescales_remaining_range 1 0.05 Ht)) Hv).
Defined.

(** ** The normalization of [onResults] *)

(** With the far reference strictly below the near one, the normalized
    value of a finite span is a number of [[0, 1]]: 0 up to the far
    reference, 1 from the near reference on, linear in between. *)
Lemma normalize_sound (cal : CalibrationState) (a b v : Q) :
  minScale cal = Fin a -> maxScale cal = Fin b -> a < b ->
  exists q,
    normalize cal (Fin v) = Fin q /\ 0 <= q <= 1 /\
    (v <= a -> q == 0) /\ (b <= v -> q == 1) /\
    (a <= v <= b -> q == (v - a) / (b - a)).
Proof.
  intros Hmin Hmax Hab. unfold normalize. rewrite Hmin, Hmax.
  cbn [sub div].
  assert (Hd : Qeq_bool (b - a) 0 = false).
  { destruct (Qeq_bool (b - a) 0) eqn:E; [|reflexivity].
    apply Qeq_bool_iff in E. lra. }
  rewrite Hd. set (x := (v - a) / (b - a)).
  assert (Hpos : 0 < b - a) by lra.
  assert (Hx : x * (b - a) == v - a).
  { subst x. field. lra. }
  assert (Hlow : x <= 0 -> v <= a).
  { intros H. assert (0 <= (- x) * (b - a))
      by (apply Qmult_le_0_compat; lra). lra. }
  assert (Hlow' : v <= a -> x <= 0).
  { intros H. destruct (Qlt_le_dec 0 x) as [Hc|Hc]; [|exact Hc].
    assert (0 < x * (b - a)) by (apply Qmult_lt_0_compat; lra). lra. }
  assert (Hhigh : 1 <= x -> b <= v).
  { intros H. assert (0 <= (x - 1) * (b - a))
      by (apply Qmult_le_0_compat; lra). lra. }
  assert (Hhigh' : b <= v -> 1 <= x).
  { intros H. destruct (Qlt_le_dec x 1) as [Hc|Hc]; [|exact Hc].
    assert (0 < (1 - x) * (b - a)) by (apply Qmult_lt_0_compat; lra). lra. }
  assert (Hge : a <= v -> 0 <= x).
  { intros H. destruct (Qlt_le_dec x 0) as [Hc|Hc]; [|exact Hc].
    assert (0 < (- x) * (b - a)) by (apply Qmult_lt_0_compat; lra). lra. }
  assert (Hle : v <= b -> x <= 1).
  { intros H. destruct (Qlt_le_dec 1 x) as [Hc|Hc]; [|exact Hc].
    assert (0 < (x - 1) * (b - a)) by (apply Qmult_lt_0_compat; lra). lra. }
  unfold MathUtils.clamp. cbn [Math_max leb].
  destruct (Qle_bool x 0) eqn:E0.
  - apply Qle_bool_iff in E0. exists 0. split; [reflexivity|].
    split; [lra|]. split; [reflexivity|]. split.
    + intros H. pose proof (Hhigh' H). lra.
    + intros [H _]. pose proof (Hge H). fold x. lra.
  - assert (H0 : 0 < x).
    { destruct (Qlt_le_dec 0 x) as [Hc|Hc]; [exact Hc|].
      apply Qle_bool_iff in Hc. congruence. }
    cbn [Math_min leb]. destruct (Qle_bool x 1) eqn:E1.
    + apply Qle_bool_iff in E1. exists x. split; [reflexivity|].
      split; [lra|]. split; [|split].
      * intros H. pose proof (Hlow' H). lra.
      * intros H. pose proof (Hhigh' H). lra.
      * intros _. reflexivity.
    + assert (H1 : 1 < x).
      { destruct (Qlt_le_dec 1 x) as [Hc|Hc]; [exact Hc|].
        apply Qle_bool_iff in Hc. congruence. }
      exists 1. split; [reflexivity|].
      split; [lra|]. split; [|split].
      * intros H. pose proof (Hlow' H). lra.
      * reflexivity.
      * intros [_ H]. pose proof (Hle H). fold x. lra.
Qed.

(** Normalization is monotonic and clamped: under a sound calibration
    ([minScale < maxScale]), a larger span never gets a smaller
    normalized value, every value is in [[0, 1]], spans up to the far
    reference get 0 and spans from the near reference on get 1. *)
Theorem normalize_monotone_and_clamped
  (cal : CalibrationState) (a b v1 v2 : Q) :
  minScale cal = Fin a -> maxScale cal = Fin b -> a < b ->
  v1 <= v2 ->
  exists q1 q2,
    normalize cal (Fin v1) = Fin q1 /\ normalize cal (Fin v2) = Fin q2 /\
    0 <= q1 /\ q1 <= q2 /\ q2 <= 1 /\
    (v2 <= a -> q2 == 0) /\ (b <= v1 -> q1 == 1).
Proof.
  intros Hmin Hmax Hab Hv.
  destruct (normalize_sound cal a b v1 Hmin Hmax Hab)
    as (q1 & E1 & B1 & L1 & U1 & M1).
  destruct (normalize_sound cal a b v2 Hmin Hmax Hab)
    as (q2 & E2 & B2 & L2 & U2 & M2).
  exists q1, q2. repeat (split; [first [assumption | lra]|]).
  split; [|split; [lra | split; assumption]].
  destruct (Qlt_le_dec v1 a) as [H1|H1]; [rewrite (L1 (Qlt_le_weak _ _ H1)); lra|].
  destruct (Qlt_le_dec b v2) as [H2|H2]; [rewrite (U2 (Qlt_le_weak _ _ H2)); lra|].
  rewrite (M1 ltac:(lra)), (M2 ltac:(lra)).
  unfold Qdiv. apply Qmult_le_compat_r; [lra|].
  apply Qlt_le_weak, Qinv_lt_0_compat. lra.
Qed.

Lemma normalize_monotone_and_clamped_witness :
  let cal := mkCalibration Ready (Fin 0.1) (Fin 0.3) in
  (minScale cal = Fin 0.1 /\ maxScale cal = Fin 0.3 /\ 0.1 < 0.3 /\
   0.2 <= 0.5) /\
  exists q1 q2,
    normalize cal (Fin 0.2) = Fin q1 /\ normalize cal (Fin 0.5) = Fin q2 /\
    0 <= q1 /\ q1 <= q2 /\ q2 <= 1 /\
    (0.5 <= 0.1 -> q2 == 0) /\ (0.3 <= 0.2 -> q1 == 1).
Proof.
  intros cal.
  assert (Hab : 0.1 < 0.3) by reflexivity.
  assert (Hv : 0.2 <= 0.5) by discriminate.
  split; [repeat split; assumption|].
  exact (normalize_monotone_and_clamped cal 0.1 0.3 0.2 0.5
           eq_refl eq_refl Hab Hv).
Defined.

(** ** Frames and the refs *)

(** [lastHandTime] is written by exactly the processed frames that carry
    a hand, malformed or not; a frame without hand, or one skipped for
    want of a canvas, changes no ref at all. *)
Theorem refs_written_only_by_hand_frames
  (props : VideoHUDProps) (env : Env) (results : Results) (r : Refs) :
  (canvasReady env = true -> handPresent results = true ->
     lastHandTime (fst (onResults props env results r)) = now_detect env) /\
  (canvasReady env && handPresent results = false ->
     fst (onResults props env results r) = r).
Proof.
  split.
  - intros Hc Hh. destruct (handPresent_firstHand results Hh) as [lm Hf].
    destruct (Nat.le_gt_cases 21 (List.length lm)) as [Hlen|Hlen].
    + rewrite (hand_frame props env results r lm Hc Hf Hlen).
      cbv zeta. unfold controlLogic. cbn [hasHand handLocals andb].
      destruct (Stage_eqb (stage (calibration props)) Ready); reflexivity.
    + now rewrite (short_hand_frame props env results r lm Hc Hf Hlen).
  - intros H. apply andb_false_iff in H as [Hc|Hh].
    + unfold onResults. now rewrite Hc.
    + destruct (canvasReady env) eqn:Hc.
      * now rewrite (no_hand_frame props env results r Hc Hh).
      * unfold onResults. now rewrite Hc.
Qed.

Lemma refs_written_only_by_hand_frames_witness :
  let props := mkProps true (mkCalibration Ready (Fin 0.1) (Fin 0.3)) in
  let env := mkEnv true 1234 1240 in
  let results := mkResults (Some [[Landmark.mk (Fin 0.5) (Fin 0.5)]]) in
  (canvasReady env = true /\ handPresent results = true) /\
  lastHandTime (fst (onResults props env results (initialRefs 0))) = 1234%Z.
Proof.
  intros props env results. split; [split; reflexivity|].
  exact (proj1 (refs_written_only_by_hand_frames props env results
                  (initialRefs 0)) eq_refl eq_refl).
Defined.

(** A span is passed up to the calibration exactly by the processed
    frames that see a full hand while the stage is 1 or 2, and it is the
    wrist-to-MCP distance of that hand. *)
Theorem calibration_step_only_while_sampling
  (props : VideoHUDProps) (env : Env) (results : Results) (r : Refs)
  (val : num) :
  canvasReady env = true ->
  (calibrationStep (snd (onResults props env results r)) = Some val <->
   exists lm,
     firstHand results = Some lm /\ (21 <= List.length lm)%nat /\
     (stage (calibration props) = Far \/ stage (calibration props) = Near) /\
     val = spanOf lm).
Proof.
  intros Hc. destruct (handPresent results) eqn:Hh.
  2:{ rewrite (no_hand_frame props env results r Hc Hh). cbn. split.
      - discriminate.
      - intros (lm & Hf & _). unfold handPresent in Hh. unfold firstHand in Hf.
        destruct (multiHandLandmarks results) as [[|? ?]|]; discriminate. }
  destruct (handPresent_firstHand results Hh) as [lm Hf].
  destruct (Nat.le_gt_cases 21 (List.length lm)) as [Hlen|Hlen].
  - rewrite (hand_frame props env results r lm Hc Hf Hlen).
    cbv zeta. cbn [snd calibrationStep onCalibrationStep]. split.
    + destruct (stage (calibration props)) eqn:Hst; cbn; try discriminate;
        intros [= <-]; exists lm; auto.
    + intros (lm' & Hf' & _ & Hst & ->).
      assert (lm' = lm) as -> by congruence.
      destruct Hst as [-> | ->]; reflexivity.
  - rewrite (short_hand_frame props env results r lm Hc Hf Hlen). cbn. split.
    + discriminate.
    + intros (lm' & Hf' & Hlen' & _).
      assert (lm' = lm) as -> by congruence. lia.
Qed.

Lemma calibration_step_only_while_sampling_witness :
  let props := mkProps true (mkCalibration Far (Fin 0.1) (Fin 0.3)) in
  let env := mkEnv true 1000 1000 in
  let lm := exampleHand 0.6 true true false false in
  let results := mkResults (Some [lm]) in
  canvasReady env = true /\
  calibrationStep (snd (onResults props env results (initialRefs 0)))
  = Some (spanOf lm).
Proof.
  intros props env lm results. split; [reflexivity|].
  apply (calibration_step_only_while_sampling props env results
           (initialRefs 0) (spanOf lm) eq_refl).
  exists lm. repeat split; try (cbn; lia). now left.
Defined.

(** ** A [NaN] in the filter never leaves *)

Lemma calculateEMA_previous_NaN (normalized : num) :
  MathUtils.calculateEMA normalized NaN APP_CONFIG.EMA_ALPHA = NaN.
Proof.
  unfold MathUtils.calculateEMA, APP_CONFIG.EMA_ALPHA. cbn [sub mul].
  now destruct normalized.
Qed.

Lemma frame_with_NaN (f : Frame) (r : Refs) :
  smoothedIntensity (logicState r) = NaN ->
  smoothedIntensity (logicState (fst (frame f r))) = NaN /\
  (lastValidRC (fst (frame f r)) = lastValidRC r \/
   lastValidRC (fst (frame f r)) = baseRC) /\
  (forall i, emittedIntensity (snd (frame f r)) = Some i -> i = Fin 0) /\
  (forall rc, emittedRC (snd (frame f r)) = Some rc ->
              rc = lastValidRC r \/ rc = baseRC).
Proof.
  intros Hnan. destruct f as [props env results].
  unfold frame; cbn [f_props f_env f_results].
  destruct (canvasReady env) eqn:Hc.
  2:{ unfold onResults. rewrite Hc. cbn.
      repeat split; auto; discriminate. }
  destruct (handPresent results) eqn:Hh.
  2:{ rewrite (no_hand_frame props env results r Hc Hh).
      cbn [fst snd emittedIntensity emittedRC emitted onGestureUpdate].
      destruct (isActive props); cbn [option_map upd_intensity upd_rc];
        repeat split; auto; try discriminate.
      - now intros i [= <-].
      - intros rc [= <-].
        destruct (now_failsafe env - lastHandTime r <? 500)%Z; auto. }
  destruct (handPresent_firstHand results Hh) as [lm Hf].
  destruct (Nat.le_gt_cases 21 (List.length lm)) as [Hlen|Hlen].
  2:{ rewrite (short_hand_frame props env results r lm Hc Hf Hlen). cbn.
      repeat split; auto; discriminate. }
  destruct (Stage_eqb (stage (calibration props)) Ready) eqn:Hst.
  - apply Stage_eqb_eq in Hst.
    rewrite (ready_hand_frame props env results r lm Hc Hf Hlen Hst).
    cbv zeta. rewrite Hnan, calculateEMA_previous_NaN.
    change (deadzone NaN) with (Fin 0). rewrite rcMapping_zero.
    cbn [fst snd logicState smoothedIntensity lastValidRC
         emittedIntensity emittedRC emitted onGestureUpdate].
    destruct (isActive props); cbn [option_map upd_intensity upd_rc];
      repeat split; auto; try discriminate.
    + now intros i [= <-].
    + intros rc [= <-]. auto.
  - assert (Hne : stage (calibration props) <> Ready).
    { intros E. apply Stage_eqb_eq in E. congruence. }
    rewrite (not_ready_hand_frame props env results r lm Hc Hf Hlen Hne).
    cbv zeta.
    cbn [fst snd setLastHandTime logicState smoothedIntensity lastValidRC
         emittedIntensity emittedRC emitted onGestureUpdate].
    destruct (isActive props); cbn [option_map upd_intensity upd_rc];
      repeat split; auto; try discriminate.
    + now intros i [= <-].
    + intros rc [= <-]. auto.
Qed.

(** Once [smoothedIntensity] is [NaN] it stays [NaN] over every run of
    frames, whatever the calibration: from then on every reported
    intensity is 0 and every emitted command is the one stored at that
    moment or the neutral one. *)
Theorem nan_filter_state_is_permanent (fs : list Frame) (r : Refs) :
  smoothedIntensity (logicState r) = NaN ->
  let res := run fs r in
  smoothedIntensity (logicState (fst res)) = NaN /\
  Forall (fun o =>
            (forall i, emittedIntensity o = Some i -> i = Fin 0) /\
            (forall rc, emittedRC o = Some rc ->
                        rc = lastValidRC r \/ rc = baseRC))
         (snd res).
Proof.
  intros Hnan res. subst res.
  assert (Hgen : forall r',
             smoothedIntensity (logicState r') = NaN ->
             (lastValidRC r' = lastValidRC r \/ lastValidRC r' = baseRC) ->
             smoothedIntensity (logicState (fst (run fs r'))) = NaN /\
             Forall (fun o =>
                       (forall i, emittedIntensity o = Some i -> i = Fin 0) /\
                       (forall rc, emittedRC o = Some rc ->
                                   rc = lastValidRC r \/ rc = baseRC))
                    (snd (run fs r'))).
  { induction fs as [|f fs IH]; intros r' Hn Hrc.
    - split; [exact Hn | constructor].
    - cbn [run].
      destruct (frame_with_NaN f r' Hn) as (Hn1 & Hrc1 & Hi & Hcmd).
      destruct (frame f r') as [r1 o]. cbn [fst snd] in *.
      assert (Hrc1' : lastValidRC r1 = lastValidRC r \/ lastValidRC r1 = baseRC).
      { destruct Hrc1 as [E|E]; [rewrite E; exact Hrc | now right]. }
      specialize (IH r1 Hn1 Hrc1').
      destruct (run fs r1) as [r2 os]. cbn [fst snd] in *.
      destruct IH as [IHn IHf]. split; [exact IHn|].
      constructor; [|exact IHf]. split; [exact Hi|].
      intros rc Hrc2. destruct (Hcmd rc Hrc2) as [E|E]; [|now right].
      rewrite E. exact Hrc. }
  apply Hgen; [exact Hnan | now left].
Qed.

Lemma nan_filter_state_is_permanent_witness :
  let sound_cal := mkCalibration Ready (Fin 0.1) (Fin 0.3) in
  let r := mkRefs (mkLogic NaN (Fin 0)) 0 baseRC in
  let fs := [handFrame sound_cal 1000 (exampleHand 0.6 true true true true)] in
  smoothedIntensity (logicState r) = NaN /\
  smoothedIntensity (logicState (fst (run fs r))) = NaN.
Proof.
  intros sound_cal r fs. split; [reflexivity|].
  exact (proj1 (nan_filter_state_is_permanent fs r eq_refl)).
Defined.

(** ** The calibration protocol *)

Section CalibrationProtocol.

Import App.

Lemma run_app (es1 es2 : list Event) (s : State) :
  run (es1 ++ es2) s = run es2 (run es1 s).
Proof. apply fold_left_app. Qed.

Lemma far_sample_step (s : State) (span : num) :
  stage (calibration s) = Far ->
  calibration (run (sample span) s)
  = mkCalibration Near span (maxScale (calibration s)) /\
  logs (run (sample span) s)
  = slice_last 49 (logs s) ++ [mkLog INFO (MsgFarSampled span)].
Proof.
  intros Hst. unfold run, sample. cbn [fold_left step].
  rewrite keyS_is_onKeyS. unfold onKeyS.
  cbn [handleCalibrationStep calibration lastSampleRef logs].
  rewrite Hst. split; reflexivity.
Qed.

Lemma near_sample_step (s : State) (span : num) :
  stage (calibration s) = Near ->
  ((span <=? minScale (calibration s))%num = true ->
     calibration (run (sample span) s) = calibration s) /\
  ((span >? minScale (calibration s))%num = true ->
     calibration (run (sample span) s)
     = mkCalibration Ready (minScale (calibration s)) span).
Proof.
  intros Hst. unfold run, sample. cbn [fold_left step].
  rewrite keyS_is_onKeyS. unfold onKeyS.
  cbn [handleCalibrationStep calibration lastSampleRef logs].
  rewrite Hst. split.
  - intros Hle. now rewrite Hle.
  - intros Hgt. now rewrite (gtb_not_leb _ _ Hgt).
Qed.

(** Outside the two sampling stages the sample key does nothing: in
    stage 0 and in stage 3 the calibration, the log and the arm state are
    left exactly as they were. *)
Theorem sample_ignored_outside_sampling (s : State) (span : num) :
  stage (calibration s) = Idle \/ stage (calibration s) = Ready ->
  run [KeyDown "KeyS"] s = s /\
  calibration (run (sample span) s) = calibration s /\
  logs (run (sample span) s) = logs s /\
  armState (run (sample span) s) = armState s.
Proof.
  intros Hst. unfold run, sample. cbn [fold_left step].
  rewrite !keyS_is_onKeyS. unfold onKeyS.
  cbn [handleCalibrationStep calibration].
  destruct Hst as [-> | ->]; repeat split.
Qed.

Lemma sample_ignored_outside_sampling_witness :
  (stage (calibration initialState) = Idle \/
   stage (calibration initialState) = Ready) /\
  calibration (run (sample (Fin 0.7)) initialState) = calibration initialState.
Proof.
  assert (H : stage (calibration initialState) = Idle \/
              stage (calibration initialState) = Ready) by now left.
  split; [exact H|].
  exact (proj1 (proj2 (sample_ignored_outside_sampling initialState
                         (Fin 0.7) H))).
Defined.

(** The far sample is taken without any check: in stage 1 every sampled
    value, whatever it is, becomes [minScale], the stage becomes 2,
    [maxScale] is kept and an INFO line is logged. *)
Theorem sample_far_always_accepted (s : State) (span : num) :
  stage (calibration s) = Far ->
  let s' := run (sample span) s in
  calibration s' = mkCalibration Near span (maxScale (calibration s)) /\
  logs s' = slice_last 49 (logs s) ++ [mkLog INFO (MsgFarSampled span)].
Proof.
  intros Hst s'. subst s'. exact (far_sample_step s span Hst).
Qed.

Lemma sample_far_always_accepted_witness :
  let s := run begin_calibration initialState in
  stage (calibration s) = Far /\
  calibration (run (sample NaN) s) = mkCalibration Near NaN (Fin 0.3).
Proof.
  intros s. split; [reflexivity|].
  exact (proj1 (sample_far_always_accepted s NaN eq_refl)).
Defined.

Lemma rejected_samples_keep_waiting (rejected : list num) : forall s,
  stage (calibration s) = Near ->
  Forall (fun v => (v <=? minScale (calibration s))%num = true) rejected ->
  calibration (run (flat_map sample rejected) s) = calibration s.
Proof.
  induction rejected as [|v vs IH]; intros s Hst Hall; [reflexivity|].
  inversion Hall as [|? ? Hv Hvs]; subst.
  cbn [flat_map]. rewrite run_app.
  destruct (near_sample_step s v Hst) as [Hrej _].
  pose proof (Hrej Hv) as Hcal.
  rewrite IH; [exact Hcal | now rewrite Hcal |].
  rewrite Hcal. exact Hvs.
Qed.

(** The whole protocol, from any state: [begin_calibration], a far
    sample, any number of near samples rejected for not being above it,
    then a near sample above it, end in stage 3 with exactly the far and
    the accepted near sample as references. *)
Theorem calibration_protocol_completes
  (s : State) (far near : num) (rejected : list num) :
  Forall (fun v => (v <=? far)%num = true) rejected ->
  (near >? far)%num = true ->
  calibration
    (run (begin_calibration ++ sample far ++ flat_map sample rejected
          ++ sample near) s)
  = mkCalibration Ready far near.
Proof.
  intros Hrej Hnear. rewrite !run_app.
  set (s1 := run begin_calibration s).
  assert (H1 : stage (calibration s1) = Far) by reflexivity.
  set (s2 := run (sample far) s1).
  destruct (far_sample_step s1 far H1) as [H2 _]. fold s2 in H2.
  assert (Hst2 : stage (calibration s2) = Near) by now rewrite H2.
  assert (Hmin2 : minScale (calibration s2) = far) by now rewrite H2.
  set (s3 := run (flat_map sample rejected) s2).
  assert (H3 : calibration s3 = calibration s2).
  { apply rejected_samples_keep_waiting; [exact Hst2 | now rewrite Hmin2]. }
  assert (Hst3 : stage (calibration s3) = Near) by now rewrite H3.
  destruct (near_sample_step s3 near Hst3) as [_ Hacc].
  rewrite H3, Hmin2 in Hacc. exact (Hacc Hnear).
Qed.

Lemma calibration_protocol_completes_witness :
  let rejected := [Fin 0.1; Fin 0.15] in
  (Forall (fun v => (v <=? Fin 0.15)%num = true) rejected /\
   (Fin 0.4 >? Fin 0.15)%num = true) /\
  calibration
    (run (begin_calibration ++ sample (Fin 0.15) ++ flat_map sample rejected
          ++ sample (Fin 0.4)) recalibrated)
  = mkCalibration Ready (Fin 0.15) (Fin 0.4).
Proof.
  intros rejected.
  assert (Hrej : Forall (fun v => (v <=? Fin 0.15)%num = true) rejected)
    by (repeat constructor).
  split; [split; [exact Hrej | reflexivity]|].
  exact (calibration_protocol_completes recalibrated (Fin 0.15) (Fin 0.4)
           rejected Hrej eq_refl).
Defined.

End CalibrationProtocol.

(** ** [services/mockMavlink] *)

Lemma isDraw_cases (d : num) :
  isDraw d = true -> exists q, d = Fin q /\ 0 <= q < 1.
Proof.
  unfold isDraw. intros H. apply andb_true_iff in H as [H0 H1].
  destruct d as [q| | |]; cbn in *; try discriminate.
  exists q. split; [reflexivity|]. split.
  - now apply Qle_bool_iff.
  - unfold Qlt_bool in H1. apply negb_true_iff in H1.
    destruct (Qlt_le_dec q 1) as [Hc|Hc]; [exact Hc|].
    apply Qle_bool_iff in Hc. congruence.
Qed.

Lemma within_cases (b : Q) (a : num) :
  within b a = true -> exists q, a = Fin q /\ - b <= q <= b.
Proof.
  unfold within. intros H. apply andb_true_iff in H as [H0 H1].
  destruct a as [q| | |]; cbn in *; try discriminate.
  exists q. split; [reflexivity|]. split; now apply Qle_bool_iff.
Qed.

Lemma within_Fin (b q : Q) : - b <= q <= b -> within b (Fin q) = true.
Proof.
  intros [H0 H1]. unfold within. cbn.
  apply andb_true_iff; split; now apply Qle_bool_iff.
Qed.

Lemma ltb_Fin (p q : Q) : p < q -> (Fin p <? Fin q)%num = true.
Proof.
  intros H. cbn. unfold Qlt_bool. apply negb_true_iff.
  destruct (Qle_bool q p) eqn:E; [|reflexivity].
  apply Qle_bool_iff in E. lra.
Qed.

Lemma ltb_Fin_inv (p q : Q) : (Fin p <? Fin q)%num = true -> p < q.
Proof.
  cbn. unfold Qlt_bool. intros H. apply negb_true_iff in H.
  destruct (Qlt_le_dec p q) as [Hc|Hc]; [exact Hc|].
  apply Qle_bool_iff in Hc. congruence.
Qed.

Lemma leb_Fin (p q : Q) : p <= q <-> (Fin p <=? Fin q)%num = true.
Proof. cbn. symmetry. apply Qle_bool_iff. Qed.

(** The remainder by a positive divisor is smaller than the divisor in
    absolute value. *)
Lemma rem_bound (p q : Q) :
  0 < q ->
  exists m, rem (Fin p) (Fin q) = Fin m /\ - q < m < q.
Proof.
  intros Hq. unfold rem.
  assert (Hd : Qeq_bool q 0 = false).
  { destruct (Qeq_bool q 0) eqn:E; [|reflexivity].
    apply Qeq_bool_iff in E. lra. }
  rewrite Hd. eexists. split; [reflexivity|].
  set (x := p / q).
  assert (Hx : p == q * x) by (subst x; field; lra).
  unfold Qtrunc. destruct (Qlt_bool x 0) eqn:E.
  - pose proof (Qle_ceiling x) as H1. pose proof (Qceiling_lt x) as H2.
    unfold Z.sub in H2. rewrite inject_Z_plus in H2.
    change (inject_Z (- (1))) with (- (1)) in H2.
    set (c := inject_Z (Qceiling x)) in *.
    assert (0 <= q * (c - x)) by (apply Qmult_le_0_compat; lra).
    assert (0 < q * (x - c + 1)) by (apply Qmult_lt_0_compat; lra).
    split; lra.
  - pose proof (Qfloor_le x) as H1. pose proof (Qlt_floor x) as H2.
    rewrite inject_Z_plus in H2. change (inject_Z 1) with 1 in H2.
    set (c := inject_Z (Qfloor x)) in *.
    assert (0 <= q * (x - c)) by (apply Qmult_le_0_compat; lra).
    assert (0 < q * (c + 1 - x)) by (apply Qmult_lt_0_compat; lra).
    split; lra.
Qed.

Lemma attitude_step (rho d : Q) (isArmed : bool) :
  - 20 <= rho <= 20 -> 0 <= d < 1 ->
  within 20
    (Fin rho * Fin 0.95
     + Mavlink.noise (Fin d) (if isArmed then Fin 2.0 else Fin 0.1))%num
  = true.
Proof.
  intros Hr Hd. unfold Mavlink.noise.
  destruct isArmed; cbn [mul sub add]; apply within_Fin; lra.
Qed.

Lemma altitude_step (alt : num) (d : Q) (isArmed : bool) :
  (Fin 0 <=? alt)%num = true ->
  (Fin 0 <=?
   (if isArmed
    then Math_max (Fin 0) (alt + Mavlink.noise (Fin d) (Fin 0.1))%num
    else Fin 0))%num = true.
Proof.
  intros H. destruct isArmed; [|reflexivity].
  unfold Mavlink.noise. cbn [sub mul].
  destruct alt as [h| | |]; cbn in H; try discriminate; [|reflexivity].
  cbn [add Math_max leb].
  destruct (Qle_bool 0 (h + (d - 0.5) * 0.1)) eqn:E;
    cbn [leb]; [exact E | reflexivity].
Qed.

Lemma tick_in_range (draws : Mavlink.Draws) (t : Mavlink.TelemetryData) :
  drawsOk draws = true -> telemetryInRange t ->
  telemetryInRange (Mavlink.tick draws t) /\
  (Fin 12 <=? Mavlink.satelliteCount (Mavlink.tick draws t))%num = true.
Proof.
  unfold drawsOk. intros Hd.
  apply andb_true_iff in Hd as [Hd Hs]. apply andb_true_iff in Hd as [Hd Ha].
  apply andb_true_iff in Hd as [Hd Hy]. apply andb_true_iff in Hd as [Hd Hp].
  destruct (isDraw_cases _ Hd) as (dr & Er & Hdr).
  destruct (isDraw_cases _ Hp) as (dp & Ep & Hdp).
  destruct (isDraw_cases _ Hy) as (dy & Ey & Hdy).
  destruct (isDraw_cases _ Ha) as (da & Ea & Hda).
  destruct (isDraw_cases _ Hs) as (ds & Es & Hds).
  intros (Hroll & Hpitch & Hy0 & Hy1 & Halt & Hb0 & Hb1 & _ & _).
  destruct (within_cases _ _ Hroll) as (rho & Erho & Hrho).
  destruct (within_cases _ _ Hpitch) as (phi & Ephi & Hphi).
  destruct t as [troll tpitch tyaw talt tbat tsat tarm].
  cbn [Mavlink.roll Mavlink.pitch Mavlink.yaw Mavlink.altitude
       Mavlink.batteryVoltage Mavlink.satelliteCount Mavlink.armState] in *.
  subst troll tpitch.
  destruct tyaw as [psi| | |]; try discriminate.
  destruct tbat as [v| | |]; cbn in Hb0, Hb1; try discriminate.
  apply Qle_bool_iff in Hb0, Hb1.
  unfold Mavlink.tick, Mavlink.generateMockTelemetry, telemetryInRange.
  cbn [Mavlink.roll Mavlink.pitch Mavlink.yaw Mavlink.altitude
       Mavlink.batteryVoltage Mavlink.satelliteCount Mavlink.armState
       Mavlink.d_roll Mavlink.d_pitch Mavlink.d_yaw Mavlink.d_altitude
       Mavlink.d_satellites].
  rewrite Er, Ep, Ey, Ea, Es.
  assert (Hsat : 0 <= inject_Z (Qfloor (ds * 3)) <= 2).
  { assert (Hlo : (0 <= Qfloor (ds * 3))%Z).
    { change 0%Z with (Qfloor 0). apply Qfloor_resp_le. lra. }
    assert (Hhi : (Qfloor (ds * 3) < 3)%Z).
    { pose proof (Qfloor_le (ds * 3)) as Hf.
      apply Z.lt_nge. intros Hc. rewrite Zle_Qle in Hc.
      change (inject_Z 3) with 3 in Hc. lra. }
    assert (Hhi' : (Qfloor (ds * 3) <= 2)%Z) by lia.
    rewrite Zle_Qle in Hlo, Hhi'.
    change (inject_Z 0) with 0 in Hlo. change (inject_Z 2) with 2 in Hhi'.
    split; assumption. }
  destruct (rem_bound (psi + (dy - 0.5) * 0.5) 360 ltac:(reflexivity))
    as (m & Em & Hm).
  split; [|cbn [mul Math_floor add leb]; apply Qle_bool_iff; lra].
  split; [now apply attitude_step|].
  split; [now apply attitude_step|].
  pose proof (altitude_step talt da tarm Halt) as Halt'.
  revert Halt'. generalize (if tarm
    then Math_max (Fin 0) (talt + Mavlink.noise (Fin da) (Fin 0.1))%num
    else Fin 0). intros alt' Halt'.
  unfold Mavlink.noise. cbn [sub mul add]. rewrite Em.
  destruct Hm as [Hm0 Hm1]. change (- (360)) with (-360 # 1) in Hm0.
  split; [apply ltb_Fin; exact Hm0|]. split; [apply ltb_Fin; exact Hm1|].
  split; [exact Halt'|].
  assert (Hbat : exists w, Math_max (Fin 10.5) (Fin (v - 0.0005)) = Fin w
                           /\ 10.5 <= w <= 12.6).
  { cbn [Math_max leb].
    destruct (Qle_bool 10.5 (v - 0.0005)) eqn:E.
    - apply Qle_bool_iff in E. eexists; split; [reflexivity|lra].
    - eexists; split; [reflexivity|lra]. }
  destruct Hbat as (w & -> & Hw).
  cbn [mul Math_floor add].
  repeat split; apply leb_Fin; lra.
Qed.

(** The simulation never arms or disarms the vehicle, and reports a
    disarmed vehicle at altitude 0 as soon as one packet has been
    generated. *)
Theorem ticks_keep_arm_state (ds : list Mavlink.Draws)
  (t : Mavlink.TelemetryData) :
  Mavlink.armState (Mavlink.ticks ds t) = Mavlink.armState t /\
  (Mavlink.armState t = false -> ds <> [] ->
   Mavlink.altitude (Mavlink.ticks ds t) = Fin 0).
Proof.
  revert t. induction ds as [|d ds IH]; intros t.
  - split; [reflexivity | congruence].
  - destruct (IH (Mavlink.tick d t)) as [Harm Halt].
    change (Mavlink.ticks (d :: ds) t)
      with (Mavlink.ticks ds (Mavlink.tick d t)).
    split; [exact Harm|]. intros Hoff _.
    destruct ds as [|d' ds'].
    + cbn. now rewrite Hoff.
    + apply Halt; [cbn; exact Hoff | discriminate].
Qed.

Lemma ticks_keep_arm_state_witness :
  let d := Mavlink.mkDraws (Fin 0.9) (Fin 0.1) (Fin 0.5) (Fin 0.3) (Fin 0.99) in
  (Mavlink.armState Mavlink.INITIAL_TELEMETRY = false /\ [d] <> []) /\
  Mavlink.altitude (Mavlink.ticks [d] Mavlink.INITIAL_TELEMETRY) = Fin 0.
Proof.
  intros d.
  assert (Hne : [d] <> []) by discriminate.
  split; [split; [reflexivity | exact Hne]|].
  exact (proj2 (ticks_keep_arm_state [d] Mavlink.INITIAL_TELEMETRY)
           eq_refl Hne).
Defined.

(** ** [App] : the handlers and the log *)

Section StationFacts.

Import Station.

Lemma addLog_length (l : Line) (s : State) :
  (List.length (logs (addLog l s)) <= 50)%nat.
Proof.
  unfold addLog. cbn [logs]. rewrite length_app, length_skipn. cbn. lia.
Qed.

Lemma addLog_In (l x : Line) (s : State) :
  In x (logs (addLog l s)) -> x = l \/ In x (logs s).
Proof.
  unfold addLog. cbn [logs]. intros H. apply in_app_or in H as [H|H].
  - right. revert H. generalize (List.length (logs s) - 49)%nat.
    intros n. revert n. induction (logs s) as [|a ls IH]; intros [|n] H;
      cbn in H; auto. right. eauto.
  - left. destruct H as [H|[]]. now symmetry.
Qed.

(** The lines of the keyboard handler, appended one by one. *)
Lemma keyLines_fields (es : list LogEntry) : forall s,
  let s' := fold_left (fun s e => addLog (KeyLine e) s) es s in
  connection s' = connection s /\ telemetry s' = telemetry s /\
  calibration s' = calibration s /\ lastSampleRef s' = lastSampleRef s /\
  connectTimers s' = connectTimers s /\
  ((List.length (logs s) <= 50)%nat -> (List.length (logs s') <= 50)%nat) /\
  (forall x, In x (logs s') -> In x (logs s) \/ exists e, x = KeyLine e).
Proof.
  induction es as [|e es IH]; intros s; cbn [fold_left].
  - repeat split; auto.
  - destruct (IH (addLog (KeyLine e) s)) as (C & T & K & L & N & Len & Hin).
    cbv zeta. repeat split; try assumption.
    + intros _. apply Len, addLog_length.
    + intros x Hx. destruct (Hin x Hx) as [H|H]; [|now right].
      apply addLog_In in H as [->|H]; [right; eauto | now left].
Qed.

Lemma handleKeyDown_facts (rendered : App.State) (code : string)
  (s : App.State) :
  App.lastSampleRef (App.handleKeyDown rendered code s) = App.lastSampleRef s /\
  (App.armState (App.handleKeyDown rendered code s) = true ->
   App.armState s = true).
Proof.
  unfold App.handleKeyDown, App.onSpace, App.onKeyC, App.onKeyS.
  destruct (String.eqb code "Space"), (String.eqb code "KeyC"),
    (String.eqb code "KeyS"), (App.armState rendered),
    (stage (App.calibration rendered));
    cbn;
    repeat match goal with
           | |- context [if ?c then _ else _] => destruct c
           end;
    cbn; split; auto; discriminate.
Qed.

Lemma keyDown_facts (code : string) (s : State) :
  connection (keyDown code s) = connection s /\
  connectTimers (keyDown code s) = connectTimers s /\
  lastSampleRef (keyDown code s) = lastSampleRef s /\
  calibration (keyDown code s)
  = App.calibration (App.handleKeyDown (keyView s) code (keyView s)) /\
  (Mavlink.armState (telemetry (keyDown code s)) = true ->
   Mavlink.armState (telemetry s) = true) /\
  ((List.length (logs s) <= 50)%nat ->
   (List.length (logs (keyDown code s)) <= 50)%nat) /\
  (forall x, In x (logs (keyDown code s)) ->
             In x (logs s) \/ exists e, x = KeyLine e).
Proof.
  unfold keyDown.
  set (k := App.handleKeyDown (keyView s) code (keyView s)).
  destruct (handleKeyDown_facts (keyView s) code (keyView s)) as [Hl Ha].
  fold k in Hl, Ha.
  match goal with
  | |- context [fold_left _ (App.logs k) ?s0] =>
      destruct (keyLines_fields (App.logs k) s0) as (C & T & K & L & N & Len & Hin)
  end.
  cbv zeta in C, T, K, L, N, Len, Hin.
  cbn [connection telemetry calibration lastSampleRef connectTimers logs]
    in C, T, K, L, N, Len, Hin.
  rewrite C, N, L, K, T.
  repeat split; assumption.
Qed.

End StationFacts.

Section StationProperties.

Import Station.

Lemma run_station (es1 es2 : list Event) (sr : State * Refs) :
  run (es1 ++ es2) sr = run es2 (run es1 sr).
Proof. apply fold_left_app. Qed.

Lemma linkSafe_watchdog (s : State) : linkSafe s -> watchdog s = s.
Proof.
  intros [Harm _]. unfold watchdog.
  destruct (Mavlink.armState (telemetry s)) eqn:E.
  - rewrite (Harm eq_refl). reflexivity.
  - now rewrite andb_false_r.
Qed.

Lemma watchdog_facts (s : State) :
  connection (watchdog s) = connection s /\
  calibration (watchdog s) = calibration s /\
  lastSampleRef (watchdog s) = lastSampleRef s /\
  connectTimers (watchdog s) = connectTimers s /\
  ((List.length (logs s) <= 50)%nat ->
   (List.length (logs (watchdog s)) <= 50)%nat).
Proof.
  unfold watchdog.
  destruct (isDisconnected (connection s)
            && Mavlink.armState (telemetry s)); repeat split; auto.
  intros _. apply addLog_length.
Qed.

(** What a frame does to the state of [App]: nothing but the database
    indicator and the last sample. *)
Lemma onFrame_facts (env : Env) (results : Results) (s : State) (r : Refs) :
  let s' := fst (onFrame env results s r) in
  connection s' = connection s /\ telemetry s' = telemetry s /\
  logs s' = logs s /\ connectTimers s' = connectTimers s /\
  calibration s' = calibration s.
Proof.
  unfold onFrame.
  destruct (onResults _ env results r) as [r' [|c|]]; cbn [fst];
    [repeat split| |repeat split].
  destruct (onGestureUpdate c) as [u|], (onCalibrationStep c) as [val|];
    unfold handleGestureUpdate, handleCalibrationStep;
    repeat match goal with
           | |- context [if ?c then _ else _] => destruct c
           end; repeat split.
Qed.

Lemma step_log_cap (e : Event) (sr : State * Refs) :
  (List.length (logs (fst sr)) <= 50)%nat ->
  (List.length (logs (fst (step e sr))) <= 50)%nat.
Proof.
  destruct sr as [s r]. cbn [fst]. intros Hlen.
  unfold step.
  assert (Hpre : forall s', (List.length (logs s') <= 50)%nat ->
                 forall r' : Refs, (List.length
                               (logs (fst (watchdog s', r'))) <= 50)%nat).
  { intros s' H r'. cbn [fst]. now apply watchdog_facts. }
  destruct e as [code| | | |draws| |env results].
  - apply Hpre. now apply keyDown_facts.
  - apply Hpre. unfold toggleConnection.
    destruct (connection s); apply addLog_length.
  - apply Hpre. unfold connectTimer.
    destruct (connectTimers s); [exact Hlen | apply addLog_length].
  - apply Hpre. unfold toggleArm.
    destruct (negb (isConnected (connection s)));
      [exact Hlen | apply addLog_length].
  - apply Hpre. unfold simulationTick.
    destruct (isConnected (connection s)); exact Hlen.
  - apply Hpre. unfold dbTimer. destruct (dbTimeout s); exact Hlen.
  - pose proof (onFrame_facts env results s r) as (_ & _ & Hl & _).
    destruct (onFrame env results s r) as [s' r']. cbn [fst] in Hl.
    apply Hpre. now rewrite Hl.
Qed.

(** The log never holds more than 50 lines, whatever the events: every
    handler appends through [addLog], which keeps the last 49 lines. *)
Theorem log_never_exceeds_50_lines (es : list Event) (t : Z) :
  (List.length (logs (fst (run es (mounted t)))) <= 50)%nat.
Proof.
  assert (Hgen : forall sr, (List.length (logs (fst sr)) <= 50)%nat ->
                 (List.length (logs (fst (run es sr))) <= 50)%nat).
  { induction es as [|e es IH]; intros sr H; [exact H|].
    cbn [run fold_left]. apply IH. now apply step_log_cap. }
  apply Hgen. cbn. lia.
Qed.

Lemma linkSafe_addLog (ty : LogType) (m : StationMessage) (s : State) :
  m <> MsgLinkLost -> linkSafe s -> linkSafe (addLog (StationLine ty m) s).
Proof.
  intros Hm [Harm Hlog]. split; [exact Harm|].
  intros ty' Hin. apply addLog_In in Hin as [E|Hin].
  - inversion E. congruence.
  - exact (Hlog ty' Hin).
Qed.

Lemma linkSafe_step (e : Event) (sr : State * Refs) :
  linkSafe (fst sr) -> linkSafe (fst (step e sr)).
Proof.
  destruct sr as [s r]. cbn [fst]. intros Hsafe. pose proof Hsafe as [Harm Hlog].
  unfold step.
  assert (Hpre : forall s' (r' : Refs), linkSafe s' ->
                 linkSafe (fst (watchdog s', r'))).
  { intros s' r' H. cbn [fst]. now rewrite (linkSafe_watchdog s' H). }
  destruct e as [code| | | |draws| |env results].
  - apply Hpre.
    destruct (keyDown_facts code s) as (C & _ & _ & _ & A & _ & Hin).
    split.
    + intros H. rewrite C. apply Harm, A, H.
    + intros ty H. destruct (Hin _ H) as [H'|[e E]];
        [exact (Hlog ty H') | discriminate].
  - apply Hpre. unfold toggleConnection.
    destruct (connection s) eqn:Ec.
    + apply linkSafe_addLog; [discriminate|]. split; [|exact Hlog].
      cbn. intros H. pose proof (Harm H). congruence.
    + apply linkSafe_addLog; [discriminate|]. split; [|exact Hlog].
      cbn. discriminate.
    + apply linkSafe_addLog; [discriminate|]. split; [|exact Hlog].
      cbn. discriminate.
  - apply Hpre. unfold connectTimer.
    destruct (connectTimers s); [exact Hsafe|].
    apply linkSafe_addLog; [discriminate|]. split; [|exact Hlog]. reflexivity.
  - apply Hpre. unfold toggleArm.
    destruct (connection s) eqn:Ec; cbn [isConnected negb]; try exact Hsafe.
    apply linkSafe_addLog; [discriminate|]. split; [|exact Hlog].
    cbn. intros _. exact Ec.
  - apply Hpre. unfold simulationTick.
    destruct (isConnected (connection s)); [|exact Hsafe].
    split; [|exact Hlog]. cbn. exact Harm.
  - apply Hpre. unfold dbTimer.
    destruct (dbTimeout s); [|exact Hsafe]. split; [exact Harm | exact Hlog].
  - pose proof (onFrame_facts env results s r) as (C & T & L & _).
    destruct (onFrame env results s r) as [s' r']. cbn [fst snd] in *.
    apply (Hpre s' r').
    split; [rewrite C, T; exact Harm | rewrite L; exact Hlog].
Qed.

Lemma linkSafe_run (es : list Event) : forall sr,
  linkSafe (fst sr) -> linkSafe (fst (run es sr)).
Proof.
  induction es as [|e es IH]; intros sr H; [exact H|].
  cbn [run fold_left]. apply IH. now apply linkSafe_step.
Qed.

(** The vehicle is armed only while the link is CONNECTED, whatever the
    events since the mount: arming needs the link and disconnecting
    resets the telemetry.  So the connection watchdog never finds an
    armed vehicle on a lost link: it changes nothing, and its link-loss
    line is never logged. *)
Theorem armed_only_while_connected (es : list Event) (t : Z) :
  let s := fst (run es (mounted t)) in
  (Mavlink.armState (telemetry s) = true -> connection s = CONNECTED) /\
  watchdog s = s /\
  (forall ty, ~ In (StationLine ty MsgLinkLost) (logs s)).
Proof.
  intros s.
  assert (H : linkSafe s).
  { apply linkSafe_run. split; [discriminate | intros ty []]. }
  split; [exact (proj1 H)|]. split; [now apply linkSafe_watchdog|].
  exact (proj2 H).
Qed.

End StationProperties.

Section StationRuns.

Import Station.

Lemma timers_step (e : Event) (sr : State * Refs) :
  notConnectTimer e = true ->
  (connectTimers (fst sr) <= connectTimers (fst (step e sr)))%nat.
Proof.
  destruct sr as [s r]. cbn [fst]. intros He. unfold step.
  assert (Hpre : forall s' (r' : Refs),
             (connectTimers s <= connectTimers s')%nat ->
             (connectTimers s <= connectTimers (fst (watchdog s', r')))%nat).
  { intros s' r' H. cbn [fst].
    destruct (watchdog_facts s') as (_ & _ & _ & -> & _). exact H. }
  destruct e as [code| | | |draws| |env results]; try discriminate.
  - apply Hpre. destruct (keyDown_facts code s) as (_ & -> & _). lia.
  - apply Hpre. unfold toggleConnection. destruct (connection s); cbn; lia.
  - apply Hpre. unfold toggleArm.
    destruct (negb (isConnected (connection s))); cbn; lia.
  - apply Hpre. unfold simulationTick.
    destruct (isConnected (connection s)); cbn; lia.
  - apply Hpre. unfold dbTimer. destruct (dbTimeout s); cbn; lia.
  - pose proof (onFrame_facts env results s r) as (_ & _ & _ & N & _).
    destruct (onFrame env results s r) as [s' r']. cbn [fst] in N.
    apply Hpre. lia.
Qed.

Lemma timers_run (es : list Event) : forall sr,
  forallb notConnectTimer es = true ->
  (connectTimers (fst sr) <= connectTimers (fst (run es sr)))%nat.
Proof.
  induction es as [|e es IH]; intros sr H; [cbn; lia|].
  cbn [forallb] in H. apply andb_true_iff in H as [He Hes].
  cbn [run fold_left].
  pose proof (timers_step e sr He). pose proof (IH (step e sr) Hes).
  change (fold_left (fun sr0 e0 => step e0 sr0) es (step e sr))
    with (run es (step e sr)). lia.
Qed.

(** The timer armed by a click on "connect" is never cancelled: once
    the click has been made on a DISCONNECTED link, whatever happens
    before the timer fires (a click on "disconnect" included), the link
    is CONNECTED when it fires. *)
Theorem connect_timer_is_never_cancelled
  (es : list Event) (sr : State * Refs) :
  connection (fst sr) = DISCONNECTED ->
  forallb notConnectTimer es = true ->
  connection (fst (run (ToggleConnection :: es ++ [ConnectTimer]) sr))
  = CONNECTED.
Proof.
  intros Hc Hes.
  change (ToggleConnection :: es ++ [ConnectTimer])
    with ([ToggleConnection] ++ es ++ [ConnectTimer]).
  rewrite !run_station.
  set (sr1 := run [ToggleConnection] sr).
  assert (H1 : (1 <= connectTimers (fst sr1))%nat).
  { subst sr1. destruct sr as [s r]. cbn [fst] in Hc.
    cbn [run fold_left step fst].
    destruct (watchdog_facts (toggleConnection s)) as (_ & _ & _ & -> & _).
    unfold toggleConnection. rewrite Hc. cbn. lia. }
  pose proof (timers_run es sr1 Hes) as H2.
  destruct (run es sr1) as [s2 r2]. cbn [fst] in H2.
  cbn [run fold_left step fst].
  destruct (watchdog_facts (connectTimer s2)) as (-> & _).
  unfold connectTimer. destruct (connectTimers s2); [lia | reflexivity].
Qed.

Lemma connect_timer_is_never_cancelled_witness :
  (connection (fst (mounted 0)) = DISCONNECTED /\
   forallb notConnectTimer [ToggleConnection; KeyDown "KeyC"] = true) /\
  connection
    (fst (run (ToggleConnection
               :: [ToggleConnection; KeyDown "KeyC"] ++ [ConnectTimer])
              (mounted 0)))
  = CONNECTED.
Proof.
  split; [split; reflexivity|].
  exact (connect_timer_is_never_cancelled [ToggleConnection; KeyDown "KeyC"]
           (mounted 0) eq_refl eq_refl).
Defined.

Lemma calibration_step (e : Event) (sr : State * Refs) :
  notKey e = true -> calibration (fst (step e sr)) = calibration (fst sr).
Proof.
  destruct sr as [s r]. cbn [fst]. intros He. unfold step.
  assert (Hpre : forall s' (r' : Refs),
             calibration s' = calibration s ->
             calibration (fst (watchdog s', r')) = calibration s).
  { intros s' r' H. cbn [fst].
    destruct (watchdog_facts s') as (_ & -> & _). exact H. }
  destruct e as [code| | | |draws| |env results]; try discriminate.
  - apply Hpre. unfold toggleConnection. now destruct (connection s).
  - apply Hpre. unfold connectTimer. now destruct (connectTimers s).
  - apply Hpre. unfold toggleArm.
    now destruct (negb (isConnected (connection s))).
  - apply Hpre. unfold simulationTick.
    now destruct (isConnected (connection s)).
  - apply Hpre. unfold dbTimer. now destruct (dbTimeout s).
  - pose proof (onFrame_facts env results s r) as (_ & _ & _ & _ & K).
    destruct (onFrame env results s r) as [s' r']. cbn [fst] in K.
    now apply Hpre.
Qed.

(** Only the keyboard changes the calibration: connecting,
    disconnecting, arming, telemetry packets, timers and video frames
    leave the stage and both references as they are.  In particular a
    disconnection does not bring the calibration back to stage 0. *)
Theorem calibration_changed_only_by_keys
  (es : list Event) (sr : State * Refs) :
  forallb notKey es = true ->
  calibration (fst (run es sr)) = calibration (fst sr).
Proof.
  revert sr. induction es as [|e es IH]; intros sr H; [reflexivity|].
  cbn [forallb] in H. apply andb_true_iff in H as [He Hes].
  cbn [run fold_left].
  change (fold_left (fun sr0 e0 => step e0 sr0) es (step e sr))
    with (run es (step e sr)).
  rewrite (IH (step e sr) Hes). now apply calibration_step.
Qed.

Lemma calibration_changed_only_by_keys_witness :
  let es := [ToggleConnection; ConnectTimer; ToggleArm; ToggleConnection] in
  let sr := run [KeyDown "KeyC"] (mounted 0) in
  forallb notKey es = true /\
  calibration (fst (run es sr)) = mkCalibration Far (Fin 0.1) (Fin 0.3).
Proof.
  intros es sr. split; [reflexivity|].
  rewrite (calibration_changed_only_by_keys es sr eq_refl). reflexivity.
Defined.

End StationRuns.

(** ** The running application never divides by zero *)

Lemma isFinite_Fin (a : num) : isFinite a = true -> exists q, a = Fin q.
Proof. destruct a as [q| | |]; try discriminate. now exists q. Qed.

Lemma isFinite_number (a : num) : isFinite a = true -> isNaN a = false.
Proof. now destruct a. Qed.

Lemma soundCalibration_handleKeyDown (rendered : App.State) (code : string)
  (s : App.State) :
  soundCalibration (App.calibration s) (App.lastSampleRef s) ->
  soundCalibration (App.calibration (App.handleKeyDown rendered code s))
                   (App.lastSampleRef s).
Proof.
  intros (Hs & Hm & Hx & Hr).
  unfold App.handleKeyDown, App.onSpace, App.onKeyC, App.onKeyS.
  destruct (String.eqb code "Space"), (String.eqb code "KeyC"),
    (String.eqb code "KeyS"), (App.armState rendered),
    (stage (App.calibration rendered));
    cbn [App.calibration App.lastSampleRef App.addLog App.setCalibration
         App.setArmState App.logs App.armState];
    repeat match goal with
           | |- context [if ?c then _ else _] => destruct c eqn:?
           end;
    cbn [App.calibration App.lastSampleRef App.addLog App.setCalibration
         App.setArmState App.logs App.armState];
    try (split; [exact Hs | split; [exact Hm | split; [exact Hx | exact Hr]]]);
    try (split; [exact Hs | split; [exact Hm | split;
           [exact Hx | cbn; discriminate]]]);
    try (split; [exact Hs | split; [exact Hs | split;
           [exact Hx | cbn; discriminate]]]);
    try (split; [exact Hs | split; [exact Hm | split; [exact Hs |]]];
         cbn; intros _;
         apply not_leb_ltb; auto using isFinite_number).
Qed.

Lemma finite_point (lm : NormalizedLandmarkList) (i : nat) :
  forallb finitePoint lm = true -> (i < List.length lm)%nat ->
  exists x y, point lm i = Landmark.mk (Fin x) (Fin y).
Proof.
  intros Hall Hi. unfold point.
  rewrite forallb_forall in Hall.
  assert (Hin : In (nth i lm origin) lm) by now apply nth_In.
  specialize (Hall _ Hin). unfold finitePoint in Hall.
  apply andb_true_iff in Hall as [Hx Hy].
  destruct (nth i lm origin) as [px py]. cbn in Hx, Hy.
  destruct (isFinite_Fin px Hx) as [x ->].
  destruct (isFinite_Fin py Hy) as [y ->]. eauto.
Qed.

Lemma finite_hand_span (lm : NormalizedLandmarkList) :
  forallb finitePoint lm = true -> (21 <= List.length lm)%nat ->
  exists v, spanOf lm = Fin v.
Proof.
  intros Hall Hlen.
  destruct (finite_point lm 0 Hall ltac:(lia)) as (x0 & y0 & H0).
  destruct (finite_point lm 9 Hall ltac:(lia)) as (x9 & y9 & H9).
  destruct (spanOf_finite lm x0 y0 x9 y9 H0 H9) as [Hf _].
  now apply isFinite_Fin.
Qed.

Lemma finiteResults_firstHand (results : Results) (lm : NormalizedLandmarkList) :
  finiteResults results = true -> firstHand results = Some lm ->
  forallb finitePoint lm = true.
Proof.
  unfold finiteResults, firstHand.
  destruct (multiHandLandmarks results) as [[|lm' hands]|]; try discriminate.
  cbn [forallb]. intros H [= <-]. now apply andb_true_iff in H as [H _].
Qed.

Lemma sound_fields (s s' : Station.State) (r r' : Refs) :
  Station.calibration s' = Station.calibration s ->
  Station.lastSampleRef s' = Station.lastSampleRef s ->
  smoothedIntensity (logicState r') = smoothedIntensity (logicState r) ->
  sound (s, r) -> sound (s', r').
Proof.
  unfold sound, unitState. cbn [fst snd]. intros -> -> ->. exact (fun H => H).
Qed.

Lemma sound_onFrame (env : Env) (results : Results)
  (s : Station.State) (r : Refs) :
  finiteResults results = true ->
  sound (s, r) -> sound (Station.onFrame env results s r).
Proof.
  intros Hfin Hsound. pose proof Hsound as [(Hs & Hm & Hx & Hr) (p & Hp & Hp01)].
  cbn [fst snd] in Hs, Hm, Hx, Hr, Hp.
  unfold Station.onFrame.
  set (props := mkProps true (Station.calibration s)).
  assert (Hg : forall u s0,
             Station.calibration (Station.handleGestureUpdate u s0)
             = Station.calibration s0 /\
             Station.lastSampleRef (Station.handleGestureUpdate u s0)
             = Station.lastSampleRef s0).
  { intros u s0. unfold Station.handleGestureUpdate.
    destruct (negb _); [auto|]. destruct (_ >? _)%num; auto. }
  destruct (canvasReady env) eqn:Hc.
  2:{ unfold onResults. rewrite Hc. exact Hsound. }
  destruct (handPresent results) eqn:Hh.
  2:{ rewrite (no_hand_frame props env results r Hc Hh).
      cbn [isActive props onGestureUpdate onCalibrationStep].
      destruct (Hg (mkUpdate NONE (Fin 0)
                     (if (now_failsafe env - lastHandTime r <? 500)%Z
                      then lastValidRC r else baseRC)) s) as [E1 E2].
      now apply (sound_fields s _ r r). }
  destruct (handPresent_firstHand results Hh) as [lm Hf].
  destruct (Nat.le_gt_cases 21 (List.length lm)) as [Hlen|Hlen].
  2:{ rewrite (short_hand_frame props env results r lm Hc Hf Hlen).
      now apply (sound_fields s s r _). }
  destruct (finite_hand_span lm (finiteResults_firstHand results lm Hfin Hf)
              Hlen) as [v Hv].
  destruct (Stage_eqb (stage (calibration props)) Ready) eqn:Hst.
  - apply Stage_eqb_eq in Hst.
    rewrite (ready_hand_frame props env results r lm Hc Hf Hlen Hst).
    cbv zeta. cbn [isActive props onGestureUpdate onCalibrationStep].
    destruct (isFinite_Fin _ Hm) as [a Ha].
    destruct (isFinite_Fin _ Hx) as [b Hb].
    assert (Hab : a < b).
    { apply ltb_Fin_inv. rewrite <- Ha, <- Hb. apply Hr. exact Hst. }
    destruct (normalize_sound (calibration props) a b v Ha Hb Hab)
      as (q & Hq & Hq01 & _).
    rewrite Hv, Hq, Hp.
    match goal with
    | |- sound (Station.handleGestureUpdate ?u s, ?r') =>
        destruct (Hg u s) as [E1 E2]
    end.
    split.
    + cbn [fst]. rewrite E1, E2. repeat split; assumption.
    + cbn [snd]. unfold unitState.
      cbn [logicState smoothedIntensity].
      unfold MathUtils.calculateEMA, APP_CONFIG.EMA_ALPHA. cbn [mul sub add].
      eexists. split; [reflexivity|]. lra.
  - assert (Hne : stage (calibration props) <> Ready).
    { intros E. apply Stage_eqb_eq in E. congruence. }
    rewrite (not_ready_hand_frame props env results r lm Hc Hf Hlen Hne).
    cbv zeta. cbn [isActive props onGestureUpdate onCalibrationStep].
    match goal with
    | |- context [Station.handleGestureUpdate ?u s] =>
        destruct (Hg u s) as [E1 E2];
        generalize dependent (Station.handleGestureUpdate u s)
    end.
    intros s1 E1 E2.
    destruct (Stage_eqb (stage (calibration props)) Far
              || Stage_eqb (stage (calibration props)) Near).
    + split.
      * cbn [fst Station.handleCalibrationStep Station.calibration
             Station.lastSampleRef]. rewrite E1, Hv.
        repeat split; assumption.
      * exists p. split; [exact Hp | exact Hp01].
    + split.
      * cbn [fst]. rewrite E1, E2. repeat split; assumption.
      * exists p. split; [exact Hp | exact Hp01].
Qed.

Lemma sound_step (e : Station.Event) (sr : Station.State * Refs) :
  finiteEvent e = true -> sound sr -> sound (Station.step e sr).
Proof.
  destruct sr as [s r]. intros He Hsound. unfold Station.step.
  assert (Hpre : forall s' (r' : Refs),
             sound (s', r') -> sound (Station.watchdog s', r')).
  { intros s' r' H.
    destruct (watchdog_facts s') as (_ & K & L & _).
    now apply (sound_fields s' _ r' r'). }
  assert (Hsame : forall s',
             Station.calibration s' = Station.calibration s ->
             Station.lastSampleRef s' = Station.lastSampleRef s ->
             sound (Station.watchdog s', r)).
  { intros s' K L. apply Hpre. now apply (sound_fields s s' r r). }
  destruct e as [code| | | |draws| |env results].
  - apply Hpre.
    destruct (keyDown_facts code s) as (_ & _ & L & K & _).
    destruct Hsound as [Hcal Hunit]. split; [|exact Hunit].
    cbn [fst] in *. rewrite K, L.
    pose proof (soundCalibration_handleKeyDown
                  (Station.keyView s) code (Station.keyView s)) as H.
    cbn [Station.keyView App.calibration App.lastSampleRef] in H.
    exact (H Hcal).
  - apply Hsame; unfold Station.toggleConnection;
      now destruct (Station.connection s).
  - apply Hsame; unfold Station.connectTimer;
      now destruct (Station.connectTimers s).
  - apply Hsame; unfold Station.toggleArm;
      now destruct (negb (Station.isConnected (Station.connection s))).
  - apply Hsame; unfold Station.simulationTick;
      now destruct (Station.isConnected (Station.connection s)).
  - apply Hsame; unfold Station.dbTimer; now destruct (Station.dbTimeout s).
  - cbn [finiteEvent] in He.
    pose proof (sound_onFrame env results s r He Hsound) as H.
    destruct (Station.onFrame env results s r) as [s' r'].
    now apply Hpre.
Qed.

Lemma sound_run (es : list Station.Event) : forall sr,
  forallb finiteEvent es = true -> sound sr -> sound (Station.run es sr).
Proof.
  induction es as [|e es IH]; intros sr H Hs; [exact Hs|].
  cbn [forallb] in H. apply andb_true_iff in H as [He Hes].
  cbn [Station.run fold_left]. apply IH; [exact Hes|].
  now apply sound_step.
Qed.

Lemma bounded_finite_point (p : Landmark.t) :
  boundedPoint p = true -> finitePoint p = true.
Proof.
  unfold boundedPoint, finitePoint. intros H.
  apply andb_true_iff in H as [Hx Hy].
  destruct (within_cases _ _ Hx) as (x & -> & _).
  destruct (within_cases _ _ Hy) as (y & -> & _). reflexivity.
Qed.

Lemma forallb_weaken {A} (f g : A -> bool) (l : list A) :
  (forall a, f a = true -> g a = true) ->
  forallb f l = true -> forallb g l = true.
Proof.
  intros Hfg. rewrite !forallb_forall. auto.
Qed.

Lemma bounded_finite_event (e : Station.Event) :
  boundedEvent e = true -> finiteEvent e = true.
Proof.
  destruct e as [code| | | |draws| |env results]; try reflexivity.
  unfold boundedEvent, finiteEvent, boundedResults, finiteResults.
  destruct (multiHandLandmarks results) as [hands|]; [|reflexivity].
  apply forallb_weaken. intros lm.
  apply forallb_weaken, bounded_finite_point.
Qed.

(** In the running application, as long as the detector delivers
    coordinates of absolute value at most [10^6], the calibration handed
    to the frames is never degenerate and the filter never holds [NaN]:
    after any events since the mount (keys, connection, arming,
    telemetry, timers, frames with hands of any size) both references
    are finite, stage 3 has the near reference strictly above the far
    one, and [smoothedIntensity] is a number of [[0, 1]]. *)
Theorem application_never_degenerate (es : list Station.Event) (t : Z) :
  forallb boundedEvent es = true ->
  let s := fst (Station.run es (Station.mounted t)) in
  let r := snd (Station.run es (Station.mounted t)) in
  (exists far near,
      minScale (Station.calibration s) = Fin far /\
      maxScale (Station.calibration s) = Fin near /\
      (stage (Station.calibration s) = Ready -> far < near)) /\
  (exists q, smoothedIntensity (logicState r) = Fin q /\ 0 <= q <= 1).
Proof.
  intros Hbounded s r.
  assert (Hes : forallb finiteEvent es = true)
    by (revert Hbounded; apply forallb_weaken, bounded_finite_event).
  assert (H0 : sound (Station.mounted t)).
  { split; [repeat split; discriminate|].
    exists 0. split; [reflexivity | lra]. }
  destruct (sound_run es (Station.mounted t) Hes H0)
    as [(_ & Hm & Hx & Hr) Hunit].
  fold s in Hm, Hx, Hr. fold r in Hunit.
  split; [|exact Hunit].
  destruct (isFinite_Fin _ Hm) as [a Ha].
  destruct (isFinite_Fin _ Hx) as [b Hb].
  exists a, b. split; [exact Ha|]. split; [exact Hb|].
  intros Hst. apply ltb_Fin_inv. rewrite <- Ha, <- Hb. exact (Hr Hst).
Qed.

Lemma application_never_degenerate_witness :
  let far := dyadicHand 0.5 true true true true in
  let near := dyadicHand 0.25 true true true true in
  let see lm := Station.Frame (mkEnv true 1000 1000) (mkResults (Some [lm])) in
  let es := [Station.KeyDown "KeyC"; see far; Station.KeyDown "KeyS";
             see near; Station.KeyDown "KeyS"; see far] in
  forallb boundedEvent es = true /\
  stage (Station.calibration (fst (Station.run es (Station.mounted 0))))
  = Ready /\
  exists q,
    smoothedIntensity
      (logicState (snd (Station.run es (Station.mounted 0)))) = Fin q /\
    0 <= q <= 1.
Proof.
  intros far near see es.
  assert (Hes : forallb boundedEvent es = true) by (vm_compute; reflexivity).
  split; [exact Hes|]. split; [vm_compute; reflexivity|].
  exact (proj2 (application_never_degenerate es 0 Hes)).
Defined.

(** ** Emergency stop and the database indicator *)

Section StationControls.

Import Station.

(** The space bar always leaves the vehicle disarmed, whatever the state
    of the link or of the calibration, and touches neither of them; the
    ERROR line is logged only when the vehicle was armed. *)
Theorem emergency_stop_always_disarms (sr : State * Refs) :
  let s := fst sr in
  let s' := fst (step (KeyDown "Space") sr) in
  Mavlink.armState (telemetry s') = false /\
  connection s' = connection s /\
  calibration s' = calibration s /\
  logs s' =
    (if Mavlink.armState (telemetry s)
     then skipn (List.length (logs s) - 49) (logs s)
          ++ [KeyLine (mkLog ERROR MsgEmergencyStop)]
     else logs s).
Proof.
  destruct sr as [[c [troll tpitch tyaw talt tbat tsat tarm] cal lg ls db ct dt]
                  r].
  cbn [fst step]. unfold keyDown.
  change (App.handleKeyDown ?k "Space" ?k') with (App.onSpace k k').
  unfold App.onSpace, keyView, watchdog.
  cbn [telemetry Mavlink.armState App.armState].
  destruct tarm; cbn; rewrite ?andb_false_r; cbn; repeat split.
Qed.

Lemma keyLines_dbWriting (es : list LogEntry) : forall s,
  dbWriting (fold_left (fun s e => addLog (KeyLine e) s) es s) = dbWriting s.
Proof.
  induction es as [|e es IH]; intros s; [reflexivity|].
  cbn [fold_left]. now rewrite IH.
Qed.

Lemma watchdog_dbWriting (s : State) : dbWriting (watchdog s) = dbWriting s.
Proof.
  unfold watchdog.
  now destruct (isDisconnected (connection s)
                && Mavlink.armState (telemetry s)).
Qed.

(** The database indicator is switched on by nothing but a video frame
    that reports a positive intensity while the link is CONNECTED. *)
Theorem db_indicator_needs_link_and_intensity
  (e : Event) (sr : State * Refs) :
  dbWriting (fst sr) = false ->
  dbWriting (fst (step e sr)) = true ->
  exists env results u,
    e = Frame env results /\
    connection (fst sr) = CONNECTED /\
    emitted (snd (onResults (mkProps true (calibration (fst sr)))
                            env results (snd sr))) = Some u /\
    (upd_intensity u >? Fin 0)%num = true.
Proof.
  destruct sr as [s r]. cbn [fst snd]. intros Hoff Hon.
  unfold step in Hon.
  destruct e as [code| | | |draws| |env results];
    cbn [fst] in Hon; try rewrite watchdog_dbWriting in Hon.
  - unfold keyDown in Hon. rewrite keyLines_dbWriting in Hon.
    cbn in Hon. congruence.
  - unfold toggleConnection in Hon. destruct (connection s);
      cbn in Hon; congruence.
  - unfold connectTimer in Hon. destruct (connectTimers s);
      cbn in Hon; congruence.
  - unfold toggleArm in Hon.
    destruct (negb (isConnected (connection s))); cbn in Hon; congruence.
  - unfold simulationTick in Hon.
    destruct (isConnected (connection s)); cbn in Hon; congruence.
  - unfold dbTimer in Hon. destruct (dbTimeout s); cbn in Hon; congruence.
  - exists env, results.
    assert (Hon' : dbWriting (fst (onFrame env results s r)) = true).
    { destruct (onFrame env results s r) as [s' r']. cbn [fst] in *.
      now rewrite watchdog_dbWriting in Hon. }
    clear Hon. revert Hon'. unfold onFrame.
    destruct (onResults (mkProps true (calibration s)) env results r)
      as [r' [|c|]]; cbn [fst snd emitted]; try congruence.
    destruct (onGestureUpdate c) as [u|].
    + intros Hon. exists u.
      assert (Hg : dbWriting (handleGestureUpdate u s) = true).
      { destruct (onCalibrationStep c); exact Hon. }
      unfold handleGestureUpdate in Hg.
      destruct (connection s) eqn:Ec; cbn [isConnected negb] in Hg;
        try congruence.
      destruct (upd_intensity u >? Fin 0)%num eqn:Ei; [|congruence].
      repeat split.
    + intros Hon. destruct (onCalibrationStep c); cbn in Hon; congruence.
Qed.

Lemma db_indicator_needs_link_and_intensity_witness :
  let hand := exampleHand 0.6 true true true true in
  let closer := exampleHand 0.4 true true true true in
  let see lm := Frame (mkEnv true 1000 1000) (mkResults (Some [lm])) in
  let sr := run [ToggleConnection; ConnectTimer; KeyDown "KeyC"; see hand;
                 KeyDown "KeyS"; see closer; KeyDown "KeyS"] (mounted 0) in
  (dbWriting (fst sr) = false /\
   dbWriting (fst (step (see closer) sr)) = true) /\
  connection (fst sr) = CONNECTED.
Proof.
  intros hand closer see sr.
  assert (Hoff : dbWriting (fst sr) = false) by (vm_compute; reflexivity).
  assert (Hon : dbWriting (fst (step (see closer) sr)) = true)
    by (vm_compute; reflexivity).
  split; [split; assumption|].
  destruct (db_indicator_needs_link_and_intensity (see closer) sr Hoff Hon)
    as (env & results & u & _ & Hc & _).
  exact Hc.
Defined.

End StationControls.

(** ** Examples of the run-level properties *)

Lemma emitted_commands_in_range_witness :
  let f := handFrame (mkCalibration Ready (Fin 0.3) (Fin 0.3)) 1000
                     (exampleHand 0.5 true true true true) in
  let rc := mkRC (Fin 1500) (Fin 1410) (Fin 1000) (Fin 1500) in
  emittedRC (snd (frame f (initialRefs 0))) = Some rc /\
  allInRange rc = true.
Proof.
  intros f rc.
  assert (He : emittedRC (snd (frame f (initialRefs 0))) = Some rc)
    by (vm_compute; reflexivity).
  split; [exact He|].
  pose proof (emitted_commands_in_range [f] 0) as H.
  cbn [run] in H. destruct (frame f (initialRefs 0)) as [r1 o].
  cbn [fst snd] in H, He.
  exact (Forall_inv H rc He).
Defined.

Lemma armed_only_while_connected_witness :
  let es := [Station.ToggleConnection; Station.ConnectTimer;
             Station.ToggleArm] in
  let s := fst (Station.run es (Station.mounted 0)) in
  Mavlink.armState (Station.telemetry s) = true /\
  Station.connection s = Station.CONNECTED.
Proof.
  intros es s.
  assert (Harm : Mavlink.armState (Station.telemetry s) = true)
    by (vm_compute; reflexivity).
  split; [exact Harm|].
  exact (proj1 (armed_only_while_connected es 0) Harm).
Defined.

(** ** Telemetry of the running application *)

Lemma telemetryInRange_setArmState (b : bool) (t : Mavlink.TelemetryData) :
  telemetryInRange t -> telemetryInRange (Station.setArmState b t).
Proof. exact (fun H => H). Qed.

Lemma generate_in_range (d : Mavlink.Draws) (t : Mavlink.TelemetryData)
  (isArmed : bool) :
  drawsOk d = true -> telemetryInRange t ->
  telemetryInRange (Mavlink.generateMockTelemetry d t isArmed) /\
  (Fin 12 <=?
   Mavlink.satelliteCount (Mavlink.generateMockTelemetry d t isArmed))%num
  = true.
Proof.
  intros Hd Ht.
  exact (tick_in_range d (Station.setArmState isArmed t) Hd
           (telemetryInRange_setArmState isArmed t Ht)).
Qed.

Lemma keyDown_telemetry (code : string) (s : Station.State) :
  exists b, Station.telemetry (Station.keyDown code s)
            = Station.setArmState b (Station.telemetry s).
Proof.
  unfold Station.keyDown.
  set (k := App.handleKeyDown (Station.keyView s) code (Station.keyView s)).
  match goal with
  | |- context [fold_left _ (App.logs k) ?s0] =>
      destruct (keyLines_fields (App.logs k) s0) as (_ & T & _)
  end.
  cbv zeta in T. exists (App.armState k). exact T.
Qed.

Lemma telemetry_step (e : Station.Event) (sr : Station.State * Refs) :
  drawsEvent e = true ->
  telemetryInRange (Station.telemetry (fst sr)) ->
  telemetryInRange (Station.telemetry (fst (Station.step e sr))).
Proof.
  destruct sr as [s r]. cbn [fst]. intros He Ht. unfold Station.step.
  assert (Hpre : forall s' (r' : Refs),
             telemetryInRange (Station.telemetry s') ->
             telemetryInRange
               (Station.telemetry (fst (Station.watchdog s', r')))).
  { intros s' r' H. cbn [fst]. unfold Station.watchdog.
    destruct (Station.isDisconnected (Station.connection s')
              && Mavlink.armState (Station.telemetry s')); exact H. }
  destruct e as [code| | | |draws| |env results].
  - apply Hpre. destruct (keyDown_telemetry code s) as [b ->]. exact Ht.
  - apply Hpre. unfold Station.toggleConnection.
    destruct (Station.connection s); [exact Ht | repeat split..].
  - apply Hpre. unfold Station.connectTimer.
    destruct (Station.connectTimers s); exact Ht.
  - apply Hpre. unfold Station.toggleArm.
    destruct (negb (Station.isConnected (Station.connection s))); exact Ht.
  - apply Hpre. unfold Station.simulationTick.
    destruct (Station.isConnected (Station.connection s)); [|exact Ht].
    exact (proj1 (tick_in_range draws (Station.telemetry s) He Ht)).
  - apply Hpre. unfold Station.dbTimer.
    destruct (Station.dbTimeout s); exact Ht.
  - pose proof (onFrame_facts env results s r) as (_ & T & _).
    destruct (Station.onFrame env results s r) as [s' r']. cbn [fst] in T.
    apply (Hpre s' r'). rewrite T. exact Ht.
Qed.

(** Whatever the random draws (numbers of [[0, 1)]), the simulated
    telemetry never leaves its ranges: roll and pitch within 20 degrees,
    yaw strictly between -360 and 360, altitude not negative, battery
    between 10.5 and 12.6 V, at most 14 satellites.  One packet keeps
    telemetry that is in range in range, armed or not, and reports 12 to
    14 satellites; and in the running application the telemetry is in
    range after any events since the mount, arming and disarming
    included. *)
Theorem telemetry_stays_in_range :
  (forall d t isArmed,
      drawsOk d = true -> telemetryInRange t ->
      telemetryInRange (Mavlink.generateMockTelemetry d t isArmed) /\
      (Fin 12 <=?
       Mavlink.satelliteCount (Mavlink.generateMockTelemetry d t isArmed))%num
      = true) /\
  (forall es t0,
      forallb drawsEvent es = true ->
      telemetryInRange
        (Station.telemetry (fst (Station.run es (Station.mounted t0))))).
Proof.
  split; [exact generate_in_range|].
  intros es t0.
  assert (Hgen : forall sr,
             forallb drawsEvent es = true ->
             telemetryInRange (Station.telemetry (fst sr)) ->
             telemetryInRange (Station.telemetry (fst (Station.run es sr)))).
  { induction es as [|e es IH]; intros sr H Ht; [exact Ht|].
    cbn [forallb] in H. apply andb_true_iff in H as [He Hes].
    cbn [Station.run fold_left]. apply IH; [exact Hes|].
    now apply telemetry_step. }
  intros Hes. apply Hgen; [exact Hes | repeat split].
Qed.

Lemma telemetry_stays_in_range_witness :
  let d := Mavlink.mkDraws (Fin 0.9) (Fin 0.1) (Fin 0.5) (Fin 0.3) (Fin 0.99) in
  let es := [Station.ToggleConnection; Station.ConnectTimer;
             Station.ToggleArm; Station.SimulationTick d;
             Station.SimulationTick d] in
  let t := Station.telemetry (fst (Station.run es (Station.mounted 0))) in
  (forallb drawsEvent es = true /\ Mavlink.armState t = true) /\
  telemetryInRange t.
Proof.
  intros d es t.
  assert (Hes : forallb drawsEvent es = true) by (vm_compute; reflexivity).
  split; [split; [exact Hes | vm_compute; reflexivity]|].
  exact (proj2 telemetry_stays_in_range es 0%Z Hes).
Defined.

(** ** [utils/math] : [calculateEMA] and [mapRange] *)

(** The filter keeps the unit interval: with a smoothing factor of
    [[0, 1]], the filtered value of an input and a state of [[0, 1]] is
    a number of [[0, 1]].  With factor 1 it is the input and with factor
    0 the state, and a [NaN] input or state gives [NaN]. *)
Theorem ema_keeps_unit_interval :
  (forall current previous alpha : Q,
      0 <= alpha <= 1 -> 0 <= current <= 1 -> 0 <= previous <= 1 ->
      let r :=
        MathUtils.calculateEMA (Fin current) (Fin previous) (Fin alpha) in
      (Fin 0 <=? r)%num = true /\ (r <=? Fin 1)%num = true) /\
  (forall current previous : Q,
      sameValue
        (MathUtils.calculateEMA (Fin current) (Fin previous) (Fin 1))
        (Fin current) /\
      sameValue
        (MathUtils.calculateEMA (Fin current) (Fin previous) (Fin 0))
        (Fin previous)) /\
  (forall other alpha : num,
      MathUtils.calculateEMA NaN other alpha = NaN /\
      MathUtils.calculateEMA other NaN alpha = NaN).
Proof.
  split; [|split].
  - intros c p a Ha Hc Hp r. subst r.
    unfold MathUtils.calculateEMA. cbn [mul sub add].
    assert (H1 : 0 <= a * c) by (apply Qmult_le_0_compat; lra).
    assert (H2 : 0 <= (1 - a) * p) by (apply Qmult_le_0_compat; lra).
    assert (H3 : 0 <= a * (1 - c)) by (apply Qmult_le_0_compat; lra).
    assert (H4 : 0 <= (1 - a) * (1 - p)) by (apply Qmult_le_0_compat; lra).
    split; apply leb_Fin; lra.
  - intros c p. unfold MathUtils.calculateEMA. cbn [mul sub add sameValue].
    split; ring.
  - intros other alpha. unfold MathUtils.calculateEMA. split.
    + now destruct alpha.
    + destruct alpha as [a| | |]; destruct other as [o| | |];
        cbn [mul sub add sgn signedInf Z.mul];
        try reflexivity;
        try (destruct (Qsgn a); reflexivity);
        try (destruct (Qsgn o); reflexivity).
Qed.

Lemma ema_keeps_unit_interval_witness :
  (0 <= 0.2 <= 1 /\ 0 <= 1 <= 1 /\ 0 <= 0.5 <= 1) /\
  (Fin 0 <=? MathUtils.calculateEMA (Fin 1) (Fin 0.5) (Fin 0.2))%num = true /\
  (MathUtils.calculateEMA (Fin 1) (Fin 0.5) (Fin 0.2) <=? Fin 1)%num = true.
Proof.
  assert (Ha : 0 <= 0.2 <= 1) by (split; discriminate).
  assert (Hc : 0 <= 1 <= 1) by (split; discriminate).
  assert (Hp : 0 <= 0.5 <= 1) by (split; discriminate).
  split; [exact (conj Ha (conj Hc Hp))|].
  exact (proj1 ema_keeps_unit_interval 1 0.5 0.2 Ha Hc Hp).
Defined.

Lemma Qnum_zero (q : Q) : q == 0 -> Qnum q = 0%Z.
Proof. unfold Qeq. cbn [Qnum Qden]. lia. Qed.

Lemma Qsgn_product_zero (x y : Q) : x == 0 \/ y == 0 -> Qsgn (x * y) = 0%Z.
Proof.
  intros H. unfold Qsgn. cbn [Qmult Qnum].
  destruct H as [H|H]; rewrite (Qnum_zero _ H); [reflexivity|].
  now rewrite Z.mul_0_r.
Qed.

(** [mapRange] does not guard against an empty input interval: when
    [inMin] equals [inMax] the result is never a finite number
    (an infinity or [NaN]), and it is [NaN] when the value is [inMin] or
    the output interval is empty too. *)
Theorem mapRange_empty_input_interval
  (value inMin inMax outMin outMax : Q) :
  inMin == inMax ->
  let r := MathUtils.mapRange (Fin value) (Fin inMin) (Fin inMax)
                              (Fin outMin) (Fin outMax) in
  isFinite r = false /\
  (value == inMin \/ outMin == outMax -> r = NaN).
Proof.
  intros Hin r. subst r. unfold MathUtils.mapRange. cbn [sub mul div].
  assert (Hz : Qeq_bool (inMax - inMin) 0 = true)
    by (apply Qeq_bool_iff; lra).
  rewrite Hz. split.
  - destruct (Qsgn ((value - inMin) * (outMax - outMin))); reflexivity.
  - intros H. rewrite Qsgn_product_zero; [reflexivity|].
    destruct H as [H|H]; [left|right]; lra.
Qed.

Lemma mapRange_empty_input_interval_witness :
  (5 == 5) /\
  isFinite (MathUtils.mapRange (Fin 7) (Fin 5) (Fin 5) (Fin 0) (Fin 1))
  = false /\
  (7 == 5 \/ 0 == 1 ->
   MathUtils.mapRange (Fin 7) (Fin 5) (Fin 5) (Fin 0) (Fin 1) = NaN).
Proof.
  assert (H : 5 == 5) by reflexivity.
  split; [exact H|].
  exact (mapRange_empty_input_interval 7 5 5 0 1 H).
Defined.

(** ** The battery of the simulation *)

Lemma packets_cons (step : Mavlink.Draws * bool)
  (steps : list (Mavlink.Draws * bool)) (t : Mavlink.TelemetryData) :
  packets (step :: steps) t
  = packets steps (Mavlink.generateMockTelemetry (fst step) t (snd step)).
Proof. reflexivity. Qed.

(** One packet: the new voltage when the old one is the number [v]. *)
Lemma battery_step (d : Mavlink.Draws) (t : Mavlink.TelemetryData)
  (isArmed : bool) (v : Q) :
  Mavlink.batteryVoltage t = Fin v ->
  exists v',
    Mavlink.batteryVoltage (Mavlink.generateMockTelemetry d t isArmed)
    = Fin v' /\
    10.5 <= v' /\
    (v <= 10.5 ->
     Mavlink.batteryVoltage (Mavlink.generateMockTelemetry d t isArmed)
     = Fin 10.5) /\
    (10.5 <= v -> v' <= v - 0.0005 \/ v' == 10.5) /\
    (10.5 < v -> v' < v).
Proof.
  intros Hv. unfold Mavlink.generateMockTelemetry.
  cbn [Mavlink.batteryVoltage]. rewrite Hv. cbn [sub Math_max leb].
  destruct (Qle_bool 10.5 (v - 0.0005)) eqn:E.
  - apply Qle_bool_iff in E. exists (v - 0.0005).
    split; [reflexivity|]. split; [exact E|].
    split; [intros H; lra|]. split; [intros _; left; lra | intros _; lra].
  - assert (Hc : v - 0.0005 < 10.5).
    { destruct (Qlt_le_dec (v - 0.0005) 10.5) as [Hc|Hc]; [exact Hc|].
      apply Qle_bool_iff in Hc. congruence. }
    exists 10.5. split; [reflexivity|]. split; [lra|].
    split; [reflexivity|]. split; [intros _; right; reflexivity | tauto].
Qed.

(** After [n] packets from a voltage of at most [hi], the voltage is
    10.5 or at most [hi - 0.0005 n]. *)
Lemma battery_after_packets (steps : list (Mavlink.Draws * bool)) :
  forall (t : Mavlink.TelemetryData) (v hi : Q),
    Mavlink.batteryVoltage t = Fin v -> 10.5 <= v -> v <= hi ->
    exists w,
      Mavlink.batteryVoltage (packets steps t) = Fin w /\
      10.5 <= w /\
      (w == 10.5 \/
       w <= hi - inject_Z (Z.of_nat (List.length steps)) * 0.0005).
Proof.
  induction steps as [|step steps IH]; intros t v hi Hv Hlo Hhi.
  - exists v. split; [exact Hv|]. split; [exact Hlo|]. right.
    cbn [List.length Z.of_nat]. change (inject_Z 0) with 0. lra.
  - rewrite packets_cons.
    destruct (battery_step (fst step) t (snd step) v Hv)
      as (v' & Hv' & Hlo' & _ & Hdown & _).
    cbn [List.length]. rewrite Nat2Z.inj_succ. unfold Z.succ.
    rewrite inject_Z_plus. change (inject_Z 1) with 1.
    set (m := inject_Z (Z.of_nat (List.length steps))).
    assert (Hm : 0 <= m).
    { subst m. change 0 with (inject_Z 0). rewrite <- Zle_Qle. lia. }
    assert (Hmk : 0 <= m * 0.0005) by (apply Qmult_le_0_compat; lra).
    destruct (Hdown Hlo) as [Hd|Hd].
    + destruct (IH _ v' (hi - 0.0005) Hv' Hlo' ltac:(lra))
        as (w & Hw & Hw1 & Hw2).
      fold m in Hw2. exists w. split; [exact Hw|]. split; [exact Hw1|].
      destruct Hw2 as [Hw2|Hw2]; [left; exact Hw2 | right; lra].
    + destruct (IH _ v' 10.5 Hv' Hlo' ltac:(lra)) as (w & Hw & Hw1 & Hw2).
      fold m in Hw2. exists w. split; [exact Hw|]. split; [exact Hw1|].
      left. destruct Hw2 as [Hw2|Hw2]; lra.
Qed.

(** The simulated battery only drains: a packet never reports less than
    10.5 V, reports exactly 10.5 V once the voltage is at or below that
    floor, and strictly less than before while the voltage is above the
    floor (and at most the initial 12.6 V); from at most 12.6 V the
    floor is reached within 4200 packets, whatever the draws and the arm
    state. *)
Theorem battery_drains_to_floor :
  (forall (d : Mavlink.Draws) (t : Mavlink.TelemetryData) (isArmed : bool)
          (v : Q),
      Mavlink.batteryVoltage t = Fin v ->
      let v' :=
        Mavlink.batteryVoltage (Mavlink.generateMockTelemetry d t isArmed) in
      (Fin 10.5 <=? v')%num = true /\
      (v <= 10.5 -> v' = Fin 10.5) /\
      (10.5 < v <= 12.6 -> (v' <? Fin v)%num = true)) /\
  (forall (steps : list (Mavlink.Draws * bool)) (t : Mavlink.TelemetryData)
          (v : Q),
      Mavlink.batteryVoltage t = Fin v -> v <= 12.6 ->
      (4200 <= List.length steps)%nat ->
      sameValue (Mavlink.batteryVoltage (packets steps t)) (Fin 10.5)).
Proof.
  split.
  - intros d t isArmed v Hv v'. subst v'.
    destruct (battery_step d t isArmed v Hv)
      as (w & Hw & Hlo & Hfloor & _ & Hlt).
    split; [rewrite Hw; apply leb_Fin; exact Hlo|].
    split; [exact Hfloor|].
    intros [H _]. rewrite Hw. apply ltb_Fin. exact (Hlt H).
  - intros steps t v Hv Hhi Hlen.
    destruct steps as [|step steps]; [cbn in Hlen; lia|].
    rewrite packets_cons.
    destruct (battery_step (fst step) t (snd step) v Hv)
      as (v' & Hv' & Hlo' & Hfloor & Hdown & _).
    assert (Hhi' : v' <= 12.6 - 0.0005).
    { destruct (Qlt_le_dec v 10.5) as [Hc|Hc].
      - rewrite (Hfloor (Qlt_le_weak _ _ Hc)) in Hv'.
        injection Hv' as <-. discriminate.
      - destruct (Hdown Hc) as [Hd|Hd]; [lra|]. rewrite Hd. discriminate. }
    destruct (battery_after_packets steps _ v' (12.6 - 0.0005) Hv' Hlo' Hhi')
      as (w & Hw & Hw1 & Hw2).
    rewrite Hw. cbn [sameValue].
    destruct Hw2 as [Hw2|Hw2]; [exact Hw2|].
    cbn [List.length] in Hlen.
    assert (Hn : 4199 <= inject_Z (Z.of_nat (List.length steps))).
    { change 4199 with (inject_Z 4199). rewrite <- Zle_Qle. lia. }
    lra.
Qed.

Lemma battery_drains_to_floor_witness :
  let d := Mavlink.mkDraws (Fin 0.9) (Fin 0.1) (Fin 0.5) (Fin 0.3) (Fin 0.99) in
  let t := Mavlink.generateMockTelemetry d Mavlink.INITIAL_TELEMETRY true in
  let steps := repeat (d, true) 4200 in
  (Mavlink.batteryVoltage Mavlink.INITIAL_TELEMETRY = Fin 12.6 /\
   10.5 < 12.6 /\ 12.6 <= 12.6 /\ (4200 <= List.length steps)%nat) /\
  (Mavlink.batteryVoltage t <? Fin 12.6)%num = true /\
  sameValue (Mavlink.batteryVoltage (packets steps Mavlink.INITIAL_TELEMETRY))
            (Fin 10.5).
Proof.
  intros d t steps.
  assert (H : 10.5 < 12.6) by reflexivity.
  assert (Hhi : 12.6 <= 12.6) by apply Qle_refl.
  assert (Hlen : (4200 <= List.length steps)%nat)
    by (apply Nat.leb_le; vm_compute; reflexivity).
  split; [split; [reflexivity | split; [exact H | split; assumption]]|].
  split.
  - exact (proj2 (proj2 (proj1 battery_drains_to_floor d
                           Mavlink.INITIAL_TELEMETRY true 12.6 eq_refl))
             (conj H Hhi)).
  - exact (proj2 battery_drains_to_floor steps Mavlink.INITIAL_TELEMETRY 12.6
             eq_refl Hhi Hlen).
Defined.

(** ** Releasing the command *)

Lemma run_frames_app (fs1 fs2 : list Frame) : forall r : Refs,
  fst (run (fs1 ++ fs2) r) = fst (run fs2 (fst (run fs1 r))).
Proof.
  induction fs1 as [|f fs1 IH]; intros r; [reflexivity|].
  cbn [app run]. destruct (frame f r) as [r1 o].
  specialize (IH r1).
  destruct (run (fs1 ++ fs2) r1) as [r2 os].
  destruct (run fs1 r1) as [r3 os3]. cbn [fst] in *. exact IH.
Qed.

(** A frame of a hand at the far position: the normalized span is 0, so
    the filter state is multiplied by [1 - EMA_ALPHA]. *)
Lemma far_hand_frame (f : Frame) (r : Refs) (s : Q) :
  farHandFrame f ->
  smoothedIntensity (logicState r) = Fin s ->
  exists s' g,
    smoothedIntensity (logicState (fst (frame f r))) = Fin s' /\
    s' == 0.8 * s /\
    emittedIntensity (snd (frame f r)) = Some (deadzone (Fin s')) /\
    emittedRC (snd (frame f r)) = Some (rcMapping g (deadzone (Fin s'))).
Proof.
  intros (Hc & Hact & Hst & lm & a & b & v & Hf & Hlen & Hmin & Hmax & Hv
          & Hva & Hab) Hs.
  pose proof (ready_hand_frame (f_props f) (f_env f) (f_results f) r lm
                Hc Hf Hlen Hst) as Hframe.
  cbv zeta in Hframe. unfold frame. rewrite Hframe, Hact.
  destruct (normalize_sound (calibration (f_props f)) a b v Hmin Hmax Hab)
    as (q & Hq & _ & Hq0 & _).
  rewrite Hv, Hq, Hs.
  unfold MathUtils.calculateEMA, APP_CONFIG.EMA_ALPHA. cbn [mul sub add].
  pose proof (Hq0 Hva) as Hzero.
  eexists. exists (gesture (handLocals lm)).
  split; [reflexivity|]. split; [lra|]. split; reflexivity.
Qed.

(** Over frames of a hand at the far position the filter state never
    increases, and loses a fifth at every frame. *)
Lemma far_hand_run (fs : list Frame) : forall (r : Refs) (s c : Q),
  Forall farHandFrame fs ->
  smoothedIntensity (logicState r) = Fin s -> 0 <= s <= c ->
  exists s',
    smoothedIntensity (logicState (fst (run fs r))) = Fin s' /\
    0 <= s' <= c /\
    s' <= Nat.iter (List.length fs) (Qmult 0.8) c.
Proof.
  induction fs as [|f fs IH]; intros r s c Hall Hs Hsc.
  - exists s. split; [exact Hs|]. split; [exact Hsc|]. cbn. tauto.
  - inversion Hall as [|f' fs' Hf Hrest]; subst.
    destruct (far_hand_frame f r s Hf Hs) as (s1 & _ & Hs1 & E1 & _).
    cbn [run]. destruct (frame f r) as [r1 o]. cbn [fst] in Hs1.
    destruct (IH r1 s1 (0.8 * c) Hrest Hs1 ltac:(lra))
      as (s' & Hs' & Hb & Hiter).
    destruct (run fs r1) as [r2 os]. cbn [fst] in *.
    exists s'. split; [exact Hs'|]. split; [lra|].
    cbn [List.length]. rewrite Nat.iter_succ_r. exact Hiter.
Qed.

(** Holding the hand at the far position releases the command: under
    references [minScale < maxScale] in stage 3, once 13 successive
    frames have shown a hand whose span is at most [minScale], every
    further such frame reports intensity 0 and the neutral command,
    wherever in [[0, 1]] the filter state started. *)
Theorem far_hand_releases_command (fs : list Frame) (f : Frame) (r : Refs) :
  Forall farHandFrame fs -> farHandFrame f -> unitState r ->
  (13 <= List.length fs)%nat ->
  let o := snd (frame f (fst (run fs r))) in
  emittedIntensity o = Some (Fin 0) /\ emittedRC o = Some baseRC.
Proof.
  intros Hall Hf (s0 & Hs0 & Hunit) Hlen o. subst o.
  rewrite <- (firstn_skipn 13 fs) in Hall.
  apply Forall_app in Hall. destruct Hall as [Hfirst Hlast].
  rewrite <- (firstn_skipn 13 fs), run_frames_app.
  destruct (far_hand_run _ r s0 1 Hfirst Hs0 Hunit) as (s1 & Hs1 & Hb1 & Hd1).
  rewrite (firstn_length_le fs Hlen) in Hd1.
  assert (Hpow : Nat.iter 13 (Qmult 0.8) 1 <= 0.055)
    by (vm_compute; discriminate).
  destruct (far_hand_run _ _ s1 s1 Hlast Hs1 ltac:(lra))
    as (s2 & Hs2 & Hb2 & _).
  destruct (far_hand_frame f _ s2 Hf Hs2) as (s3 & g & _ & Hs3 & Ei & Erc).
  assert (Hzero : deadzone (Fin s3) = Fin 0).
  { unfold deadzone, APP_CONFIG.DEADZONE, gtb. cbn [ltb]. unfold Qlt_bool.
    assert (Hle : Qle_bool s3 0.05 = true) by (apply Qle_bool_iff; lra).
    now rewrite Hle. }
  rewrite Ei, Erc, Hzero, rcMapping_zero. split; reflexivity.
Qed.

Lemma far_hand_releases_command_witness :
  let cal := mkCalibration Ready (Fin (1 # 4)) (Fin (1 # 2)) in
  let hand := dyadicHand 0.5 true false false false in
  let f := handFrame cal 1000 hand in
  let fs := repeat f 13 in
  let r := mkRefs (mkLogic (Fin 1) (Fin 0)) 0 baseRC in
  (Forall farHandFrame fs /\ farHandFrame f /\ unitState r /\
   (13 <= List.length fs)%nat) /\
  emittedIntensity (snd (frame f (fst (run fs r)))) = Some (Fin 0) /\
  emittedRC (snd (frame f (fst (run fs r)))) = Some baseRC.
Proof.
  intros cal hand f fs r.
  assert (Hf : farHandFrame f).
  { split; [reflexivity|]. split; [reflexivity|]. split; [reflexivity|].
    exists hand, (1 # 4), (1 # 2), (1 # 4).
    split; [reflexivity|]. split; [cbn; lia|].
    split; [reflexivity|]. split; [reflexivity|].
    split; [vm_compute; reflexivity|].
    split; [apply Qle_refl | reflexivity]. }
  assert (Hall : Forall farHandFrame fs).
  { apply Forall_forall. intros x Hx. apply repeat_spec in Hx.
    rewrite Hx. exact Hf. }
  assert (Hr : unitState r).
  { exists 1. split; [reflexivity|]. split; discriminate. }
  assert (Hlen : (13 <= List.length fs)%nat)
    by (apply Nat.leb_le; vm_compute; reflexivity).
  split; [exact (conj Hall (conj Hf (conj Hr Hlen)))|].
  exact (far_hand_releases_command fs f r Hall Hf Hr Hlen).
Defined.
